(** * Evidence pipeline of the agentic RAG answer engine

    A shallow embedding of the four core units of the repository
    (ingestion/chunking.py, agents/router_agent.py, agents/fusion_agent.py,
    agents/answer_agent.py) together with the properties stated about them,
    and of the code around them: the mock LLM (llm/mock_llm.py), the node
    building and document adding of ingestion/index_builder.py, and the
    orchestrator (orchestration/graph.py).

    Conventions.
    - Python [str] is [string]; the characters are the 8-bit code points
      (Latin-1), which is the range every keyword and separator of the
      source lives in.
    - Python [int] is [Z]; counters that only grow from zero are [nat].
    - Python [float] is [pyfloat]: a rational, the two infinities or NaN.
      Finite arithmetic is exact (rounding is not modelled).
    - a [dict] with string keys is a [gmap string _]; a [set] of strings is
      a [gset string].
    - a [while] loop is a fuelled recursion that answers [OutOfFuel] when
      the fuel does not suffice; raising is the [Raise] outcome. *)

From Stdlib Require Import ZArith QArith String Ascii List Lia Lqa.
From Stdlib Require Import DecimalNat DecimalString Permutation.
From stdpp Require Import base gmap sets list strings sorting.

Local Open Scope string_scope.
Local Open Scope list_scope.
Local Open Scope Z_scope.

(** ** Outcomes of a call *)

Inductive exn : Type :=
| ValueError (msg : string)
| RuntimeError (msg : string).

Inductive outcome (A : Type) : Type :=
| Return (a : A)
| Raise (e : exn)
| OutOfFuel.

Arguments Return {A} a.
Arguments Raise {A} e.
Arguments OutOfFuel {A}.

(** ** The Python string primitives the source calls *)

Module Py.

Definition newline : ascii := "010"%char.
Definition period : ascii := "."%char.

Definition len (s : string) : Z := Z.of_nat (String.length s).

(** Index adjustment of [s[i:j]], [s.rfind(c, i, j)]: a negative index
    counts from the end, and everything is clamped to [0, len]. *)
Definition adjust (n i : Z) : Z :=
  if i <? 0 then Z.max 0 (i + n) else Z.min i n.

(** [s[i:j]] *)
Definition slice (s : string) (i j : Z) : string :=
  let a := adjust (len s) i in
  let b := adjust (len s) j in
  String.substring (Z.to_nat a) (Z.to_nat (b - a)) s.

(** [s[:n]] for a literal [n >= 0] *)
Fixpoint prefix (n : nat) (s : string) : string :=
  match n, s with
  | S n', String c r => String c (prefix n' r)
  | _, _ => ""
  end.

Fixpoint rfind_from (c : ascii) (s : string) (i lo hi last : Z) : Z :=
  match s with
  | "" => last
  | String x r =>
      rfind_from c r (i + 1) lo hi
        (if (lo <=? i) && (i <? hi) && Ascii.eqb x c then i else last)
  end.

(** [s.rfind(c, i, j)] for a one-character [c]: the highest index in the
    adjusted range that holds [c], or -1. *)
Definition rfind (c : ascii) (s : string) (i j : Z) : Z :=
  rfind_from c s 0 (adjust (len s) i) (adjust (len s) j) (-1).

(** [c.isspace()] on the 8-bit code points: TAB..CR, FS..US, SPACE, NEL,
    NBSP. *)
Definition isspace (c : ascii) : bool :=
  let n := N_of_ascii c in
  ((9 <=? n) && (n <=? 13) || (28 <=? n) && (n <=? 32)
   || (n =? 133) || (n =? 160))%N.

Definition nonempty (s : string) : bool :=
  match s with "" => false | _ => true end.

Fixpoint lstrip (s : string) : string :=
  match s with
  | "" => ""
  | String c r => if isspace c then lstrip r else s
  end.

Fixpoint rstrip (s : string) : string :=
  match s with
  | "" => ""
  | String c r =>
      match rstrip r with
      | "" => if isspace c then "" else String c ""
      | r' => String c r'
      end
  end.

(** [s.strip()] *)
Definition strip (s : string) : string := rstrip (lstrip s).

Fixpoint split_go (s cur : string) : list string :=
  match s with
  | "" => if nonempty cur then [cur] else []
  | String c r =>
      if isspace c
      then (if nonempty cur then cur :: split_go r "" else split_go r "")
      else split_go r (cur +:+ String c "")
  end.

(** [s.split()]: the maximal runs of non-whitespace characters *)
Definition split (s : string) : list string := split_go s "".

Fixpoint split_nlnl_go (s cur : string) : list string :=
  match s with
  | "" => [cur]
  | String c r =>
      match r with
      | String c2 r2 =>
          if Ascii.eqb c newline && Ascii.eqb c2 newline
          then cur :: split_nlnl_go r2 ""
          else split_nlnl_go r (cur +:+ String c "")
      | "" => [cur +:+ String c ""]
      end
  end.

(** [s.split('\n\n')]: cut at each blank-line separator, left to right *)
Definition split_nlnl (s : string) : list string := split_nlnl_go s "".

(** [sep.join(l)] *)
Fixpoint join (sep : string) (l : list string) : string :=
  match l with
  | [] => ""
  | x :: r =>
      match r with
      | [] => x
      | _ => x +:+ sep +:+ join sep r
      end
  end.

(** [str(n)] for a non-negative integer *)
Definition str_of_nat (n : nat) : string :=
  NilEmpty.string_of_uint (Nat.to_uint n).

(** [list(enumerate(l, start=k))] *)
Fixpoint enumerate {A : Type} (k : nat) (l : list A) : list (nat * A) :=
  match l with
  | [] => []
  | x :: r => (k, x) :: enumerate (S k) r
  end.

End Py.

Arguments Py.prefix : simpl never.
Arguments Py.strip : simpl never.
Arguments Py.join : simpl nomatch.

(** ** ingestion/chunking.py *)

Inductive pyval : Type :=
| VStr (s : string)
| VInt (z : Z).

Record TextChunk : Type := mkTextChunk {
  content : string;
  metadata : gmap string pyval;
  chunk_id : string;
  source : string
}.

(** The [chunk_index] entry of a chunk's metadata *)
Definition chunk_index (c : TextChunk) : option pyval :=
  metadata c !! "chunk_index".

Module DocumentChunker.

(** The variables of the [while] loop *)
Record loop_state : Type := mkState {
  start : Z;
  chunk_counter : nat;
  chunks : list TextChunk
}.

Section chunk_text.

Variables (text : string) (chunk_size chunk_overlap : Z).
Variables (document_id source : string).

(** The value of [end] after the sentence-boundary adjustment *)
Definition window_end (start : Z) : Z :=
  let end_ := Z.min (start + chunk_size) (Py.len text) in
  if end_ <? Py.len text then
    let last_period := Py.rfind Py.period text start end_ in
    let last_newline := Py.rfind Py.newline text start end_ in
    let last_boundary := Z.max last_period last_newline in
    if last_boundary >? start then last_boundary + 1 else end_
  else end_.

Definition make_chunk (chunk_content : string) (counter : nat) (start end_ : Z)
  : TextChunk :=
  mkTextChunk
    chunk_content
    (<["document_id" := VStr document_id]>
     (<["source" := VStr source]>
     (<["chunk_index" := VInt (Z.of_nat counter)]>
     (<["start_position" := VInt start]>
     (<["end_position" := VInt end_]> ∅)))))
    (document_id +:+ "_chunk_" +:+ Py.str_of_nat counter)
    source.

(** One pass through the body of the [while] loop *)
Definition loop_body (st : loop_state) : loop_state :=
  let end_ := window_end (start st) in
  let chunk_content := Py.strip (Py.slice text (start st) end_) in
  if Py.nonempty chunk_content then
    {| start := end_ - chunk_overlap;
       chunk_counter := S (chunk_counter st);
       chunks := chunks st ++ [make_chunk chunk_content (chunk_counter st) (start st) end_] |}
  else
    {| start := end_ - chunk_overlap;
       chunk_counter := chunk_counter st;
       chunks := chunks st |}.

Fixpoint chunk_loop (fuel : nat) (st : loop_state) : outcome (list TextChunk) :=
  if start st <? Py.len text then
    match fuel with
    | O => OutOfFuel
    | S fuel' => chunk_loop fuel' (loop_body st)
    end
  else Return (chunks st).

Definition initial : loop_state :=
  {| start := 0; chunk_counter := 0; chunks := [] |}.

Definition chunk_text (fuel : nat) : outcome (list TextChunk) :=
  if chunk_overlap >=? chunk_size
  then Raise (ValueError "chunk_overlap must be less than chunk_size")
  else chunk_loop fuel initial.

End chunk_text.

Module Sections.

(** The chunk built for paragraph number [idx] *)
Definition make_chunk (document_id source : string) (para : string) (idx : nat)
  : TextChunk :=
  mkTextChunk
    para
    (<["document_id" := VStr document_id]>
     (<["source" := VStr source]>
     (<["chunk_index" := VInt (Z.of_nat idx)]> ∅)))
    (document_id +:+ "_section_" +:+ Py.str_of_nat idx)
    source.

(** The [for idx, para in enumerate(paragraphs)] loop *)
Fixpoint for_loop (document_id source : string)
  (items : list (nat * string)) (chunks : list TextChunk) : list TextChunk :=
  match items with
  | [] => chunks
  | (idx, para) :: rest =>
      let para := Py.strip para in
      if Py.nonempty para
      then for_loop document_id source rest
             (chunks ++ [make_chunk document_id source para idx])
      else for_loop document_id source rest chunks
  end.

End Sections.

Definition chunk_by_sections (text document_id source : string) : list TextChunk :=
  let paragraphs := Py.split_nlnl text in
  Sections.for_loop document_id source (Py.enumerate 0 paragraphs) [].

Module Tokens.

(** [len(chunk_words) >= max_tokens / 1.3], decided on the rationals:
    [n >= m / 1.3] iff [13 n >= 10 m]. *)
Definition reached (n : nat) (max_tokens : Z) : bool :=
  10 * max_tokens <=? 13 * Z.of_nat n.

Definition make_chunk (document_id source : string) (content : string)
  (counter word_count : nat) : TextChunk :=
  mkTextChunk
    content
    (<["document_id" := VStr document_id]>
     (<["source" := VStr source]>
     (<["chunk_index" := VInt (Z.of_nat counter)]>
     (<["word_count" := VInt (Z.of_nat word_count)]> ∅))))
    (document_id +:+ "_token_chunk_" +:+ Py.str_of_nat counter)
    source.

Record loop_state : Type := mkState {
  chunk_words : list string;
  chunk_counter : nat;
  chunks : list TextChunk
}.

(** The [for word in words] loop *)
Fixpoint for_loop (max_tokens : Z) (document_id source : string)
  (words : list string) (st : loop_state) : loop_state :=
  match words with
  | [] => st
  | word :: rest =>
      let chunk_words := chunk_words st ++ [word] in
      if reached (length chunk_words) max_tokens then
        let content := Py.strip (Py.join " " chunk_words) in
        if Py.nonempty content then
          for_loop max_tokens document_id source rest
            {| chunk_words := [];
               chunk_counter := S (chunk_counter st);
               chunks := chunks st ++
                 [make_chunk document_id source content (chunk_counter st)
                    (length chunk_words)] |}
        else
          for_loop max_tokens document_id source rest
            {| chunk_words := [];
               chunk_counter := chunk_counter st;
               chunks := chunks st |}
      else
        for_loop max_tokens document_id source rest
          {| chunk_words := chunk_words;
             chunk_counter := chunk_counter st;
             chunks := chunks st |}
  end.

(** The final [if chunk_words:] flush *)
Definition flush (document_id source : string) (st : loop_state) : list TextChunk :=
  match chunk_words st with
  | [] => chunks st
  | _ =>
      let content := Py.strip (Py.join " " (chunk_words st)) in
      chunks st ++
        [make_chunk document_id source content (chunk_counter st)
           (length (chunk_words st))]
  end.

End Tokens.

Definition chunk_by_tokens (text : string) (max_tokens : Z)
  (document_id source : string) : list TextChunk :=
  let words := Py.split text in
  Tokens.flush document_id source
    (Tokens.for_loop max_tokens document_id source words
       {| Tokens.chunk_words := []; Tokens.chunk_counter := 0; Tokens.chunks := [] |}).

End DocumentChunker.

(** ** What the claims say about a list of chunks *)

(** A string whose first character is not whitespace *)
Definition starts_visible (s : string) : Prop :=
  match s with
  | "" => False
  | String c _ => Py.isspace c = false
  end.

(** The [chunk_index] values are exactly 0, 1, ..., n-1, in this order *)
Definition indexed_from_zero (l : list TextChunk) : Prop :=
  chunk_index <$> l = (λ i : nat, Some (VInt (Z.of_nat i))) <$> seq 0 (length l).

(** The [chunk_index] values are the integers [js], in this order *)
Definition indexed_by (js : list nat) (l : list TextChunk) : Prop :=
  chunk_index <$> l = (λ i : nat, Some (VInt (Z.of_nat i))) <$> js.

Definition strictly_increasing (js : list nat) : Prop :=
  StronglySorted lt js.

Definition contents_nonempty (l : list TextChunk) : Prop :=
  Forall (λ c, content c ≠ "") l.

(** ["This is a sentence. " * 200], the text of tests/test_chunking.py *)
Definition test_text : string :=
  Py.join "" (replicate 200 "This is a sentence. ").

(** What holds of the loop variables of [chunk_text] at every iteration *)
Definition loop_invariant (st : DocumentChunker.loop_state) : Prop :=
  length (DocumentChunker.chunks st) = DocumentChunker.chunk_counter st ∧
  indexed_from_zero (DocumentChunker.chunks st) ∧
  contents_nonempty (DocumentChunker.chunks st).

(** The paragraph positions that [chunk_by_sections] keeps: those whose
    stripped paragraph is not empty *)
Definition kept_positions (items : list (nat * string)) : list nat :=
  omap (λ it : nat * string,
          if Py.nonempty (Py.strip it.2) then Some it.1 else None) items.

(** What holds of the loop variables of [chunk_by_tokens] *)
Definition tokens_invariant (st : DocumentChunker.Tokens.loop_state) : Prop :=
  length (DocumentChunker.Tokens.chunks st) = DocumentChunker.Tokens.chunk_counter st ∧
  indexed_from_zero (DocumentChunker.Tokens.chunks st) ∧
  contents_nonempty (DocumentChunker.Tokens.chunks st) ∧
  Forall starts_visible (DocumentChunker.Tokens.chunk_words st).

(** Two paragraphs around an empty one: ["a\n\n\n\nb"] *)
Definition text_with_empty_paragraph : string :=
  "a" +:+ String Py.newline (String Py.newline (String Py.newline
    (String Py.newline "b"))).

(** ** agents/router_agent.py *)

(** The regular expressions of the keyword tables, and [re.search] *)
Module Re.

Inductive regex : Type :=
| Eps
| Chr (c : ascii)
| Digit
| Cat (r1 r2 : regex)
| Alt (r1 r2 : regex).

(** A literal word *)
Fixpoint lit (s : string) : regex :=
  match s with
  | "" => Eps
  | String c r => Cat (Chr c) (lit r)
  end.

(** [\d] on the 8-bit code points *)
Definition isdigit (c : ascii) : bool :=
  let n := N_of_ascii c in ((48 <=? n) && (n <=? 57))%N.

(** [r] matches a prefix of [s] and [k] accepts the rest *)
Fixpoint matches (r : regex) (s : string) (k : string -> bool) : bool :=
  match r with
  | Eps => k s
  | Chr c =>
      match s with
      | String x s' => Ascii.eqb x c && k s'
      | "" => false
      end
  | Digit =>
      match s with
      | String x s' => isdigit x && k s'
      | "" => false
      end
  | Cat r1 r2 => matches r1 s (λ s', matches r2 s' k)
  | Alt r1 r2 => matches r1 s k || matches r2 s k
  end.

(** [re.search(r, s)] finds a match: at some position of [s] *)
Fixpoint search (r : regex) (s : string) : bool :=
  matches r s (λ _, true) ||
  match s with
  | "" => false
  | String _ s' => search r s'
  end.

End Re.

Module PyStr.

(** [c.lower()] on the 8-bit code points: A..Z and the accented capitals *)
Definition lower_char (c : ascii) : ascii :=
  let n := N_of_ascii c in
  if ((65 <=? n) && (n <=? 90)
      || (192 <=? n) && (n <=? 222) && negb (n =? 215))%N
  then ascii_of_N (n + 32)
  else c.

(** [s.lower()] *)
Fixpoint lower (s : string) : string :=
  match s with
  | "" => ""
  | String c r => String (lower_char c) (lower r)
  end.

End PyStr.

(** The values a runtime-metadata dict holds *)
Inductive pyobj : Type :=
| ONone
| OBool (b : bool)
| OInt (z : Z)
| OStr (s : string).

(** [bool(v)] *)
Definition truthy (v : pyobj) : bool :=
  match v with
  | ONone => false
  | OBool b => b
  | OInt z => negb (z =? 0)
  | OStr s => Py.nonempty s
  end.

Module RouterAgent.

Definition WEB_KEYWORDS : list Re.regex :=
  [ Re.lit "latest";
    Re.lit "recent";
    Re.Cat (Re.lit "202") Re.Digit;
    Re.lit "research";
    Re.lit "report";
    Re.lit "news";
    Re.lit "trends";
    Re.Cat (Re.lit "stat") (Re.Alt (Re.lit "e") (Re.lit "istics")) ].

Definition INTERNAL_KEYWORDS : list Re.regex :=
  [ Re.lit "our";
    Re.lit "internal";
    Re.lit "company";
    Re.lit "client";
    Re.lit "confidential" ].

Definition _looks_like_web_query (query : string) : bool :=
  let q := PyStr.lower query in
  existsb (λ kw, Re.search kw q) WEB_KEYWORDS.

Definition _looks_like_internal_only (query : string) : bool :=
  let q := PyStr.lower query in
  existsb (λ kw, Re.search kw q) INTERNAL_KEYWORDS.

Record decision : Type := mkDecision {
  use_documents : bool;
  use_web : bool;
  reason : string
}.

Definition decide (query : string) (metadata : gmap string pyobj) : decision :=
  let has_docs := truthy (default (OBool false) (metadata !! "has_uploaded_docs")) in
  if has_docs && _looks_like_internal_only query then
    mkDecision true false "Internal scope detected"
  else
    let web_needed := _looks_like_web_query query in
    if has_docs && web_needed then
      mkDecision true true "Combined: internal + recent/external"
    else if has_docs && negb web_needed then
      mkDecision true false "Documents sufficient"
    else if negb has_docs && web_needed then
      mkDecision false true "No docs, web search required"
    else
      mkDecision has_docs true "Default to both when uncertain".

End RouterAgent.

(** ** Python floats *)

Inductive pyfloat : Type :=
| Fin (q : Q)
| PosInf
| NegInf
| NaN.

Module F.

Definition inf_of_sign (c : comparison) : pyfloat :=
  match c with
  | Gt => PosInf
  | Lt => NegInf
  | Eq => NaN
  end.

(** [x * y] *)
Definition mul (x y : pyfloat) : pyfloat :=
  match x, y with
  | NaN, _ | _, NaN => NaN
  | Fin a, Fin b => Fin (a * b)
  | Fin a, PosInf | PosInf, Fin a => inf_of_sign (a ?= 0)%Q
  | Fin a, NegInf | NegInf, Fin a => inf_of_sign (0 ?= a)%Q
  | PosInf, PosInf | NegInf, NegInf => PosInf
  | PosInf, NegInf | NegInf, PosInf => NegInf
  end.

(** [x < y]; false as soon as NaN takes part *)
Definition ltb (x y : pyfloat) : bool :=
  match x, y with
  | NaN, _ | _, NaN => false
  | Fin a, Fin b => match (a ?= b)%Q with Lt => true | _ => false end
  | NegInf, NegInf => false
  | NegInf, _ => true
  | PosInf, _ => false
  | Fin _, PosInf => true
  | Fin _, NegInf => false
  end.

(** [min(a, b)]: the builtin keeps [a] unless [b < a] *)
Definition min (a b : pyfloat) : pyfloat :=
  if ltb b a then b else a.

(** [bool(x)] *)
Definition truthy (x : pyfloat) : bool :=
  match x with
  | Fin q => negb (Qeq_bool q 0)
  | _ => true
  end.

Definition one : pyfloat := Fin 1.0%Q.

(** A finite value of the closed interval [0, 1] *)
Definition in_unit_interval (x : pyfloat) : Prop :=
  match x with
  | Fin q => (0 <= q <= 1)%Q
  | _ => False
  end.

(** Not NaN and at most 1 *)
Definition at_most_one (x : pyfloat) : Prop :=
  match x with
  | Fin q => (q <= 1)%Q
  | NegInf => True
  | PosInf | NaN => False
  end.

(** A negative number: a finite one below zero, or minus infinity *)
Definition negative (x : pyfloat) : Prop :=
  match x with
  | Fin q => (q < 0)%Q
  | NegInf => True
  | PosInf | NaN => False
  end.

End F.

(** ** agents/fusion_agent.py *)

(** The value under the [score] key of a document hit: the retriever
    writes a number, or [None] for a node without score. *)
Inductive score_value : Type :=
| ScoreNone
| ScoreNum (x : pyfloat).

(** A document hit: a dict whose keys may be missing *)
Module DocHit.
Record t : Type := mk {
  content : option string;
  text : option string;
  score : option score_value;
  source : option string;
  metadata : option (gmap string string)
}.
End DocHit.

(** A web hit: a dict whose keys may be missing *)
Module WebHit.
Record t : Type := mk {
  title : option string;
  url : option string;
  snippet : option string;
  confidence : option pyfloat
}.
End WebHit.

(** A citation dict; [source] and [url] may hold [None] *)
Module Citation.
Record t : Type := mk {
  claim : string;
  source_type : string;
  source : option string;
  url : option string;
  confidence : pyfloat
}.
End Citation.

(** [x or y] on an optional string: [None] and [''] are falsy *)
Definition str_or (x y : option string) : option string :=
  match x with
  | Some s => if Py.nonempty s then x else y
  | None => y
  end.

(** [f"{x}"] of a string or [None] *)
Definition str_of_opt (x : option string) : string :=
  match x with
  | Some s => s
  | None => "None"
  end.

Module FusionAgent.

(** [self.source_priority] *)
Definition source_priority : gmap string pyfloat :=
  <["document" := Fin 1.2%Q]> (<["internet" := Fin 1.0%Q]> ∅).

Definition priority (k : string) : pyfloat :=
  default NaN (source_priority !! k).

Definition _normalize_snippet (text : string) : string :=
  Py.prefix 500 (Py.join " " (Py.split (Py.strip text))).

Definition _make_citation (claim source_type : string) (source url : option string)
  (confidence : pyfloat) : Citation.t :=
  Citation.mk claim source_type source url confidence.

(** [d.get('content', d.get('text', ''))] *)
Definition doc_text (d : DocHit.t) : string :=
  default (default "" (DocHit.text d)) (DocHit.content d).

(** [d.get('score') or 0.6] *)
Definition doc_score (d : DocHit.t) : pyfloat :=
  match DocHit.score d with
  | Some (ScoreNum x) => if F.truthy x then x else Fin 0.6%Q
  | Some ScoreNone | None => Fin 0.6%Q
  end.

(** [d.get('source', d.get('metadata', {}).get('source', 'internal'))] *)
Definition doc_source (d : DocHit.t) : string :=
  default (default "internal" (default ∅ (DocHit.metadata d) !! "source"))
    (DocHit.source d).

(** [d.get('metadata', {}).get('original_path') or None] *)
Definition doc_url (d : DocHit.t) : option string :=
  str_or (default ∅ (DocHit.metadata d) !! "original_path") None.

(** The citation the first loop builds for a document hit *)
Definition doc_citation (d : DocHit.t) : Citation.t :=
  let snippet := _normalize_snippet (doc_text d) in
  let score := doc_score d in
  _make_citation snippet "document" (Some (doc_source d)) (doc_url d)
    (F.min F.one (F.mul score (priority "document"))).

(** [w.get('snippet', w.get('title', ''))] *)
Definition web_text (w : WebHit.t) : string :=
  default (default "" (WebHit.title w)) (WebHit.snippet w).

(** [w.get('confidence', 0.5)] *)
Definition web_score (w : WebHit.t) : pyfloat :=
  default (Fin 0.5%Q) (WebHit.confidence w).

(** The citation the second loop builds for a web hit *)
Definition web_citation (w : WebHit.t) : Citation.t :=
  let snippet := _normalize_snippet (web_text w) in
  let score := web_score w in
  _make_citation snippet "internet"
    (str_or (WebHit.title w) (WebHit.url w)) (WebHit.url w)
    (F.min F.one (F.mul score (priority "internet"))).

(** The variables [merged] and [seen] *)
Record loop_state : Type := mkState {
  merged : list Citation.t;
  seen : gset string
}.

(** [for d in doc_results or []] *)
Fixpoint docs_loop (ds : list DocHit.t) (st : loop_state) : loop_state :=
  match ds with
  | [] => st
  | d :: rest =>
      let snippet := _normalize_snippet (doc_text d) in
      let key := Py.prefix 200 snippet in
      if bool_decide (key ∈ seen st) then docs_loop rest st
      else
        docs_loop rest
          {| merged := merged st ++ [doc_citation d];
             seen := {[key]} ∪ seen st |}
  end.

(** [for w in web_results or []] *)
Fixpoint webs_loop (ws : list WebHit.t) (st : loop_state) : loop_state :=
  match ws with
  | [] => st
  | w :: rest =>
      let snippet := _normalize_snippet (web_text w) in
      let key := Py.prefix 200 snippet in
      if bool_decide (key ∈ seen st) then webs_loop rest st
      else
        webs_loop rest
          {| merged := merged st ++ [web_citation w];
             seen := {[key]} ∪ seen st |}
  end.

(** Insertion of [c] into a list ranked by descending confidence, before
    the first citation of strictly lower or equal rank: [c] came first *)
Fixpoint insert_ranked (c : Citation.t) (l : list Citation.t) : list Citation.t :=
  match l with
  | [] => [c]
  | y :: l' =>
      if F.ltb (Citation.confidence c) (Citation.confidence y)
      then y :: insert_ranked c l'
      else c :: l
  end.

(** [sorted(merged, key=lambda x: x['confidence'], reverse=True)]: the
    stable sort by descending confidence *)
Fixpoint sorted_by_confidence (l : list Citation.t) : list Citation.t :=
  match l with
  | [] => []
  | c :: l' => insert_ranked c (sorted_by_confidence l')
  end.

Definition summary_line (item : nat * Citation.t) : string :=
  "[" +:+ Py.str_of_nat item.1 +:+ "] (" +:+ Citation.source_type item.2 +:+ ") "
  +:+ Py.prefix 300 (Citation.claim item.2) +:+ " -- source: "
  +:+ str_of_opt (Citation.source item.2).

Definition _build_summary_prompt (citations : list Citation.t) : string :=
  let lines :=
    ["Synthesize the following evidence into a concise, grounded answer with inline citations:"]
    ++ (summary_line <$> Py.enumerate 1 (take 10 citations))
    ++ [String Py.newline
          "Provide a short answer (3-5 sentences) and list the sources by number."] in
  Py.join (String Py.newline "") lines.

Record fused : Type := mkFused {
  evidence : list Citation.t;
  summary_prompt : string
}.

(** The list [merged] after both loops, before ranking *)
Definition merge (doc_results : option (list DocHit.t))
  (web_results : option (list WebHit.t)) : list Citation.t :=
  let st := docs_loop (default [] doc_results) {| merged := []; seen := ∅ |} in
  let st := webs_loop (default [] web_results) st in
  merged st.

Definition fuse (doc_results : option (list DocHit.t))
  (web_results : option (list WebHit.t)) : fused :=
  let merged := merge doc_results web_results in
  let merged := sorted_by_confidence merged in
  let summary_prompt := _build_summary_prompt merged in
  {| evidence := merged; summary_prompt := summary_prompt |}.

End FusionAgent.

(** ** What the claims say about fusion *)

(** The dedup key of a citation: the first 200 characters of its claim *)
Definition citation_key (c : Citation.t) : string :=
  Py.prefix 200 (Citation.claim c).

(** The candidates in processing order: document hits, then web hits *)
Definition candidates (doc_results : option (list DocHit.t))
  (web_results : option (list WebHit.t)) : list Citation.t :=
  (FusionAgent.doc_citation <$> default [] doc_results)
  ++ (FusionAgent.web_citation <$> default [] web_results).

(** Deduplication as the spec words it: the first-seen citation of a key
    is kept, a later one with a key already seen is dropped whole. *)
Fixpoint keep_first_seen (cs : list Citation.t) (seen : gset string)
  : list Citation.t :=
  match cs with
  | [] => []
  | c :: rest =>
      if bool_decide (citation_key c ∈ seen) then keep_first_seen rest seen
      else c :: keep_first_seen rest ({[citation_key c]} ∪ seen)
  end.

(** [c] is the first of the candidates [cs] that carries its key *)
Definition first_with_key (c : Citation.t) (cs : list Citation.t) : Prop :=
  ∃ l1 l2, cs = l1 ++ c :: l2 ∧ citation_key c ∉ (citation_key <$> l1).

(** Equality of floats as numbers *)
Definition float_eq (x y : pyfloat) : Prop :=
  match x, y with
  | Fin a, Fin b => (a == b)%Q
  | PosInf, PosInf | NegInf, NegInf | NaN, NaN => True
  | _, _ => False
  end.

(** The sample hits of the counterexamples and examples *)
Definition doc_hit (content : string) (score : option score_value) : DocHit.t :=
  DocHit.mk (Some content) None score (Some "report.pdf") None.

Definition web_hit (snippet : string) (confidence : option pyfloat) : WebHit.t :=
  WebHit.mk (Some "Example page") (Some "https://example.org") (Some snippet)
    confidence.

(** No hit carries a negative score *)
Definition scores_not_negative (doc_results : option (list DocHit.t))
  (web_results : option (list WebHit.t)) : Prop :=
  (∀ d x, d ∈ default [] doc_results →
     DocHit.score d = Some (ScoreNum x) → ¬ F.negative x) ∧
  (∀ w x, w ∈ default [] web_results →
     WebHit.confidence w = Some x → ¬ F.negative x).

(** ** agents/answer_agent.py *)

(** [x or d] for an optional string [x] and a string [d] *)
Definition str_or_default (x : option string) (d : string) : string :=
  match x with
  | Some s => if Py.nonempty s then s else d
  | None => d
  end.

Module AnswerAgent.

(** A chat message: the dict with the keys [role] and [content] *)
Record message : Type := mkMessage {
  role : string;
  content : string
}.

(** The text-generation collaborator: [llm.chat(messages)] returns a text
    or raises *)
Definition llm : Type := list message -> outcome string.

Record answer_result : Type := mkAnswer {
  answer : string;
  citations : list Citation.t;
  sources_text : string
}.

(** The line [f"[{i}] {src} ({stype})"] *)
Definition citation_line (item : nat * Citation.t) : string :=
  let c := item.2 in
  let src := str_or_default (str_or (Citation.source c) (Citation.url c)) "unknown" in
  let stype := Citation.source_type c in
  "[" +:+ Py.str_of_nat item.1 +:+ "] " +:+ src +:+ " (" +:+ stype +:+ ")".

(** [for i, c in enumerate(citations, start=1): lines.append(...)] *)
Fixpoint format_loop (items : list (nat * Citation.t)) (lines : list string)
  : list string :=
  match items with
  | [] => lines
  | item :: rest => format_loop rest (lines ++ [citation_line item])
  end.

Definition _format_citations (citations : list Citation.t) : string :=
  let lines := format_loop (Py.enumerate 1 citations) [] in
  Py.join (String Py.newline "") lines.

(** The line [f"[{i}] {claim} (source: {src})"] *)
Definition prompt_line (item : nat * Citation.t) : string :=
  let c := item.2 in
  "[" +:+ Py.str_of_nat item.1 +:+ "] " +:+ Citation.claim c +:+ " (source: "
  +:+ str_of_opt (Citation.source c) +:+ ")".

Fixpoint prompt_loop (items : list (nat * Citation.t)) (prompt_lines : list string)
  : list string :=
  match items with
  | [] => prompt_lines
  | item :: rest => prompt_loop rest (prompt_lines ++ [prompt_line item])
  end.

Definition build_messages (citations : list Citation.t) (user_query : string)
  : list message :=
  let prompt_lines :=
    [ "You are an assistant that must not hallucinate. Answer concisely using only the provided evidence.";
      "User question: " +:+ user_query;
      "Evidence:" ] in
  let prompt_lines := prompt_loop (Py.enumerate 1 (take 15 citations)) prompt_lines in
  let prompt_lines := prompt_lines ++
    [ String Py.newline
        "Produce a short answer (3-6 sentences) and attach inline numeric citations like [1], [2]. Then list the referenced sources and their metadata." ] in
  let prompt := Py.join (String Py.newline "") prompt_lines in
  [ mkMessage "system"
      "You are a helpful assistant that must cite sources and avoid adding new facts.";
    mkMessage "user" prompt ].

Definition generate_answer (chat : llm) (fused : FusionAgent.fused)
  (user_query : string) : outcome answer_result :=
  let citations := FusionAgent.evidence fused in
  let messages := build_messages citations user_query in
  match chat messages with
  | Return resp =>
      let sources_text := _format_citations citations in
      Return {| answer := resp; citations := citations; sources_text := sources_text |}
  | Raise e =>
      (* except Exception: the deterministic fallback *)
      let short := Py.join " " (Citation.claim <$> take 3 citations) in
      let sources_text := _format_citations citations in
      Return {| answer := short; citations := citations; sources_text := sources_text |}
  | OutOfFuel => OutOfFuel
  end.

End AnswerAgent.

(** A collaborator that raises on every call *)
Definition failing_llm : AnswerAgent.llm :=
  λ _, Raise (RuntimeError "generation failed").

(** ** What the further properties say about chunks *)

(** The window of the text a chunk of [chunk_text] was cut from, as its
    metadata records it *)
Definition located_in (text : string) (chunk_size : Z) (c : TextChunk) : Prop :=
  ∃ s e : Z,
    0 <= s ∧ s < e ∧ e <= Py.len text ∧ e - s <= chunk_size ∧
    metadata c !! "start_position" = Some (VInt s) ∧
    metadata c !! "end_position" = Some (VInt e) ∧
    content c = Py.strip (Py.slice text s e).

(** What holds of the loop variables of [chunk_text] when no window
    overlaps the previous one *)
Definition located_invariant (text : string) (chunk_size : Z)
  (st : DocumentChunker.loop_state) : Prop :=
  0 <= DocumentChunker.start st ∧
  Forall (located_in text chunk_size) (DocumentChunker.chunks st).

(** The [word_count] entry of a chunk's metadata *)
Definition word_count (c : TextChunk) : option pyval :=
  metadata c !! "word_count".

(** No character of [s] is whitespace *)
Fixpoint all_visible (s : string) : Prop :=
  match s with
  | "" => True
  | String c r => Py.isspace c = false ∧ all_visible r
  end.

(** A word: a non-empty run of visible characters *)
Definition is_word (w : string) : Prop := w ≠ "" ∧ all_visible w.

(** The chunk id is the document id, the strategy's tag and the decimal
    [chunk_index] *)
Definition id_follows_index (document_id tag : string) (c : TextChunk) : Prop :=
  ∃ i : nat,
    chunk_index c = Some (VInt (Z.of_nat i)) ∧
    chunk_id c = document_id +:+ tag +:+ Py.str_of_nat i.

(** The content has no whitespace at either end *)
Definition trimmed (c : TextChunk) : Prop :=
  Py.strip (content c) = content c.

(** A string that does not start with whitespace *)
Definition no_leading_space (s : string) : Prop :=
  match s with
  | "" => True
  | String c _ => Py.isspace c = false
  end.

(** What [chunk_by_tokens] records in a chunk built from the words [ws] *)
Definition token_chunk_of (max_tokens : Z) (ws : list string) (c : TextChunk)
  : Prop :=
  content c = Py.strip (Py.join " " ws) ∧
  word_count c = Some (VInt (Z.of_nat (length ws))) ∧
  ws ≠ [] ∧ Forall is_word ws ∧
  (length ws = 1%nat ∨
   DocumentChunker.Tokens.reached (length ws - 1) max_tokens = false).

(** What holds of the loop variables of [chunk_by_tokens] once the words
    [done] are consumed: the chunks hold groups of words that reached the
    threshold, and the groups with the pending words are [done] *)
Definition tokens_words_invariant (max_tokens : Z) (done : list string)
  (st : DocumentChunker.Tokens.loop_state) : Prop :=
  (∃ groups : list (list string),
     Forall2 (token_chunk_of max_tokens) groups (DocumentChunker.Tokens.chunks st) ∧
     Forall (λ ws, DocumentChunker.Tokens.reached (length ws) max_tokens = true)
       groups ∧
     concat groups ++ DocumentChunker.Tokens.chunk_words st = done) ∧
  Forall is_word (DocumentChunker.Tokens.chunk_words st) ∧
  (DocumentChunker.Tokens.chunk_words st = [] ∨
   DocumentChunker.Tokens.reached
     (length (DocumentChunker.Tokens.chunk_words st)) max_tokens = false).

(** ** What the further properties say about routing *)

(** [bool(metadata.get("has_uploaded_docs", False))] *)
Definition has_uploaded_docs (metadata : gmap string pyobj) : bool :=
  truthy (default (OBool false) (metadata !! "has_uploaded_docs")).

(** ** What the further properties say about ranking and snippets *)

(** Two floats that sort as equal: neither is below the other *)
Definition same_rank (a b : pyfloat) : bool :=
  negb (F.ltb a b) && negb (F.ltb b a).

(** No citation is ranked below a later one *)
Definition ranked (l : list Citation.t) : Prop :=
  StronglySorted
    (λ a b, F.ltb (Citation.confidence a) (Citation.confidence b) = false) l.

(** Every whitespace character of [s] is a plain space *)
Fixpoint plain_spaces (s : string) : Prop :=
  match s with
  | "" => True
  | String c r => (Py.isspace c = true → c = " "%char) ∧ plain_spaces r
  end.

(** [FusionAgent.synthesize_answer]: its result dict *)
Module Synthesis.
Record t : Type := mk {
  answer : string;
  citations : list Citation.t
}.
End Synthesis.

(** [FusionAgent.synthesize_answer(fused)]; [get_llm] is the outcome of the
    call [get_llm()] that opens the method *)
Definition synthesize_answer (get_llm : outcome AnswerAgent.llm)
  (fused : FusionAgent.fused) : outcome Synthesis.t :=
  match get_llm with
  | Raise e => Raise e
  | OutOfFuel => OutOfFuel
  | Return chat =>
      let prompt := FusionAgent.summary_prompt fused in
      if negb (Py.nonempty prompt) then
        Return (Synthesis.mk "" (FusionAgent.evidence fused))
      else
        let messages :=
          [ AnswerAgent.mkMessage "system"
              "You are an expert assistant that must not hallucinate. Use only the provided evidence.";
            AnswerAgent.mkMessage "user" prompt ] in
        match chat messages with
        | Return resp => Return (Synthesis.mk resp (FusionAgent.evidence fused))
        | Raise e =>
            let summary :=
              Py.join " " (Citation.claim <$> take 3 (FusionAgent.evidence fused)) in
            Return (Synthesis.mk summary (FusionAgent.evidence fused))
        | OutOfFuel => OutOfFuel
        end
  end.

(** ** llm/mock_llm.py *)

Module MockLLM.

(** [complete(prompt)] *)
Definition complete (prompt : string) : string :=
  "MOCK_REPLY: " +:+ Py.prefix 200 prompt.

(** [for m in reversed(messages): if m.get('role') == 'user': return ...] *)
Fixpoint chat_loop (reversed : list AnswerAgent.message) : string :=
  match reversed with
  | [] => "MOCK_CHAT_REPLY: (no user message)"
  | m :: rest =>
      if String.eqb (AnswerAgent.role m) "user"
      then "MOCK_CHAT_REPLY: " +:+ Py.prefix 400 (AnswerAgent.content m)
      else chat_loop rest
  end.

(** [chat(messages)] *)
Definition chat (messages : list AnswerAgent.message) : string :=
  chat_loop (rev messages).

(** [float((ord(c) % 10) / 10.0)] *)
Definition embed_char (c : ascii) : pyfloat :=
  Fin (Z.of_N (N_of_ascii c) mod 10 # 10).

(** [embed(text)] *)
Definition embed (text : string) : list pyfloat :=
  let vec := embed_char <$> list_ascii_of_string (Py.prefix 128 text) in
  let vec :=
    if (length vec <? 32)%nat
    then vec ++ replicate (32 - length vec) (Fin 0.0%Q)
    else vec in
  take 32 vec.

(** The mock as the collaborator of the answer agent *)
Definition llm : AnswerAgent.llm := λ messages, Return (chat messages).

End MockLLM.

(** ** ingestion/index_builder.py *)

(** [chunk.metadata] *)
Definition chunk_metadata (chunk : TextChunk) : gmap string pyval :=
  metadata chunk.

Module IndexBuilder.

(** [TextNode(text=..., metadata=..., id_=...)] *)
Record TextNode : Type := mkNode {
  text : string;
  metadata : gmap string pyval;
  id_ : string
}.

(** [for chunk in chunks: ... nodes.append(node)] *)
Fixpoint nodes_loop (chunks : list TextChunk) (base_metadata : gmap string pyval)
  (nodes : list TextNode) : list TextNode :=
  match chunks with
  | [] => nodes
  | chunk :: rest =>
      (* {**base_metadata, **chunk.metadata}: the chunk's entries win *)
      let metadata := chunk_metadata chunk ∪ base_metadata in
      let node := mkNode (content chunk) metadata (chunk_id chunk) in
      nodes_loop rest base_metadata (nodes ++ [node])
  end.

Definition _chunks_to_nodes (chunks : list TextChunk)
  (base_metadata : gmap string pyval) : list TextNode :=
  nodes_loop chunks base_metadata [].

Section add_document.

(** [config.CHUNK_SIZE], [config.CHUNK_OVERLAP] *)
Variables (CHUNK_SIZE CHUNK_OVERLAP : Z).

(** The vector index of LlamaIndex: [VectorStoreIndex(nodes=...)] and
    [index.insert_nodes(nodes)] *)
Variable Index : Type.
Variable new_index : list TextNode -> outcome Index.
Variable insert_nodes : Index -> list TextNode -> outcome Index.

(** [add_document]; [index] is [self.index] before the call, and the
    result carries [self.index] after it *)
Definition add_document (fuel : nat) (index : option Index)
  (document_content document_id source : string)
  (metadata : option (gmap string pyval)) : outcome (string * option Index) :=
  match DocumentChunker.chunk_text document_content CHUNK_SIZE CHUNK_OVERLAP
          document_id source fuel with
  | Raise e => Raise e
  | OutOfFuel => OutOfFuel
  | Return chunks =>
      let nodes := _chunks_to_nodes chunks (default ∅ metadata) in
      let updated :=
        match index with
        | None => new_index nodes
        | Some i => insert_nodes i nodes
        end in
      match updated with
      | Return i => Return (document_id, Some i)
      | Raise e => Raise e
      | OutOfFuel => OutOfFuel
      end
  end.

End add_document.

End IndexBuilder.

(** ** orchestration/graph.py *)

Module Orchestrator.

(** The collaborators of the orchestrator: [doc_agent.retrieve(query,
    top_k=...)], [web_agent.search(query, top_k=...)] and the chat call of
    the answer agent's LLM *)
Record collaborators : Type := mkCollaborators {
  retrieve : string -> pyobj -> outcome (list DocHit.t);
  search : string -> pyobj -> outcome (list WebHit.t);
  chat : AnswerAgent.llm
}.

(** The dict [run_query] returns *)
Record response : Type := mkResponse {
  decision : RouterAgent.decision;
  doc_count : nat;
  web_count : nat;
  evidence : list Citation.t;
  answer : string;
  sources_text : string;
  citations : list Citation.t
}.

(** [try: results = call except Exception: results = []]; a call that does
    not come back leaves the query without result *)
Definition or_empty {A B : Type} (call : outcome (list A))
  (k : list A -> outcome B) : outcome B :=
  match call with
  | Return results => k results
  | Raise _ => k []
  | OutOfFuel => OutOfFuel
  end.

Definition run_query (env : collaborators) (query : string)
  (metadata : option (gmap string pyobj)) : outcome response :=
  (* metadata = metadata or {} *)
  let metadata := default ∅ metadata in
  let decision := RouterAgent.decide query metadata in
  or_empty
    (if RouterAgent.use_documents decision
     then retrieve env query (default ONone (metadata !! "top_k"))
     else Return [])
    (λ doc_results,
       or_empty
         (if RouterAgent.use_web decision
          then search env query (default (OInt 5) (metadata !! "top_k"))
          else Return [])
         (λ web_results,
            let fused := FusionAgent.fuse (Some doc_results) (Some web_results) in
            match AnswerAgent.generate_answer (chat env) fused query with
            | Return final =>
                Return
                  {| decision := decision;
                     doc_count := length doc_results;
                     web_count := length web_results;
                     evidence := FusionAgent.evidence fused;
                     answer := AnswerAgent.answer final;
                     sources_text := AnswerAgent.sources_text final;
                     citations := AnswerAgent.citations final |}
            | Raise e => Raise e
            | OutOfFuel => OutOfFuel
            end)).

End Orchestrator.

(** * Properties *)

(** ** Python primitives *)

Section py_facts.

Lemma len_nonneg (s : string) : 0 <= Py.len s.
Proof. unfold Py.len. lia. Qed.

Lemma adjust_range (n i : Z) : 0 <= n -> 0 <= Py.adjust n i <= n.
Proof. unfold Py.adjust. intros Hn. destruct (i <? 0) eqn:E; lia. Qed.

Lemma rfind_from_range (c : ascii) (s : string) (i lo hi last : Z) :
  Py.rfind_from c s i lo hi last = last \/
  (lo <= Py.rfind_from c s i lo hi last < hi).
Proof.
  revert i last. induction s as [|x r IH]; intros i last; simpl.
  - now left.
  - destruct ((lo <=? i) && (i <? hi) && Ascii.eqb x c) eqn:E.
    + destruct (IH (i + 1) i) as [H|H]; [|now right].
      right. rewrite H.
      apply andb_true_iff in E as [E _]. apply andb_true_iff in E as [E1 E2].
      lia.
    + apply IH.
Qed.

(** [rfind] answers -1 or an index of its adjusted range *)
Lemma rfind_range (c : ascii) (s : string) (i j : Z) :
  Py.rfind c s i j = -1 \/
  (Py.adjust (Py.len s) i <= Py.rfind c s i j < Py.adjust (Py.len s) j).
Proof. unfold Py.rfind. apply rfind_from_range. Qed.

Lemma rfind_lt_len (c : ascii) (s : string) (i j : Z) :
  Py.rfind c s i j < Py.len s.
Proof.
  pose proof (len_nonneg s) as Hn.
  pose proof (adjust_range (Py.len s) j Hn) as Hj.
  destruct (rfind_range c s i j) as [H|H]; lia.
Qed.

Lemma nonempty_true (s : string) : Py.nonempty s = true <-> s <> "".
Proof. destruct s; simpl; split; congruence. Qed.

Lemma strip_starts_visible (s : string) :
  starts_visible s -> Py.strip s <> "".
Proof.
  destruct s as [|c r]; simpl; [tauto|]. intros Hc.
  unfold Py.strip. simpl. rewrite Hc. simpl.
  destruct (Py.rstrip r); rewrite ?Hc; discriminate.
Qed.

Lemma starts_visible_app (s t : string) :
  starts_visible s -> starts_visible (s +:+ t).
Proof. destruct s; simpl; tauto. Qed.

Lemma split_go_visible (s cur : string) :
  cur = "" \/ starts_visible cur ->
  Forall starts_visible (Py.split_go s cur).
Proof.
  revert cur. induction s as [|c r IH]; intros cur Hcur; simpl.
  - destruct cur; simpl; [constructor|].
    destruct Hcur as [H|H]; [discriminate|]. repeat constructor. exact H.
  - destruct (Py.isspace c) eqn:Ec.
    + destruct cur; simpl.
      * apply IH. now left.
      * destruct Hcur as [H|H]; [discriminate|].
        constructor; [exact H|]. apply IH. now left.
    + apply IH. right. destruct Hcur as [->|H].
      * simpl. exact Ec.
      * now apply starts_visible_app.
Qed.

(** Every word of [s.split()] starts with a visible character *)
Lemma split_visible (s : string) : Forall starts_visible (Py.split s).
Proof. apply split_go_visible. now left. Qed.

Lemma join_starts_visible (sep : string) (w : string) (ws : list string) :
  starts_visible w -> starts_visible (Py.join sep (w :: ws)).
Proof.
  intros Hw. simpl. destruct ws; [exact Hw|]. now apply starts_visible_app.
Qed.

Lemma enumerate_length {A : Type} (k : nat) (l : list A) :
  length (Py.enumerate k l) = length l.
Proof. revert k. induction l; intros k; simpl; auto. Qed.

(** The indices of [enumerate] count up from the start value *)
Lemma enumerate_fst {A : Type} (k : nat) (l : list A) :
  fst <$> Py.enumerate k l = seq k (length l).
Proof. revert k. induction l; intros k; simpl; f_equal; auto. Qed.

Lemma prefix_length (n : nat) (s : string) :
  (String.length (Py.prefix n s) <= n)%nat.
Proof.
  revert s. induction n as [|n IH]; intros [|c r]; simpl; try lia.
  specialize (IH r). lia.
Qed.

End py_facts.

(** ** Lists of chunks *)

Lemma indexed_from_zero_snoc (l : list TextChunk) (c : TextChunk) :
  indexed_from_zero l ->
  chunk_index c = Some (VInt (Z.of_nat (length l))) ->
  indexed_from_zero (l ++ [c]).
Proof.
  unfold indexed_from_zero. intros Hl Hc.
  rewrite fmap_app, length_app, Hl. simpl.
  rewrite Nat.add_1_r, seq_S, fmap_app. simpl. now rewrite Hc.
Qed.

Lemma contents_nonempty_snoc (l : list TextChunk) (c : TextChunk) :
  contents_nonempty l -> content c <> "" -> contents_nonempty (l ++ [c]).
Proof.
  unfold contents_nonempty. intros Hl Hc.
  apply Forall_app. split; [exact Hl|]. now constructor.
Qed.

(** ** chunk_text *)

Section chunk_text_facts.

Import DocumentChunker.

Variables (text : string) (chunk_size chunk_overlap : Z).
Variables (document_id src : string).

Local Abbreviation body := (loop_body text chunk_size chunk_overlap document_id src).
Local Abbreviation loop := (chunk_loop text chunk_size chunk_overlap document_id src).

Lemma window_end_le_len (s : Z) : window_end text chunk_size s <= Py.len text.
Proof.
  unfold window_end.
  destruct (Z.min (s + chunk_size) (Py.len text) <? Py.len text) eqn:E; [|lia].
  match goal with |- (if ?b then _ else _) <= _ => destruct b end; [|lia].
  pose proof (rfind_lt_len Py.period text s (Z.min (s + chunk_size) (Py.len text))).
  pose proof (rfind_lt_len Py.newline text s (Z.min (s + chunk_size) (Py.len text))).
  lia.
Qed.

Lemma window_end_gt (s : Z) :
  0 < chunk_size -> s < Py.len text -> s < window_end text chunk_size s.
Proof.
  intros Hsize Hs. unfold window_end.
  destruct (Z.min (s + chunk_size) (Py.len text) <? Py.len text) eqn:E; [|lia].
  match goal with |- _ < (if ?b then _ else _) => destruct b eqn:Eb end; lia.
Qed.

Lemma start_loop_body (st : loop_state) :
  start (body st) = window_end text chunk_size (start st) - chunk_overlap.
Proof. unfold loop_body. now destruct (Py.nonempty _). Qed.

(** With a positive overlap the loop variable never reaches the end of the
    text: every window ends at [len(text)] at the latest, so the next
    start lies before it. *)
Lemma chunk_loop_out_of_fuel (fuel : nat) (st : loop_state) :
  0 < chunk_overlap -> start st < Py.len text -> loop fuel st = OutOfFuel.
Proof.
  intros Hov. revert st. induction fuel as [|fuel IH]; intros st Hst; simpl.
  - destruct (start st <? Py.len text) eqn:E; [reflexivity|lia].
  - destruct (start st <? Py.len text) eqn:E; [|lia].
    apply IH. rewrite start_loop_body.
    pose proof (window_end_le_len (start st)). lia.
Qed.

(** Without overlap every window makes progress *)
Lemma chunk_loop_returns (fuel : nat) (st : loop_state) :
  chunk_overlap <= 0 -> 0 < chunk_size ->
  Py.len text - start st < Z.of_nat fuel ->
  exists l, loop fuel st = Return l.
Proof.
  intros Hov Hsize. revert st. induction fuel as [|fuel IH]; intros st Hst; simpl.
  - destruct (start st <? Py.len text) eqn:E; [lia|eauto].
  - destruct (start st <? Py.len text) eqn:E; [|eauto].
    apply IH. rewrite start_loop_body.
    assert (start st < Py.len text) as Hlt by lia.
    pose proof (window_end_gt (start st) Hsize Hlt). lia.
Qed.

Lemma chunk_loop_no_raise (fuel : nat) (st : loop_state) (e : exn) :
  loop fuel st <> Raise e.
Proof.
  revert st. induction fuel as [|fuel IH]; intros st; simpl;
    destruct (start st <? Py.len text); try discriminate. apply IH.
Qed.

Lemma chunk_index_make_chunk (c : string) (n : nat) (s e : Z) :
  chunk_index (make_chunk document_id src c n s e) = Some (VInt (Z.of_nat n)).
Proof. reflexivity. Qed.

Lemma loop_invariant_initial : loop_invariant initial.
Proof. repeat split. constructor. Qed.

Lemma loop_invariant_body (st : loop_state) :
  loop_invariant st -> loop_invariant (body st).
Proof.
  intros (Hlen & Hidx & Hne). unfold loop_body.
  destruct (Py.nonempty _) eqn:E; [|repeat split; assumption].
  repeat split; simpl.
  - rewrite length_app, Hlen. simpl. lia.
  - apply indexed_from_zero_snoc; [exact Hidx|].
    rewrite Hlen. apply chunk_index_make_chunk.
  - apply contents_nonempty_snoc; [exact Hne|]. simpl.
    now apply nonempty_true.
Qed.

Lemma loop_invariant_iter (k : nat) :
  loop_invariant (Nat.iter k body initial).
Proof.
  induction k as [|k IH]; simpl.
  - apply loop_invariant_initial.
  - now apply loop_invariant_body.
Qed.

Lemma chunk_loop_invariant (fuel : nat) (st : loop_state) (l : list TextChunk) :
  loop_invariant st -> loop fuel st = Return l ->
  indexed_from_zero l /\ contents_nonempty l.
Proof.
  revert st. induction fuel as [|fuel IH]; intros st Hst; simpl;
    destruct (start st <? Py.len text); try discriminate.
  - intros [= <-]. destruct Hst as (_ & H1 & H2). now split.
  - apply IH. now apply loop_invariant_body.
  - intros [= <-]. destruct Hst as (_ & H1 & H2). now split.
Qed.

End chunk_text_facts.

Lemma test_text_nonempty : 0 < Py.len test_text.
Proof. vm_compute. reflexivity. Qed.

(** C10. [chunk_text] raises its configuration error (a [ValueError]) exactly
    when [chunk_overlap >= chunk_size]: for such a pair the call raises
    whatever the text and before the first loop iteration (no fuel is
    needed, no chunk is built), and for [chunk_overlap < chunk_size] no
    exception is the outcome. *)
Theorem chunk_text_raises_iff_overlap_ge_size
  (text : string) (chunk_size chunk_overlap : Z) (document_id src : string)
  (fuel : nat) :
  (chunk_overlap >= chunk_size ->
     DocumentChunker.chunk_text text chunk_size chunk_overlap document_id src fuel
     = Raise (ValueError "chunk_overlap must be less than chunk_size")) /\
  (chunk_overlap < chunk_size ->
     forall e : exn,
       DocumentChunker.chunk_text text chunk_size chunk_overlap document_id src fuel
       <> Raise e).
Proof.
  unfold DocumentChunker.chunk_text. split; intros H.
  - destruct (chunk_overlap >=? chunk_size) eqn:E; [reflexivity|lia].
  - destruct (chunk_overlap >=? chunk_size) eqn:E; [lia|].
    intros e. apply chunk_loop_no_raise.
Qed.

(** The spec's example (size 100, overlap 100) raises; the test's
    parameters (size 200, overlap 20) do not. *)
Lemma chunk_text_raises_iff_overlap_ge_size_witness :
  DocumentChunker.chunk_text "abc" 100 100 "doc1" "test" 0
  = Raise (ValueError "chunk_overlap must be less than chunk_size") /\
  (forall e : exn,
     DocumentChunker.chunk_text "abc" 200 20 "doc1" "test" 0 <> Raise e).
Proof.
  split.
  - apply (chunk_text_raises_iff_overlap_ge_size "abc" 100 100 "doc1" "test" 0). lia.
  - apply (chunk_text_raises_iff_overlap_ge_size "abc" 200 20 "doc1" "test" 0). lia.
Defined.

(** With a positive overlap below the chunk size, [chunk_text] does not
    return on any non-empty text. *)
Lemma chunk_text_out_of_fuel
  (text : string) (chunk_size chunk_overlap : Z) (document_id src : string)
  (fuel : nat) :
  0 < Py.len text -> 0 < chunk_overlap < chunk_size ->
  DocumentChunker.chunk_text text chunk_size chunk_overlap document_id src fuel
  = OutOfFuel.
Proof.
  intros Htext [Hov Hlt]. unfold DocumentChunker.chunk_text.
  destruct (chunk_overlap >=? chunk_size) eqn:E; [lia|].
  apply chunk_loop_out_of_fuel; [exact Hov|exact Htext].
Qed.

(** With no overlap, [chunk_text] returns after at most [len(text)]
    iterations. *)
Lemma chunk_text_returns_no_overlap
  (text : string) (chunk_size : Z) (document_id src : string) :
  0 < chunk_size ->
  exists l,
    DocumentChunker.chunk_text text chunk_size 0 document_id src
      (S (String.length text)) = Return l.
Proof.
  intros Hsize. unfold DocumentChunker.chunk_text.
  destruct (0 >=? chunk_size) eqn:E; [lia|].
  apply chunk_loop_returns; [lia|exact Hsize|].
  unfold Py.len. simpl DocumentChunker.start. lia.
Qed.

(** C1. On the call of tests/test_chunking.py,
    [chunk_text("This is a sentence. " * 200, chunk_size=200,
    chunk_overlap=20, document_id='doc1', source='test')], the loop
    variable [start] never reaches [len(text)]: no number of iterations
    makes the call return. *)
Theorem chunk_text_test_call_never_returns (fuel : nat) :
  DocumentChunker.chunk_text test_text 200 20 "doc1" "test" fuel = OutOfFuel.
Proof.
  apply chunk_text_out_of_fuel; [exact test_text_nonempty|lia].
Qed.

(** C2. For [chunk_overlap < chunk_size] and every text, the chunks that
    [chunk_text] has built after any number of loop iterations have
    [chunk_index] values exactly 0..n-1 and non-empty contents; so has
    every list the call returns; and with [chunk_overlap = 0] the call
    does return such a list. *)
Theorem chunk_text_indices_contiguous_contents_nonempty
  (text : string) (chunk_size chunk_overlap : Z) (document_id src : string) :
  chunk_overlap < chunk_size ->
  (forall k : nat,
     let st := Nat.iter k
       (DocumentChunker.loop_body text chunk_size chunk_overlap document_id src)
       DocumentChunker.initial in
     indexed_from_zero (DocumentChunker.chunks st) /\
     contents_nonempty (DocumentChunker.chunks st)) /\
  (forall (fuel : nat) (l : list TextChunk),
     DocumentChunker.chunk_text text chunk_size chunk_overlap document_id src fuel
     = Return l ->
     indexed_from_zero l /\ contents_nonempty l) /\
  (chunk_overlap = 0 ->
     exists l,
       DocumentChunker.chunk_text text chunk_size chunk_overlap document_id src
         (S (String.length text)) = Return l /\
       indexed_from_zero l /\ contents_nonempty l).
Proof.
  intros Hlt.
  assert (forall (fuel : nat) (l : list TextChunk),
     DocumentChunker.chunk_text text chunk_size chunk_overlap document_id src fuel
     = Return l -> indexed_from_zero l /\ contents_nonempty l) as Hret.
  { intros fuel l. unfold DocumentChunker.chunk_text.
    destruct (chunk_overlap >=? chunk_size); [discriminate|].
    apply chunk_loop_invariant, loop_invariant_initial. }
  split; [|split].
  - intros k st.
    destruct (loop_invariant_iter text chunk_size chunk_overlap document_id src k)
      as (_ & H1 & H2).
    now split.
  - exact Hret.
  - intros ->.
    destruct (chunk_text_returns_no_overlap text chunk_size document_id src Hlt)
      as [l Hl].
    exists l. split; [exact Hl|]. exact (Hret _ _ Hl).
Qed.

Lemma chunk_text_indices_contiguous_contents_nonempty_witness :
  exists l,
    DocumentChunker.chunk_text "Hi. there all" 5 0 "doc1" "test" 14 = Return l /\
    indexed_from_zero l /\ contents_nonempty l.
Proof.
  assert (0 < 5) as H by lia.
  destruct (chunk_text_indices_contiguous_contents_nonempty
              "Hi. there all" 5 0 "doc1" "test" H) as (_ & _ & H3).
  exact (H3 eq_refl).
Defined.

(** ** chunk_by_sections *)

Section chunk_by_sections_facts.

Import DocumentChunker.

Variables (document_id src : string).

Lemma sections_for_loop_indexed (items : list (nat * string))
  (chunks : list TextChunk) (js : list nat) :
  indexed_by js chunks ->
  indexed_by (js ++ kept_positions items)
    (Sections.for_loop document_id src items chunks).
Proof.
  revert chunks js. induction items as [|[idx para] rest IH];
    intros chunks js Hjs; simpl.
  - now rewrite app_nil_r.
  - destruct (Py.nonempty (Py.strip para)) eqn:E.
    + replace (js ++ idx :: kept_positions rest)
        with ((js ++ [idx]) ++ kept_positions rest)
        by now rewrite <- app_assoc.
      apply IH. unfold indexed_by in *.
      rewrite !fmap_app, Hjs. reflexivity.
    + now apply IH.
Qed.

Lemma sections_for_loop_nonempty (items : list (nat * string))
  (chunks : list TextChunk) :
  contents_nonempty chunks ->
  contents_nonempty (Sections.for_loop document_id src items chunks).
Proof.
  revert chunks. induction items as [|[idx para] rest IH];
    intros chunks Hne; simpl; [exact Hne|].
  destruct (Py.nonempty (Py.strip para)) eqn:E; apply IH; [|exact Hne].
  apply contents_nonempty_snoc; [exact Hne|]. now apply nonempty_true.
Qed.

(** The kept positions of an enumeration grow strictly and lie within it *)
Lemma kept_positions_enumerate (k : nat) (ps : list string) :
  strictly_increasing (kept_positions (Py.enumerate k ps)) /\
  Forall (λ j, (k <= j < k + length ps)%nat) (kept_positions (Py.enumerate k ps)).
Proof.
  revert k. induction ps as [|p ps IH]; intros k; simpl.
  - split; constructor.
  - destruct (IH (S k)) as [Hs Hb].
    assert (Forall (λ j, (k <= j < k + S (length ps))%nat)
              (kept_positions (Py.enumerate (S k) ps))) as Hb'.
    { eapply Forall_impl; [exact Hb|]. simpl. intros j Hj. lia. }
    unfold kept_positions in *. simpl.
    destruct (Py.nonempty (Py.strip p)); [|now split].
    split.
    + constructor; [exact Hs|].
      eapply Forall_impl; [exact Hb|]. simpl. intros j Hj. lia.
    + constructor; [lia|exact Hb'].
Qed.

(** The entries of an enumeration are the list items at their positions *)
Lemma enumerate_lookup {A : Type} (k : nat) (l : list A) (idx : nat) (x : A) :
  (idx, x) ∈ Py.enumerate k l <-> (k <= idx)%nat /\ l !! (idx - k)%nat = Some x.
Proof.
  revert k. induction l as [|y l IH]; intros k; simpl.
  - split; [intros H; now apply not_elem_of_nil in H|intros [_ H]; discriminate].
  - rewrite elem_of_cons, IH. split.
    + intros [[= -> ->]|[Hk Hx]].
      * split; [lia|]. now rewrite Nat.sub_diag.
      * split; [lia|]. now replace (idx - k)%nat with (S (idx - S k)) by lia.
    + intros [Hk Hx]. destruct (idx - k)%nat as [|n] eqn:E.
      * left. injection Hx as ->. f_equal. lia.
      * right. split; [lia|]. now replace (idx - S k)%nat with n by lia.
Qed.

(** A position is kept exactly when its item strips to a non-empty text *)
Lemma kept_positions_elem (items : list (nat * string)) (j : nat) :
  j ∈ kept_positions items
  <-> exists para, (j, para) ∈ items /\ Py.strip para <> "".
Proof.
  unfold kept_positions. rewrite list_elem_of_omap. split.
  - intros ([idx para] & Hin & H). simpl in H.
    destruct (Py.nonempty (Py.strip para)) eqn:E; [|discriminate].
    injection H as ->. exists para. split; [exact Hin|]. now apply nonempty_true.
  - intros (para & Hin & Hne). exists (j, para). split; [exact Hin|]. simpl.
    apply nonempty_true in Hne. now rewrite Hne.
Qed.

(** Each chunk of the loop pairs with the kept position it was built at *)
Lemma sections_for_loop_Forall2 (R : nat -> TextChunk -> Prop)
  (items : list (nat * string)) (js : list nat) (chunks : list TextChunk) :
  (forall idx para, (idx, para) ∈ items ->
     R idx (Sections.make_chunk document_id src (Py.strip para) idx)) ->
  Forall2 R js chunks ->
  Forall2 R (js ++ kept_positions items)
    (Sections.for_loop document_id src items chunks).
Proof.
  revert js chunks. induction items as [|[idx para] rest IH];
    intros js chunks HR Hjs; simpl.
  - now rewrite app_nil_r.
  - assert (forall i p, (i, p) ∈ rest ->
              R i (Sections.make_chunk document_id src (Py.strip p) i)) as HR'.
    { intros i p Hin. apply HR. apply elem_of_cons. now right. }
    unfold kept_positions. simpl.
    destruct (Py.nonempty (Py.strip para)) eqn:E.
    + replace (js ++ idx :: omap _ rest)
        with ((js ++ [idx]) ++ kept_positions rest)
        by now rewrite <- app_assoc.
      apply IH; [exact HR'|]. apply Forall2_app; [exact Hjs|].
      constructor; [|constructor]. apply HR. apply elem_of_cons. now left.
    + now apply IH.
Qed.

End chunk_by_sections_facts.

(** ** chunk_by_tokens *)

Section chunk_by_tokens_facts.

Import DocumentChunker.

Variables (max_tokens : Z) (document_id src : string).

Lemma tokens_content_nonempty (ws : list string) (w : string) :
  Forall starts_visible ws -> starts_visible w ->
  Py.strip (Py.join " " (ws ++ [w])) <> "".
Proof.
  intros Hws Hw. apply strip_starts_visible.
  destruct ws as [|w0 ws].
  - exact Hw.
  - apply join_starts_visible. now inversion Hws.
Qed.

Lemma tokens_for_loop_invariant (words : list string) (st : Tokens.loop_state) :
  Forall starts_visible words -> tokens_invariant st ->
  tokens_invariant (Tokens.for_loop max_tokens document_id src words st).
Proof.
  revert st. induction words as [|word rest IH]; intros st Hwords Hst; simpl.
  - exact Hst.
  - inversion Hwords as [|? ? Hword Hrest]; subst.
    destruct Hst as (Hlen & Hidx & Hne & Hcw).
    destruct (Tokens.reached _ _).
    + destruct (Py.nonempty _) eqn:E; apply IH; try exact Hrest.
      * repeat split; simpl.
        -- rewrite length_app, Hlen. simpl. lia.
        -- apply indexed_from_zero_snoc; [exact Hidx|]. now rewrite Hlen.
        -- apply contents_nonempty_snoc; [exact Hne|]. simpl.
           now apply tokens_content_nonempty.
        -- constructor.
      * repeat split; simpl; try assumption. constructor.
    + apply IH; [exact Hrest|]. repeat split; simpl; try assumption.
      apply Forall_app. split; [exact Hcw|]. now constructor.
Qed.

Lemma tokens_flush_invariant (st : Tokens.loop_state) :
  tokens_invariant st ->
  indexed_from_zero (Tokens.flush document_id src st) /\
  contents_nonempty (Tokens.flush document_id src st).
Proof.
  intros (Hlen & Hidx & Hne & Hcw). unfold Tokens.flush.
  destruct (Tokens.chunk_words st) as [|w ws] eqn:E; [now split|].
  split.
  - apply indexed_from_zero_snoc; [exact Hidx|]. now rewrite Hlen.
  - apply contents_nonempty_snoc; [exact Hne|]. simpl.
    apply strip_starts_visible, join_starts_visible. now inversion Hcw.
Qed.

End chunk_by_tokens_facts.

(** C7, as the claim states it, fails: for ["a\n\n\n\nb"] the paragraphs
    are ["a"], [""] and ["b"], and [chunk_by_sections] numbers the two
    chunks 0 and 2. *)
Lemma chunk_by_sections_indices_not_contiguous :
  (chunk_index <$>
     DocumentChunker.chunk_by_sections text_with_empty_paragraph "doc2" "test")
  = [Some (VInt 0); Some (VInt 2)] /\
  ~ indexed_from_zero
      (DocumentChunker.chunk_by_sections text_with_empty_paragraph "doc2" "test").
Proof.
  split; [reflexivity|].
  unfold indexed_from_zero. vm_compute. discriminate.
Qed.

(** C7 (amended). No strategy builds a chunk with empty content.
    [chunk_text] (after any number of iterations, and in any list it
    returns) and [chunk_by_tokens] number their chunks 0..n-1.
    [chunk_by_sections] numbers each chunk with the position of its
    paragraph in the blank-line split: the indices are, in increasing
    order, exactly the positions of the paragraphs that do not strip to
    the empty text, and the chunk with index [j] holds the stripped
    paragraph number [j]. *)
Theorem chunk_strategies_indices_and_contents
  (text : string) (document_id src : string) :
  (forall (chunk_size chunk_overlap : Z),
     (forall k : nat,
        let st := Nat.iter k
          (DocumentChunker.loop_body text chunk_size chunk_overlap document_id src)
          DocumentChunker.initial in
        indexed_from_zero (DocumentChunker.chunks st) /\
        contents_nonempty (DocumentChunker.chunks st)) /\
     (forall (fuel : nat) (l : list TextChunk),
        DocumentChunker.chunk_text text chunk_size chunk_overlap document_id src fuel
        = Return l ->
        indexed_from_zero l /\ contents_nonempty l)) /\
  (exists js : list nat,
     indexed_by js (DocumentChunker.chunk_by_sections text document_id src) /\
     strictly_increasing js /\
     (forall j : nat,
        j ∈ js <-> exists para, Py.split_nlnl text !! j = Some para /\
                                Py.strip para <> "") /\
     Forall2
       (λ (j : nat) (c : TextChunk),
          chunk_index c = Some (VInt (Z.of_nat j)) /\
          exists para, Py.split_nlnl text !! j = Some para /\
                       content c = Py.strip para)
       js (DocumentChunker.chunk_by_sections text document_id src) /\
     Forall (λ j, (j < length (Py.split_nlnl text))%nat) js /\
     contents_nonempty (DocumentChunker.chunk_by_sections text document_id src)) /\
  (forall max_tokens : Z,
     indexed_from_zero
       (DocumentChunker.chunk_by_tokens text max_tokens document_id src) /\
     contents_nonempty
       (DocumentChunker.chunk_by_tokens text max_tokens document_id src)).
Proof.
  split; [|split].
  - intros chunk_size chunk_overlap. split.
    + intros k st.
      destruct (loop_invariant_iter text chunk_size chunk_overlap document_id src k)
        as (_ & H1 & H2).
      now split.
    + intros fuel l. unfold DocumentChunker.chunk_text.
      destruct (chunk_overlap >=? chunk_size); [discriminate|].
      apply chunk_loop_invariant, loop_invariant_initial.
  - exists (kept_positions (Py.enumerate 0 (Py.split_nlnl text))).
    destruct (kept_positions_enumerate 0 (Py.split_nlnl text)) as [Hs Hb].
    unfold DocumentChunker.chunk_by_sections.
    split; [|split; [|split; [|split; [|split]]]].
    + apply (sections_for_loop_indexed document_id src _ [] []). reflexivity.
    + exact Hs.
    + intros j. rewrite kept_positions_elem. split.
      * intros (para & Hin & Hne). exists para. split; [|exact Hne].
        apply enumerate_lookup in Hin as [_ Hin].
        now rewrite Nat.sub_0_r in Hin.
      * intros (para & Hj & Hne). exists para. split; [|exact Hne].
        apply enumerate_lookup. split; [lia|]. now rewrite Nat.sub_0_r.
    + apply (sections_for_loop_Forall2 document_id src _ _ [] []); [|constructor].
      intros idx para Hin. split; [reflexivity|]. exists para.
      split; [|reflexivity].
      apply enumerate_lookup in Hin as [_ Hin]. now rewrite Nat.sub_0_r in Hin.
    + eapply Forall_impl; [exact Hb|]. simpl. intros j Hj. lia.
    + apply sections_for_loop_nonempty. constructor.
  - intros max_tokens. unfold DocumentChunker.chunk_by_tokens.
    apply tokens_flush_invariant, tokens_for_loop_invariant.
    + apply split_visible.
    + repeat split; constructor.
Qed.

(** The call of tests/test_chunking.py on three paragraphs: three chunks,
    one per paragraph *)
Example chunk_by_sections_three_paragraphs :
  let nlnl := String Py.newline (String Py.newline "") in
  content <$>
    DocumentChunker.chunk_by_sections
      ("Section one." +:+ nlnl +:+ "Section two." +:+ nlnl +:+ "Section three.")
      "doc2" "test"
  = ["Section one."; "Section two."; "Section three."].
Proof. vm_compute. reflexivity. Qed.

(** ** RouterAgent.decide *)

(** Whatever the query and the metadata, the decision asks for the
    documents or for the web. *)
Lemma decide_uses_a_source (query : string) (metadata : gmap string pyobj) :
  RouterAgent.use_documents (RouterAgent.decide query metadata) = true \/
  RouterAgent.use_web (RouterAgent.decide query metadata) = true.
Proof.
  unfold RouterAgent.decide.
  destruct (truthy _), (RouterAgent._looks_like_internal_only query),
    (RouterAgent._looks_like_web_query query); simpl; auto.
Qed.

(** C6, as the claim states it, fails: no query and metadata make [decide]
    return [use_documents = False] together with [use_web = False]. *)
Lemma decide_never_both_false :
  ~ exists (query : string) (metadata : gmap string pyobj),
      RouterAgent.use_documents (RouterAgent.decide query metadata) = false /\
      RouterAgent.use_web (RouterAgent.decide query metadata) = false.
Proof.
  intros (query & metadata & Hd & Hw).
  destruct (decide_uses_a_source query metadata) as [H|H]; congruence.
Qed.

(** C6 (amended). Three of the four combinations are outcomes of [decide]:
    documents only, both, and web only; the combination (false, false) is
    never returned; and every decision carries a non-empty reason. *)
Theorem decide_outcomes :
  (exists query metadata,
     RouterAgent.use_documents (RouterAgent.decide query metadata) = true /\
     RouterAgent.use_web (RouterAgent.decide query metadata) = false) /\
  (exists query metadata,
     RouterAgent.use_documents (RouterAgent.decide query metadata) = true /\
     RouterAgent.use_web (RouterAgent.decide query metadata) = true) /\
  (exists query metadata,
     RouterAgent.use_documents (RouterAgent.decide query metadata) = false /\
     RouterAgent.use_web (RouterAgent.decide query metadata) = true) /\
  (forall query metadata,
     ~ (RouterAgent.use_documents (RouterAgent.decide query metadata) = false /\
        RouterAgent.use_web (RouterAgent.decide query metadata) = false)) /\
  (forall query metadata,
     RouterAgent.reason (RouterAgent.decide query metadata) <> "").
Proof.
  split; [|split; [|split; [|split]]].
  - exists "Show our internal logistics report",
      {["has_uploaded_docs" := OBool true]}.
    vm_compute. now split.
  - exists "What are the latest supply chain trends in 2025?",
      {["has_uploaded_docs" := OBool true]}.
    vm_compute. now split.
  - exists "What are the latest supply chain trends in 2025?",
      {["has_uploaded_docs" := OBool false]}.
    vm_compute. now split.
  - intros query metadata [Hd Hw].
    destruct (decide_uses_a_source query metadata) as [H|H]; congruence.
  - intros query metadata. unfold RouterAgent.decide.
    destruct (truthy _), (RouterAgent._looks_like_internal_only query),
      (RouterAgent._looks_like_web_query query); simpl; discriminate.
Qed.

(** The three calls of tests/test_router.py *)
Example decide_internal_prefers_documents :
  let d := RouterAgent.decide "Show our internal logistics report"
             {["has_uploaded_docs" := OBool true]} in
  RouterAgent.use_documents d = true /\ RouterAgent.use_web d = false.
Proof. vm_compute. now split. Qed.

Example decide_web_needed_when_latest :
  RouterAgent.use_web
    (RouterAgent.decide "What are the latest supply chain trends in 2025?"
       {["has_uploaded_docs" := OBool false]}) = true.
Proof. vm_compute. reflexivity. Qed.

Example decide_documents_when_present :
  RouterAgent.use_documents
    (RouterAgent.decide "Compare vendor SLAs"
       {["has_uploaded_docs" := OBool true]}) = true.
Proof. vm_compute. reflexivity. Qed.

(** ** Deduplication *)

Section keep_first_seen_facts.

Implicit Types (cs : list Citation.t) (seen : gset string) (c : Citation.t).

Lemma keep_first_seen_sublist cs seen :
  keep_first_seen cs seen `sublist_of` cs.
Proof.
  revert seen. induction cs as [|c0 rest IH]; intros seen; simpl.
  - constructor.
  - case_bool_decide.
    + apply sublist_cons, IH.
    + apply sublist_skip, IH.
Qed.

Lemma keep_first_seen_fresh cs seen c :
  c ∈ keep_first_seen cs seen -> citation_key c ∉ seen.
Proof.
  revert seen. induction cs as [|c0 rest IH]; intros seen; simpl.
  - intros H. now apply not_elem_of_nil in H.
  - case_bool_decide as Hk.
    + apply IH.
    + intros [->|Hin]%elem_of_cons; [exact Hk|].
      apply IH in Hin. set_solver.
Qed.

Lemma keep_first_seen_NoDup cs seen :
  NoDup (citation_key <$> keep_first_seen cs seen).
Proof.
  revert seen. induction cs as [|c0 rest IH]; intros seen; simpl.
  - constructor.
  - case_bool_decide as Hk; [apply IH|].
    rewrite fmap_cons. apply NoDup_cons. split; [|apply IH].
    intros (c & Hc & Hin)%list_elem_of_fmap.
    apply keep_first_seen_fresh in Hin. set_solver.
Qed.

Lemma keep_first_seen_covers cs seen c :
  c ∈ cs ->
  citation_key c ∈ seen \/
  citation_key c ∈ (citation_key <$> keep_first_seen cs seen).
Proof.
  revert seen. induction cs as [|c0 rest IH]; intros seen; simpl.
  - intros H. now apply not_elem_of_nil in H.
  - intros [->|Hin]%elem_of_cons.
    + case_bool_decide as Hk; [now left|]. right.
      rewrite fmap_cons. apply elem_of_cons. now left.
    + case_bool_decide as Hk; [now apply IH|].
      destruct (IH ({[citation_key c0]} ∪ seen) Hin) as [H|H].
      * apply elem_of_union in H as [H|H]; [|now left].
        apply elem_of_singleton in H. right.
        rewrite fmap_cons, H. apply elem_of_cons. now left.
      * right. rewrite fmap_cons. apply elem_of_cons. now right.
Qed.

Lemma keep_first_seen_first cs seen c :
  c ∈ keep_first_seen cs seen -> first_with_key c cs.
Proof.
  revert seen. induction cs as [|c0 rest IH]; intros seen; simpl.
  - intros H. now apply not_elem_of_nil in H.
  - case_bool_decide as Hk.
    + intros Hin. pose proof (keep_first_seen_fresh _ _ _ Hin) as Hfresh.
      destruct (IH _ Hin) as (l1 & l2 & -> & Hl1).
      exists (c0 :: l1), l2. split; [reflexivity|].
      rewrite fmap_cons. intros [E|E]%elem_of_cons; [congruence|tauto].
    + intros [->|Hin]%elem_of_cons.
      * exists [], rest. split; [reflexivity|]. apply not_elem_of_nil.
      * pose proof (keep_first_seen_fresh _ _ _ Hin) as Hfresh.
        destruct (IH _ Hin) as (l1 & l2 & -> & Hl1).
        exists (c0 :: l1), l2. split; [reflexivity|].
        rewrite fmap_cons. intros [E|E]%elem_of_cons; [|tauto].
        set_solver.
Qed.

Lemma keep_first_seen_app cs1 cs2 seen :
  keep_first_seen (cs1 ++ cs2) seen
  = keep_first_seen cs1 seen
    ++ keep_first_seen cs2 (list_to_set (citation_key <$> cs1) ∪ seen).
Proof.
  revert seen. induction cs1 as [|c0 rest IH]; intros seen; simpl.
  - f_equal. set_solver.
  - case_bool_decide as Hk.
    + rewrite IH. do 2 f_equal. set_solver.
    + simpl. rewrite IH. do 3 f_equal. set_solver.
Qed.

End keep_first_seen_facts.

(** ** The two loops of fuse *)

Section fuse_facts.

Import FusionAgent.

Lemma docs_loop_keeps_first_seen (ds : list DocHit.t) (st : loop_state) :
  docs_loop ds st
  = {| merged := merged st ++ keep_first_seen (doc_citation <$> ds) (seen st);
       seen := list_to_set (citation_key <$> (doc_citation <$> ds)) ∪ seen st |}.
Proof.
  revert st. induction ds as [|d rest IH]; intros [m s]; simpl.
  - rewrite app_nil_r. f_equal. set_solver.
  - change (citation_key (doc_citation d))
      with (Py.prefix 200 (_normalize_snippet (doc_text d))).
    case_bool_decide as Hk; rewrite IH; simpl.
    + f_equal. set_solver.
    + rewrite <- app_assoc. f_equal. set_solver.
Qed.

Lemma webs_loop_keeps_first_seen (ws : list WebHit.t) (st : loop_state) :
  webs_loop ws st
  = {| merged := merged st ++ keep_first_seen (web_citation <$> ws) (seen st);
       seen := list_to_set (citation_key <$> (web_citation <$> ws)) ∪ seen st |}.
Proof.
  revert st. induction ws as [|w rest IH]; intros [m s]; simpl.
  - rewrite app_nil_r. f_equal. set_solver.
  - change (citation_key (web_citation w))
      with (Py.prefix 200 (_normalize_snippet (web_text w))).
    case_bool_decide as Hk; rewrite IH; simpl.
    + f_equal. set_solver.
    + rewrite <- app_assoc. f_equal. set_solver.
Qed.

(** The two loops compute the spec's deduplication of the candidates *)
Lemma merge_keeps_first_seen (doc_results : option (list DocHit.t))
  (web_results : option (list WebHit.t)) :
  merge doc_results web_results
  = keep_first_seen (candidates doc_results web_results) ∅.
Proof.
  unfold merge, candidates.
  rewrite docs_loop_keeps_first_seen, webs_loop_keeps_first_seen. simpl.
  rewrite keep_first_seen_app. reflexivity.
Qed.

Lemma insert_ranked_Permutation (c : Citation.t) (l : list Citation.t) :
  insert_ranked c l ≡ₚ c :: l.
Proof.
  induction l as [|y l IH]; simpl; [reflexivity|].
  destruct (F.ltb _ _); [|reflexivity].
  rewrite IH. apply Permutation_swap.
Qed.

Lemma sorted_by_confidence_Permutation (l : list Citation.t) :
  sorted_by_confidence l ≡ₚ l.
Proof.
  induction l as [|c l IH]; simpl; [reflexivity|].
  now rewrite insert_ranked_Permutation, IH.
Qed.

(** The ranked evidence holds the deduplicated candidates *)
Lemma evidence_Permutation (doc_results : option (list DocHit.t))
  (web_results : option (list WebHit.t)) :
  evidence (fuse doc_results web_results)
  ≡ₚ keep_first_seen (candidates doc_results web_results) ∅.
Proof.
  unfold fuse. simpl.
  now rewrite sorted_by_confidence_Permutation, merge_keeps_first_seen.
Qed.

(** Every citation of the evidence is the citation of one hit *)
Lemma evidence_origin (doc_results : option (list DocHit.t))
  (web_results : option (list WebHit.t)) (c : Citation.t) :
  c ∈ evidence (fuse doc_results web_results) ->
  (exists d, d ∈ default [] doc_results /\ c = doc_citation d) \/
  (exists w, w ∈ default [] web_results /\ c = web_citation w).
Proof.
  rewrite evidence_Permutation. intros Hin.
  eapply elem_of_sublist in Hin; [|apply keep_first_seen_sublist].
  unfold candidates in Hin. apply elem_of_app in Hin as [H|H];
    apply list_elem_of_fmap in H as (x & -> & Hx); [left|right]; eauto.
Qed.

End fuse_facts.

(** ** Confidence arithmetic *)

Section float_facts.

Lemma min_one_at_most_one (x : pyfloat) : F.at_most_one (F.min F.one x).
Proof.
  destruct x as [q| | |]; unfold F.min, F.one; simpl;
    try discriminate; [|exact I].
  destruct (q ?= 1.0)%Q eqn:E; simpl; try discriminate.
  apply Qlt_alt in E. lra.
Qed.

Lemma min_one_in_unit_interval (x : pyfloat) :
  ~ F.negative x -> F.in_unit_interval (F.min F.one x).
Proof.
  assert (0 <= 1.0 <= 1)%Q as H1 by (split; discriminate).
  destruct x as [q| | |]; unfold F.min, F.one; simpl; intros Hx;
    try exact H1; [|tauto].
  destruct (q ?= 1.0)%Q eqn:E; simpl; try exact H1.
  apply Qlt_alt in E. lra.
Qed.

Lemma mul_positive_not_negative (x : pyfloat) (a : Q) :
  (0 < a)%Q -> ~ F.negative x -> ~ F.negative (F.mul x (Fin a)).
Proof.
  intros Ha. destruct x as [q| | |]; simpl; intros Hx; try tauto.
  - apply Qle_not_lt, Qmult_le_0_compat.
    + now apply Qnot_lt_le.
    + now apply Qlt_le_weak.
  - apply Qgt_alt in Ha. rewrite Ha. simpl. tauto.
Qed.

Lemma priority_document : FusionAgent.priority "document" = Fin 1.2%Q.
Proof. reflexivity. Qed.

Lemma priority_internet : FusionAgent.priority "internet" = Fin 1.0%Q.
Proof. reflexivity. Qed.

Lemma doc_score_not_negative (d : DocHit.t) :
  (forall x, DocHit.score d = Some (ScoreNum x) -> ~ F.negative x) ->
  ~ F.negative (FusionAgent.doc_score d).
Proof.
  unfold FusionAgent.doc_score. intros H.
  destruct (DocHit.score d) as [[|x]|]; simpl; try discriminate.
  destruct (F.truthy x); [now apply H|]. simpl. discriminate.
Qed.

Lemma web_score_not_negative (w : WebHit.t) :
  (forall x, WebHit.confidence w = Some x -> ~ F.negative x) ->
  ~ F.negative (FusionAgent.web_score w).
Proof.
  unfold FusionAgent.web_score. intros H.
  destruct (WebHit.confidence w) as [x|]; simpl; [now apply H|discriminate].
Qed.

End float_facts.

(** ** FusionAgent.fuse *)

(** C3. [fuse] walks the document hits before the web hits and
    deduplicates on the first 200 characters of the normalized snippet
    (whitespace runs collapsed to one space, trimmed, capped at 500
    characters): the evidence is, up to the ranking, the spec's first-seen deduplication of
    the candidates; it is a selection of whole candidates (nothing merged
    or aggregated), its keys are pairwise distinct, every candidate's key
    is present, and each citation is the first candidate with its key.
    Hence when a web hit has the key of a document hit, the one citation
    with this key is a document citation. *)
Theorem fuse_deduplicates_first_seen
  (doc_results : option (list DocHit.t)) (web_results : option (list WebHit.t)) :
  let cands := candidates doc_results web_results in
  let ev := FusionAgent.evidence (FusionAgent.fuse doc_results web_results) in
  (forall d,
     Citation.claim (FusionAgent.doc_citation d)
     = Py.prefix 500 (Py.join " " (Py.split (Py.strip (FusionAgent.doc_text d))))) /\
  (forall w,
     Citation.claim (FusionAgent.web_citation w)
     = Py.prefix 500 (Py.join " " (Py.split (Py.strip (FusionAgent.web_text w))))) /\
  (forall c, c ∈ cands ->
     (String.length (Citation.claim c) <= 500)%nat /\
     citation_key c = Py.prefix 200 (Citation.claim c) /\
     (String.length (citation_key c) <= 200)%nat) /\
  FusionAgent.merge doc_results web_results = keep_first_seen cands ∅ /\
  ev ≡ₚ FusionAgent.merge doc_results web_results /\
  FusionAgent.merge doc_results web_results `sublist_of` cands /\
  NoDup (citation_key <$> ev) /\
  (forall c, c ∈ cands -> citation_key c ∈ (citation_key <$> ev)) /\
  (forall c, c ∈ ev -> first_with_key c cands) /\
  (forall d w,
     d ∈ default [] doc_results -> w ∈ default [] web_results ->
     citation_key (FusionAgent.web_citation w)
     = citation_key (FusionAgent.doc_citation d) ->
     (exists c, c ∈ ev /\
        citation_key c = citation_key (FusionAgent.doc_citation d)) /\
     (forall c, c ∈ ev ->
        citation_key c = citation_key (FusionAgent.doc_citation d) ->
        Citation.source_type c = "document" /\
        exists d', d' ∈ default [] doc_results /\ c = FusionAgent.doc_citation d')).
Proof.
  intros cands ev.
  pose proof (merge_keeps_first_seen doc_results web_results) as Hmerge.
  pose proof (evidence_Permutation doc_results web_results) as Hperm.
  fold cands in Hmerge, Hperm. fold ev in Hperm.
  assert (forall c, c ∈ cands -> citation_key c ∈ (citation_key <$> ev)) as Hcov.
  { intros c Hc. rewrite Hperm.
    destruct (keep_first_seen_covers cands ∅ c Hc) as [H|H]; [|exact H].
    now apply not_elem_of_empty in H. }
  split; [reflexivity|]. split; [reflexivity|].
  split.
  { intros c Hc. split; [|split; [reflexivity|apply prefix_length]].
    unfold cands, candidates in Hc.
    apply elem_of_app in Hc as [Hc|Hc];
      apply list_elem_of_fmap in Hc as (x & -> & _); apply prefix_length. }
  split; [exact Hmerge|]. split; [now rewrite Hmerge|].
  split; [rewrite Hmerge; apply keep_first_seen_sublist|].
  split; [rewrite Hperm; apply keep_first_seen_NoDup|].
  split; [exact Hcov|].
  split.
  { intros c Hc. rewrite Hperm in Hc.
    now apply keep_first_seen_first in Hc. }
  intros d w Hd Hw Hkey. split.
  - assert (FusionAgent.doc_citation d ∈ cands) as Hin.
    { unfold cands, candidates. apply elem_of_app. left.
      now apply list_elem_of_fmap_2. }
    apply Hcov in Hin. apply list_elem_of_fmap in Hin as (c & Hc & Hin).
    exists c. now split.
  - intros c Hc Hck. rewrite Hperm in Hc.
    unfold cands, candidates in Hc. rewrite keep_first_seen_app in Hc.
    apply elem_of_app in Hc as [Hc|Hc].
    + eapply elem_of_sublist in Hc; [|apply keep_first_seen_sublist].
      apply list_elem_of_fmap in Hc as (d' & -> & Hd').
      split; [reflexivity|]. now exists d'.
    + apply keep_first_seen_fresh in Hc. exfalso. apply Hc.
      apply elem_of_union. left. apply elem_of_list_to_set.
      rewrite Hck. apply list_elem_of_fmap_2.
      now apply list_elem_of_fmap_2.
Qed.

(** The fusion scenario of the spec: two document hits and a web hit whose
    normalized snippet repeats the first document's; two citations remain,
    both from documents. *)
Example fuse_drops_duplicate_web_hit :
  let ev := FusionAgent.evidence
    (FusionAgent.fuse
       (Some [doc_hit "Alpha   beta" (Some (ScoreNum (Fin 0.5%Q)));
              doc_hit "Gamma" None])
       (Some [web_hit " Alpha beta " (Some (Fin 0.9%Q))])) in
  (Citation.claim <$> ev) = ["Gamma"; "Alpha beta"] /\
  (Citation.source_type <$> ev) = ["document"; "document"].
Proof. vm_compute. now split. Qed.

(** C5, as the claim states it, fails: a document hit with score -1 gets
    the confidence -1.2. *)
Lemma fuse_confidence_negative :
  exists c,
    FusionAgent.evidence
      (FusionAgent.fuse (Some [doc_hit "a" (Some (ScoreNum (Fin (-1))))]) None)
    = [c] /\
    Citation.confidence c = Fin (-1.2)%Q /\
    ~ F.in_unit_interval (Citation.confidence c).
Proof.
  eexists. split; [vm_compute; reflexivity|]. simpl.
  split; [reflexivity|]. intros [H _]. revert H.
  apply Qlt_not_le. reflexivity.
Qed.

(** C5 (amended). Every confidence of the evidence is a number (not NaN)
    that is at most 1; when no hit carries a negative score, every
    confidence is a finite value of [0, 1]. *)
Theorem fuse_confidence_bounds
  (doc_results : option (list DocHit.t)) (web_results : option (list WebHit.t)) :
  (forall c, c ∈ FusionAgent.evidence (FusionAgent.fuse doc_results web_results) ->
     F.at_most_one (Citation.confidence c)) /\
  (scores_not_negative doc_results web_results ->
   forall c, c ∈ FusionAgent.evidence (FusionAgent.fuse doc_results web_results) ->
     F.in_unit_interval (Citation.confidence c)).
Proof.
  split.
  - intros c Hc.
    destruct (evidence_origin _ _ _ Hc) as [(d & _ & ->)|(w & _ & ->)];
      apply min_one_at_most_one.
  - intros [Hdocs Hwebs] c Hc.
    destruct (evidence_origin _ _ _ Hc) as [(d & Hd & ->)|(w & Hw & ->)];
      simpl; apply min_one_in_unit_interval.
    + rewrite priority_document. apply mul_positive_not_negative; [reflexivity|].
      apply doc_score_not_negative. intros x. now apply Hdocs.
    + rewrite priority_internet. apply mul_positive_not_negative; [reflexivity|].
      apply web_score_not_negative. intros x. now apply Hwebs.
Qed.

Lemma fuse_confidence_bounds_witness :
  scores_not_negative
    (Some [doc_hit "a" (Some (ScoreNum (Fin 0.9%Q)))]) (Some [web_hit "b" None]) /\
  Forall (λ c, F.in_unit_interval (Citation.confidence c))
    (FusionAgent.evidence
       (FusionAgent.fuse (Some [doc_hit "a" (Some (ScoreNum (Fin 0.9%Q)))])
          (Some [web_hit "b" None]))).
Proof.
  assert (scores_not_negative
            (Some [doc_hit "a" (Some (ScoreNum (Fin 0.9%Q)))])
            (Some [web_hit "b" None])) as Hscores.
  { split.
    - intros d x Hd. apply list_elem_of_singleton in Hd. subst d. simpl.
      intros [= <-]. simpl. discriminate.
    - intros w x Hw. apply list_elem_of_singleton in Hw. subst w. simpl.
      discriminate. }
  split; [exact Hscores|].
  apply Forall_forall.
  exact (proj2 (fuse_confidence_bounds
                  (Some [doc_hit "a" (Some (ScoreNum (Fin 0.9%Q)))])
                  (Some [web_hit "b" None])) Hscores).
Defined.

(** Away from a zero score the confidences follow the formula: every
    citation of the evidence comes from one hit; a document hit gets
    min(1.0, score * 1.2) when its score field holds a non-zero number and
    min(1.0, 0.6 * 1.2) when the field is absent or holds [None], which is
    what the retriever writes for a node without a score; a web hit gets
    min(1.0, confidence * 1.0) when its confidence field is present and
    min(1.0, 0.5 * 1.0) when it is absent; the document weight 1.2 exceeds
    the web weight 1.0. *)
Lemma confidence_formula_nonzero_score
  (doc_results : option (list DocHit.t)) (web_results : option (list WebHit.t)) :
  (forall c, c ∈ FusionAgent.evidence (FusionAgent.fuse doc_results web_results) ->
     (exists d, d ∈ default [] doc_results /\ c = FusionAgent.doc_citation d) \/
     (exists w, w ∈ default [] web_results /\ c = FusionAgent.web_citation w)) /\
  (forall d x,
     DocHit.score d = Some (ScoreNum x) -> F.truthy x = true ->
     Citation.confidence (FusionAgent.doc_citation d)
     = F.min (Fin 1.0%Q) (F.mul x (Fin 1.2%Q))) /\
  (forall d,
     DocHit.score d = None \/ DocHit.score d = Some ScoreNone ->
     Citation.confidence (FusionAgent.doc_citation d)
     = F.min (Fin 1.0%Q) (F.mul (Fin 0.6%Q) (Fin 1.2%Q))) /\
  (forall w x,
     WebHit.confidence w = Some x ->
     Citation.confidence (FusionAgent.web_citation w)
     = F.min (Fin 1.0%Q) (F.mul x (Fin 1.0%Q))) /\
  (forall w,
     WebHit.confidence w = None ->
     Citation.confidence (FusionAgent.web_citation w)
     = F.min (Fin 1.0%Q) (F.mul (Fin 0.5%Q) (Fin 1.0%Q))) /\
  F.ltb (FusionAgent.priority "internet") (FusionAgent.priority "document") = true.
Proof.
  split; [intros c; apply evidence_origin|].
  split; [|split; [|split; [|split]]].
  - intros d x Hs Hx. simpl. unfold FusionAgent.doc_score.
    now rewrite Hs, Hx.
  - intros d H. simpl. unfold FusionAgent.doc_score.
    destruct H as [->| ->]; reflexivity.
  - intros w x Hc. simpl. unfold FusionAgent.web_score. now rewrite Hc.
  - intros w Hc. simpl. unfold FusionAgent.web_score. now rewrite Hc.
  - reflexivity.
Qed.

(** C8. The claim fails on a document hit whose score field is present and
    holds 0. The document path reads the score with
    [d.get('score') or 0.6], which takes the zero for a missing score: the
    citation's confidence is the default min(1.0, 0.6 * 1.2) = 0.72, where
    the claim's formula for a present score gives min(1.0, 0 * 1.2) = 0.
    The web path reads [w.get('confidence', 0.5)] and keeps a confidence of
    0 as the claim says. *)
Theorem fuse_zero_score_gets_default :
  (exists c,
     FusionAgent.evidence
       (FusionAgent.fuse (Some [doc_hit "a" (Some (ScoreNum (Fin 0)))]) None)
     = [c] /\
     Citation.confidence c = Fin 0.72%Q /\
     Citation.confidence c = F.min F.one (F.mul (Fin 0.6%Q) (Fin 1.2%Q)) /\
     ~ float_eq (Citation.confidence c)
         (F.min F.one (F.mul (Fin 0) (Fin 1.2%Q)))) /\
  (exists c,
     FusionAgent.evidence
       (FusionAgent.fuse None (Some [web_hit "a" (Some (Fin 0))]))
     = [c] /\
     float_eq (Citation.confidence c)
       (F.min F.one (F.mul (Fin 0) (Fin 1.0%Q)))).
Proof.
  split.
  - eexists. split; [vm_compute; reflexivity|]. simpl.
    split; [reflexivity|]. split; [reflexivity|]. vm_compute. discriminate.
  - eexists. split; [vm_compute; reflexivity|]. vm_compute. reflexivity.
Qed.

(** C9, as the claim states it, fails: the citation of a web hit has the
    source type ['internet'], which is neither ['document'] nor ['web']. *)
Lemma fuse_web_source_type_is_internet :
  exists c,
    FusionAgent.evidence (FusionAgent.fuse None (Some [web_hit "a" None])) = [c] /\
    Citation.source_type c = "internet" /\
    Citation.source_type c <> "web" /\
    Citation.source_type c <> "document".
Proof.
  eexists. split; [vm_compute; reflexivity|]. simpl.
  split; [reflexivity|]. split; discriminate.
Qed.

(** C9 (amended). Every citation of the evidence has the source type
    ['document'] or ['internet']: it is ['document'] for the citation of a
    document hit and ['internet'] for the citation of a web hit. *)
Theorem fuse_source_type
  (doc_results : option (list DocHit.t)) (web_results : option (list WebHit.t)) :
  (forall c, c ∈ FusionAgent.evidence (FusionAgent.fuse doc_results web_results) ->
     (Citation.source_type c = "document" /\
      exists d, d ∈ default [] doc_results /\ c = FusionAgent.doc_citation d) \/
     (Citation.source_type c = "internet" /\
      exists w, w ∈ default [] web_results /\ c = FusionAgent.web_citation w)) /\
  (forall d, Citation.source_type (FusionAgent.doc_citation d) = "document") /\
  (forall w, Citation.source_type (FusionAgent.web_citation w) = "internet").
Proof.
  split; [|split; reflexivity].
  intros c Hc.
  destruct (evidence_origin _ _ _ Hc) as [(d & Hd & ->)|(w & Hw & ->)];
    [left|right]; (split; [reflexivity|eauto]).
Qed.

(** ** AnswerAgent.generate_answer *)

Section answer_facts.

Import AnswerAgent.

Lemma format_loop_lines (items : list (nat * Citation.t)) (lines : list string) :
  format_loop items lines = lines ++ (citation_line <$> items).
Proof.
  revert lines. induction items as [|item rest IH]; intros lines; simpl.
  - now rewrite app_nil_r.
  - rewrite IH, <- app_assoc. reflexivity.
Qed.

(** The source list is the join of one formatted line per citation *)
Lemma format_citations_lines (cits : list Citation.t) :
  _format_citations cits
  = Py.join (String Py.newline "") (citation_line <$> Py.enumerate 1 cits).
Proof. unfold _format_citations. now rewrite format_loop_lines. Qed.

Lemma append_nonempty_r (s t : string) : t <> "" -> s +:+ t <> "".
Proof. destruct s; simpl; [tauto|discriminate]. Qed.

(** A join is empty only for no item or for one empty item *)
Lemma join_space_empty (l : list string) :
  Py.join " " l = "" <-> l = [] \/ l = [""].
Proof.
  split.
  - destruct l as [|x [|y r]]; simpl; intros H.
    + now left.
    + right. now rewrite H.
    + exfalso. revert H. apply append_nonempty_r. discriminate.
  - intros [->| ->]; reflexivity.
Qed.

End answer_facts.

(** C4, as the claim states it, fails: with no evidence (the fusion of
    two absent result lists) and a collaborator that raises, the answer is
    the empty string. *)
Lemma generate_answer_fallback_empty :
  exists r,
    AnswerAgent.generate_answer failing_llm (FusionAgent.fuse None None) "q?"
    = Return r /\
    AnswerAgent.answer r = "".
Proof. eexists. split; [vm_compute; reflexivity|reflexivity]. Qed.

(** C4 (amended). When the collaborator's chat call raises,
    [generate_answer] returns a result and does not raise: the answer is
    the space-joined claims of the first at most three citations, which is
    empty exactly when there is no citation or a single citation with an
    empty claim; the citations are the evidence, unchanged; the sources
    text joins one line per citation, ['[index] source (source_type)'] with
    the index counted from 1 and the url or ['unknown'] standing in for a
    missing source. *)
Theorem generate_answer_fallback
  (chat : AnswerAgent.llm) (fused : FusionAgent.fused) (user_query : string)
  (e : exn) :
  chat (AnswerAgent.build_messages (FusionAgent.evidence fused) user_query)
  = Raise e ->
  exists r,
    AnswerAgent.generate_answer chat fused user_query = Return r /\
    AnswerAgent.answer r
    = Py.join " " (Citation.claim <$> take 3 (FusionAgent.evidence fused)) /\
    (AnswerAgent.answer r = "" <->
       FusionAgent.evidence fused = [] \/
       exists c, FusionAgent.evidence fused = [c] /\ Citation.claim c = "") /\
    AnswerAgent.citations r = FusionAgent.evidence fused /\
    AnswerAgent.sources_text r
    = Py.join (String Py.newline "")
        (AnswerAgent.citation_line <$> Py.enumerate 1 (FusionAgent.evidence fused)) /\
    length (AnswerAgent.citation_line <$> Py.enumerate 1 (FusionAgent.evidence fused))
    = length (FusionAgent.evidence fused).
Proof.
  intros Hchat. unfold AnswerAgent.generate_answer. rewrite Hchat.
  eexists. split; [reflexivity|]. simpl.
  split; [reflexivity|]. split; [|split; [reflexivity|split]].
  - rewrite join_space_empty.
    destruct (FusionAgent.evidence fused) as [|c [|c' l]]; simpl.
    + split; [now left|now left].
    + split.
      * intros [H|H]; [discriminate|]. right. exists c.
        split; [reflexivity|]. now injection H.
      * intros [H|(c0 & [= <-] & Hc)]; [discriminate|]. right. now rewrite Hc.
    + split.
      * intros [H|H]; [discriminate|]. destruct l; discriminate.
      * intros [H|(c0 & H & _)]; discriminate.
  - apply format_citations_lines.
  - now rewrite length_fmap, enumerate_length.
Qed.

Lemma generate_answer_fallback_witness :
  exists r,
    AnswerAgent.generate_answer failing_llm
      (FusionAgent.fuse (Some [doc_hit "Alpha beta" None]) (Some [web_hit "Gamma" None]))
      "q?" = Return r /\
    AnswerAgent.answer r = "Alpha beta Gamma" /\
    AnswerAgent.sources_text r
    = "[1] report.pdf (document)" +:+ String Py.newline "[2] Example page (internet)".
Proof.
  destruct (generate_answer_fallback failing_llm
              (FusionAgent.fuse (Some [doc_hit "Alpha beta" None])
                 (Some [web_hit "Gamma" None]))
              "q?" (RuntimeError "generation failed") eq_refl)
    as (r & Hr & Ha & _ & _ & Hs & _).
  exists r. split; [exact Hr|]. split.
  - rewrite Ha. vm_compute. reflexivity.
  - rewrite Hs. vm_compute. reflexivity.
Defined.

(** * Further properties *)

(** ** Strings *)

Section string_facts.

Lemma append_cons (x : ascii) (a b : string) :
  String x a +:+ b = String x (a +:+ b).
Proof. reflexivity. Qed.

Lemma append_assoc (a b c : string) : (a +:+ b) +:+ c = a +:+ (b +:+ c).
Proof.
  induction a as [|x a IH]; [reflexivity|].
  rewrite !append_cons. now f_equal.
Qed.

Lemma append_empty_r (a : string) : a +:+ "" = a.
Proof.
  induction a as [|x a IH]; [reflexivity|]. rewrite append_cons. now f_equal.
Qed.

Lemma length_append (a b : string) :
  String.length (a +:+ b) = (String.length a + String.length b)%nat.
Proof.
  induction a as [|x a IH]; [reflexivity|]. rewrite append_cons. simpl.
  now f_equal.
Qed.

Lemma substring_length_le (n m : nat) (s : string) :
  (String.length (String.substring n m s) <= m)%nat.
Proof.
  revert n m. induction s as [|c r IH]; intros [|n] [|m]; simpl; try lia.
  - specialize (IH 0%nat m). lia.
  - apply (IH n 0%nat).
  - apply (IH n (S m)).
Qed.

Lemma lstrip_length_le (s : string) :
  (String.length (Py.lstrip s) <= String.length s)%nat.
Proof.
  induction s as [|c r IH]; simpl; [lia|].
  destruct (Py.isspace c); simpl; lia.
Qed.

Lemma rstrip_length_le (s : string) :
  (String.length (Py.rstrip s) <= String.length s)%nat.
Proof.
  induction s as [|c r IH]; simpl; [lia|].
  destruct (Py.rstrip r) eqn:E; [destruct (Py.isspace c)|]; simpl in *; lia.
Qed.

Lemma strip_length_le (s : string) :
  (String.length (Py.strip s) <= String.length s)%nat.
Proof.
  unfold Py.strip.
  pose proof (rstrip_length_le (Py.lstrip s)). pose proof (lstrip_length_le s).
  lia.
Qed.

(** A slice is no longer than its index range *)
Lemma slice_length_le (s : string) (i j : Z) :
  0 <= i -> i <= j -> Z.of_nat (String.length (Py.slice s i j)) <= j - i.
Proof.
  intros Hi Hj. unfold Py.slice.
  pose proof (substring_length_le
    (Z.to_nat (Py.adjust (Py.len s) i))
    (Z.to_nat (Py.adjust (Py.len s) j - Py.adjust (Py.len s) i)) s) as H.
  pose proof (len_nonneg s).
  unfold Py.adjust in *.
  destruct (i <? 0) eqn:Ei; [lia|]. destruct (j <? 0) eqn:Ej; [lia|]. lia.
Qed.

End string_facts.

(** ** chunk_text: when it returns, and what it returns *)

Section chunk_text_more.

Import DocumentChunker.

Variables (text : string) (chunk_size chunk_overlap : Z).
Variables (document_id src : string).

Local Abbreviation body := (loop_body text chunk_size chunk_overlap document_id src).
Local Abbreviation loop := (chunk_loop text chunk_size chunk_overlap document_id src).

(** A window never ends beyond the full-size window *)
Lemma window_end_le_size (s : Z) :
  0 <= s -> s < Py.len text -> 0 < chunk_size ->
  window_end text chunk_size s <= s + chunk_size.
Proof.
  intros Hs Hlt Hsize. unfold window_end.
  set (e := Z.min (s + chunk_size) (Py.len text)).
  destruct (e <? Py.len text) eqn:E; [|lia].
  match goal with |- (if ?b then _ else _) <= _ => destruct b end; [|lia].
  assert (Py.adjust (Py.len text) e = e) as He.
  { unfold Py.adjust. destruct (e <? 0) eqn:E0; lia. }
  destruct (rfind_range Py.period text s e) as [H1|H1];
    destruct (rfind_range Py.newline text s e) as [H2|H2];
    rewrite ?He in *; lia.
Qed.

(** Without overlap the next window starts after the current start,
    whatever the sign of the sizes *)
Lemma window_end_progress (s : Z) :
  chunk_overlap <= 0 -> chunk_overlap < chunk_size -> s < Py.len text ->
  s < window_end text chunk_size s - chunk_overlap.
Proof.
  intros Hov Hsize Hs. unfold window_end.
  destruct (Z.min (s + chunk_size) (Py.len text) <? Py.len text) eqn:E; [|lia].
  match goal with |- _ < (if ?b then _ else _) - _ => destruct b eqn:Eb end; lia.
Qed.

Lemma chunk_loop_returns_without_overlap (fuel : nat) (st : loop_state) :
  chunk_overlap <= 0 -> chunk_overlap < chunk_size ->
  Py.len text - start st < Z.of_nat fuel ->
  exists l, loop fuel st = Return l.
Proof.
  intros Hov Hsize. revert st. induction fuel as [|fuel IH]; intros st Hst; simpl.
  - destruct (start st <? Py.len text) eqn:E; [lia|eauto].
  - destruct (start st <? Py.len text) eqn:E; [|eauto].
    apply IH. rewrite start_loop_body.
    assert (start st < Py.len text) as Hlt by lia.
    pose proof (window_end_progress (start st) Hov Hsize Hlt). lia.
Qed.

Lemma located_invariant_body (st : loop_state) :
  0 < chunk_size -> chunk_overlap <= 0 -> start st < Py.len text ->
  located_invariant text chunk_size st ->
  located_invariant text chunk_size (body st).
Proof.
  intros Hsize Hov Hlt [Hs Hall].
  pose proof (window_end_gt text chunk_size (start st) Hsize Hlt) as Hgt.
  pose proof (window_end_le_len text chunk_size (start st)) as Hle.
  pose proof (window_end_le_size (start st) Hs Hlt Hsize) as Hsz.
  unfold loop_body. destruct (Py.nonempty _) eqn:E; split; simpl; try lia;
    [|exact Hall].
  apply Forall_app. split; [exact Hall|]. constructor; [|constructor].
  exists (start st), (window_end text chunk_size (start st)).
  repeat split; try lia; reflexivity.
Qed.

Lemma chunk_loop_located (fuel : nat) (st : loop_state) (l : list TextChunk) :
  0 < chunk_size -> chunk_overlap <= 0 ->
  located_invariant text chunk_size st -> loop fuel st = Return l ->
  Forall (located_in text chunk_size) l.
Proof.
  intros Hsize Hov. revert st. induction fuel as [|fuel IH]; intros st Hst; simpl;
    destruct (start st <? Py.len text) eqn:E; try discriminate.
  - intros [= <-]. apply Hst.
  - apply IH. apply located_invariant_body; [exact Hsize|exact Hov|lia|exact Hst].
  - intros [= <-]. apply Hst.
Qed.

End chunk_text_more.

Lemma len_positive (s : string) : s <> "" -> 0 < Py.len s.
Proof. destruct s; [congruence|]. unfold Py.len. simpl. lia. Qed.

(** X1. For [chunk_overlap < chunk_size], [chunk_text] returns (for some
    number of loop iterations) exactly when the text is empty or the
    overlap is not positive; in that case [len(text)] iterations
    suffice. *)
Theorem chunk_text_returns_iff
  (text : string) (chunk_size chunk_overlap : Z) (document_id src : string) :
  chunk_overlap < chunk_size ->
  ((exists (fuel : nat) (l : list TextChunk),
      DocumentChunker.chunk_text text chunk_size chunk_overlap document_id src fuel
      = Return l)
   <-> (text = "" \/ chunk_overlap <= 0)) /\
  (text = "" \/ chunk_overlap <= 0 ->
   exists l,
     DocumentChunker.chunk_text text chunk_size chunk_overlap document_id src
       (S (String.length text)) = Return l).
Proof.
  intros Hlt.
  assert (text = "" \/ chunk_overlap <= 0 ->
          exists l,
            DocumentChunker.chunk_text text chunk_size chunk_overlap document_id src
              (S (String.length text)) = Return l) as Hret.
  { intros H. unfold DocumentChunker.chunk_text.
    destruct (chunk_overlap >=? chunk_size) eqn:E; [lia|].
    destruct H as [->|Hov].
    - simpl. eauto.
    - apply chunk_loop_returns_without_overlap; [exact Hov|exact Hlt|].
      unfold Py.len. simpl DocumentChunker.start. lia. }
  split; [|exact Hret]. split.
  - intros (fuel & l & Hl).
    destruct (decide (text = "")) as [Ht|Ht]; [now left|]. right.
    destruct (Z.le_gt_cases chunk_overlap 0) as [H|H]; [exact H|].
    rewrite chunk_text_out_of_fuel in Hl; [discriminate|now apply len_positive|lia].
  - intros H. destruct (Hret H) as [l Hl]. eauto.
Qed.

Lemma chunk_text_returns_iff_witness :
  ~ (exists (fuel : nat) (l : list TextChunk),
       DocumentChunker.chunk_text "abc" 1024 200 "doc1" "test" fuel = Return l) /\
  (exists l,
     DocumentChunker.chunk_text "abc" 1024 0 "doc1" "test" 4 = Return l).
Proof.
  split.
  - intros H.
    assert (200 < 1024) as Hlt by lia.
    apply (proj1 (chunk_text_returns_iff "abc" 1024 200 "doc1" "test" Hlt)) in H.
    destruct H as [H|H]; [discriminate|lia].
  - assert (0 < 1024) as Hlt by lia.
    apply (proj2 (chunk_text_returns_iff "abc" 1024 0 "doc1" "test" Hlt)).
    right. lia.
Defined.

(** X2. Every chunk of a list that [chunk_text] returns for a positive
    chunk size is cut from a window [start_position, end_position) of the
    text that the metadata records: the window is non-empty, lies within
    the text, spans at most [chunk_size] characters, and the content is the
    stripped slice of it, so at most [chunk_size] characters long. *)
Theorem chunk_text_chunks_located
  (text : string) (chunk_size chunk_overlap : Z) (document_id src : string)
  (fuel : nat) (l : list TextChunk) :
  0 < chunk_size ->
  DocumentChunker.chunk_text text chunk_size chunk_overlap document_id src fuel
  = Return l ->
  Forall (λ c, located_in text chunk_size c /\
               Z.of_nat (String.length (content c)) <= chunk_size) l.
Proof.
  intros Hsize Hl.
  assert (Forall (located_in text chunk_size) l) as Hloc.
  { unfold DocumentChunker.chunk_text in Hl.
    destruct (chunk_overlap >=? chunk_size) eqn:E; [discriminate|].
    destruct (Z.le_gt_cases chunk_overlap 0) as [Hov|Hov].
    - eapply chunk_loop_located; [exact Hsize|exact Hov| |exact Hl].
      split; [simpl; lia|constructor].
    - destruct (decide (text = "")) as [->|Ht].
      + destruct fuel; simpl in Hl; injection Hl as <-; constructor.
      + rewrite chunk_loop_out_of_fuel in Hl;
          [discriminate|exact Hov|now apply len_positive]. }
  eapply Forall_impl; [exact Hloc|]. simpl.
  intros c Hc. split; [exact Hc|].
  destruct Hc as (s & e & Hs & Hse & He & Hsz & _ & _ & ->).
  pose proof (strip_length_le (Py.slice text s e)).
  pose proof (slice_length_le text s e Hs). lia.
Qed.

Lemma chunk_text_chunks_located_witness :
  exists l,
    DocumentChunker.chunk_text "Hi. there all" 5 0 "doc1" "test" 14 = Return l /\
    Forall (λ c, located_in "Hi. there all" 5 c /\
                 Z.of_nat (String.length (content c)) <= 5) l.
Proof.
  eexists. split; [vm_compute; reflexivity|].
  apply (chunk_text_chunks_located "Hi. there all" 5 0 "doc1" "test" 14);
    [lia|vm_compute; reflexivity].
Defined.

(** ** Chunk ids and trimmed contents *)

Section strip_facts.

Lemma lstrip_no_leading_space (s : string) : no_leading_space (Py.lstrip s).
Proof.
  induction s as [|c r IH]; simpl; [exact I|].
  destruct (Py.isspace c) eqn:E; [exact IH|exact E].
Qed.

Lemma lstrip_fixed (s : string) : no_leading_space s -> Py.lstrip s = s.
Proof. destruct s as [|c r]; simpl; [reflexivity|]. now intros ->. Qed.

Lemma rstrip_no_leading_space (s : string) :
  no_leading_space s -> no_leading_space (Py.rstrip s).
Proof.
  destruct s as [|c r]; simpl; [tauto|]. intros Hc.
  destruct (Py.rstrip r); rewrite ?Hc; exact Hc.
Qed.

Lemma rstrip_idempotent (s : string) : Py.rstrip (Py.rstrip s) = Py.rstrip s.
Proof.
  induction s as [|c r IH]; simpl; [reflexivity|].
  destruct (Py.rstrip r) as [|x r'] eqn:E.
  - destruct (Py.isspace c) eqn:Ec; simpl; [reflexivity|]. now rewrite Ec.
  - simpl. simpl in IH. now rewrite IH.
Qed.

(** Stripping twice is stripping once *)
Lemma strip_idempotent (s : string) : Py.strip (Py.strip s) = Py.strip s.
Proof.
  unfold Py.strip.
  rewrite (lstrip_fixed (Py.rstrip (Py.lstrip s))).
  - apply rstrip_idempotent.
  - apply rstrip_no_leading_space, lstrip_no_leading_space.
Qed.

Lemma str_of_nat_inj (a b : nat) : Py.str_of_nat a = Py.str_of_nat b -> a = b.
Proof.
  unfold Py.str_of_nat. intros H.
  apply DecimalNat.Unsigned.to_uint_inj.
  pose proof (NilEmpty.usu (Nat.to_uint a)) as Ha.
  pose proof (NilEmpty.usu (Nat.to_uint b)) as Hb.
  rewrite H in Ha. congruence.
Qed.

Lemma append_inj_r (p a b : string) : p +:+ a = p +:+ b -> a = b.
Proof.
  induction p as [|x p IH]; [tauto|]. rewrite !append_cons.
  intros [= H]. now apply IH.
Qed.

End strip_facts.

Section chunk_id_facts.

Import DocumentChunker.

Lemma indexed_ids (document_id tag : string) (js : list nat) (l : list TextChunk) :
  indexed_by js l -> Forall (id_follows_index document_id tag) l ->
  chunk_id <$> l = (λ i, document_id +:+ tag +:+ Py.str_of_nat i) <$> js.
Proof.
  unfold indexed_by. revert js. induction l as [|c l IH]; intros [|j js] Hjs Hall;
    simpl in *; try discriminate; [reflexivity|].
  injection Hjs as Hc Hjs. inversion Hall as [|? ? (i & Hi & Hid) Hall']; subst.
  f_equal; [|now apply IH].
  rewrite Hid. rewrite Hi in Hc. injection Hc as Hc.
  apply Nat2Z.inj in Hc. now subst.
Qed.

(** Chunks whose ids follow pairwise distinct indices have pairwise
    distinct ids *)
Lemma indexed_ids_NoDup (document_id tag : string) (js : list nat)
  (l : list TextChunk) :
  indexed_by js l -> NoDup js -> Forall (id_follows_index document_id tag) l ->
  NoDup (chunk_id <$> l).
Proof.
  intros Hjs Hnd Hall. rewrite (indexed_ids _ _ _ _ Hjs Hall).
  apply NoDup_fmap_2; [|exact Hnd].
  intros a b H. apply append_inj_r, append_inj_r in H. now apply str_of_nat_inj.
Qed.

Lemma indexed_from_zero_by (l : list TextChunk) :
  indexed_from_zero l <-> indexed_by (seq 0 (length l)) l.
Proof. reflexivity. Qed.

Lemma strictly_increasing_NoDup (js : list nat) :
  strictly_increasing js -> NoDup js.
Proof.
  unfold strictly_increasing. induction 1 as [|j js Hs IH Hall]; constructor;
    [|exact IH].
  intros Hin. eapply Forall_forall in Hall; [|exact Hin]. lia.
Qed.

(** Whatever holds of every chunk that [chunk_text] builds holds of its
    list of chunks *)
Lemma chunk_text_loop_body_Forall (P : TextChunk -> Prop)
  (text : string) (chunk_size chunk_overlap : Z) (document_id src : string)
  (st : loop_state) :
  (forall x n s e, P (make_chunk document_id src (Py.strip x) n s e)) ->
  Forall P (chunks st) ->
  Forall P (chunks (loop_body text chunk_size chunk_overlap document_id src st)).
Proof.
  intros HP Hall. unfold loop_body. destruct (Py.nonempty _); simpl; [|exact Hall].
  apply Forall_app. split; [exact Hall|]. constructor; [apply HP|constructor].
Qed.

Lemma chunk_text_iter_Forall (P : TextChunk -> Prop)
  (text : string) (chunk_size chunk_overlap : Z) (document_id src : string)
  (k : nat) :
  (forall x n s e, P (make_chunk document_id src (Py.strip x) n s e)) ->
  Forall P (chunks (Nat.iter k
    (loop_body text chunk_size chunk_overlap document_id src) initial)).
Proof.
  intros HP. induction k as [|k IH]; simpl; [constructor|].
  now apply chunk_text_loop_body_Forall.
Qed.

Lemma chunk_loop_Forall (P : TextChunk -> Prop)
  (text : string) (chunk_size chunk_overlap : Z) (document_id src : string)
  (fuel : nat) (st : loop_state) (l : list TextChunk) :
  (forall x n s e, P (make_chunk document_id src (Py.strip x) n s e)) ->
  Forall P (chunks st) ->
  chunk_loop text chunk_size chunk_overlap document_id src fuel st = Return l ->
  Forall P l.
Proof.
  intros HP. revert st. induction fuel as [|fuel IH]; intros st Hst; simpl;
    destruct (start st <? Py.len text); try discriminate.
  - now intros [= <-].
  - apply IH. now apply chunk_text_loop_body_Forall.
  - now intros [= <-].
Qed.

Lemma sections_for_loop_Forall (P : TextChunk -> Prop) (document_id src : string)
  (items : list (nat * string)) (chunks : list TextChunk) :
  (forall x idx, P (Sections.make_chunk document_id src (Py.strip x) idx)) ->
  Forall P chunks ->
  Forall P (Sections.for_loop document_id src items chunks).
Proof.
  intros HP. revert chunks. induction items as [|[idx para] rest IH];
    intros chunks Hall; simpl; [exact Hall|].
  destruct (Py.nonempty (Py.strip para)); apply IH; [|exact Hall].
  apply Forall_app. split; [exact Hall|]. constructor; [apply HP|constructor].
Qed.

Lemma tokens_for_loop_Forall (P : TextChunk -> Prop) (max_tokens : Z)
  (document_id src : string) (words : list string) (st : Tokens.loop_state) :
  (forall ws n, P (Tokens.make_chunk document_id src
                     (Py.strip (Py.join " " ws)) n (length ws))) ->
  Forall P (Tokens.chunks st) ->
  Forall P (Tokens.chunks (Tokens.for_loop max_tokens document_id src words st)).
Proof.
  intros HP. revert st. induction words as [|word rest IH]; intros st Hall; simpl;
    [exact Hall|].
  destruct (Tokens.reached _ _); [destruct (Py.nonempty _)|]; apply IH; simpl;
    try exact Hall.
  apply Forall_app. split; [exact Hall|]. constructor; [apply HP|constructor].
Qed.

Lemma tokens_flush_Forall (P : TextChunk -> Prop) (document_id src : string)
  (st : Tokens.loop_state) :
  (forall ws n, P (Tokens.make_chunk document_id src
                     (Py.strip (Py.join " " ws)) n (length ws))) ->
  Forall P (Tokens.chunks st) ->
  Forall P (Tokens.flush document_id src st).
Proof.
  intros HP Hall. unfold Tokens.flush.
  destruct (Tokens.chunk_words st); [exact Hall|].
  apply Forall_app. split; [exact Hall|]. constructor; [apply HP|constructor].
Qed.

End chunk_id_facts.

(** X3. In every strategy the chunk id is the document id, the strategy's
    tag and the decimal chunk index, and the ids of one pass are pairwise
    distinct: for [chunk_text] after any number of iterations and in any
    returned list, for [chunk_by_sections] and for [chunk_by_tokens]. *)
Theorem chunk_ids_follow_index_and_are_distinct
  (text document_id src : string) :
  (forall (chunk_size chunk_overlap : Z),
     (forall k : nat,
        let l := DocumentChunker.chunks (Nat.iter k
          (DocumentChunker.loop_body text chunk_size chunk_overlap document_id src)
          DocumentChunker.initial) in
        Forall (id_follows_index document_id "_chunk_") l /\
        NoDup (chunk_id <$> l)) /\
     (forall (fuel : nat) (l : list TextChunk),
        DocumentChunker.chunk_text text chunk_size chunk_overlap document_id src fuel
        = Return l ->
        Forall (id_follows_index document_id "_chunk_") l /\
        NoDup (chunk_id <$> l))) /\
  (let l := DocumentChunker.chunk_by_sections text document_id src in
   Forall (id_follows_index document_id "_section_") l /\
   NoDup (chunk_id <$> l)) /\
  (forall max_tokens : Z,
     let l := DocumentChunker.chunk_by_tokens text max_tokens document_id src in
     Forall (id_follows_index document_id "_token_chunk_") l /\
     NoDup (chunk_id <$> l)).
Proof.
  assert (forall x n s e,
            id_follows_index document_id "_chunk_"
              (DocumentChunker.make_chunk document_id src (Py.strip x) n s e))
    as Hfixed by (intros x n s e; exists n; split; reflexivity).
  split; [|split].
  - intros chunk_size chunk_overlap. split.
    + intros k l.
      assert (Forall (id_follows_index document_id "_chunk_") l) as Hall
        by now apply chunk_text_iter_Forall.
      split; [exact Hall|].
      destruct (loop_invariant_iter text chunk_size chunk_overlap document_id src k)
        as (_ & Hidx & _).
      eapply indexed_ids_NoDup; [apply indexed_from_zero_by, Hidx| |exact Hall].
      apply NoDup_seq.
    + intros fuel l Hl. unfold DocumentChunker.chunk_text in Hl.
      destruct (chunk_overlap >=? chunk_size); [discriminate|].
      assert (Forall (id_follows_index document_id "_chunk_") l) as Hall.
      { eapply chunk_loop_Forall; [exact Hfixed| |exact Hl]. constructor. }
      split; [exact Hall|].
      destruct (chunk_loop_invariant _ _ _ _ _ _ _ _ loop_invariant_initial Hl)
        as [Hidx _].
      eapply indexed_ids_NoDup; [apply indexed_from_zero_by, Hidx| |exact Hall].
      apply NoDup_seq.
  - intros l.
    assert (Forall (id_follows_index document_id "_section_") l) as Hall.
    { apply sections_for_loop_Forall; [|constructor].
      intros x idx. exists idx. split; reflexivity. }
    split; [exact Hall|].
    destruct (kept_positions_enumerate 0 (Py.split_nlnl text)) as [Hs _].
    eapply indexed_ids_NoDup; [|apply strictly_increasing_NoDup, Hs|exact Hall].
    apply (sections_for_loop_indexed document_id src _ [] []). reflexivity.
  - intros max_tokens l.
    assert (Forall (id_follows_index document_id "_token_chunk_") l) as Hall.
    { apply tokens_flush_Forall, tokens_for_loop_Forall; try constructor;
        intros ws n; exists n; split; reflexivity. }
    split; [exact Hall|].
    assert (indexed_from_zero l) as Hidx.
    { apply tokens_flush_invariant, tokens_for_loop_invariant.
      - apply split_visible.
      - repeat split; constructor. }
    eapply indexed_ids_NoDup; [apply indexed_from_zero_by, Hidx| |exact Hall].
    apply NoDup_seq.
Qed.

(** X4. In every strategy the content of a chunk carries no whitespace at
    either end: stripping it again changes nothing. *)
Theorem chunk_contents_are_trimmed (text document_id src : string) :
  (forall (chunk_size chunk_overlap : Z),
     (forall k : nat,
        Forall trimmed (DocumentChunker.chunks (Nat.iter k
          (DocumentChunker.loop_body text chunk_size chunk_overlap document_id src)
          DocumentChunker.initial))) /\
     (forall (fuel : nat) (l : list TextChunk),
        DocumentChunker.chunk_text text chunk_size chunk_overlap document_id src fuel
        = Return l ->
        Forall trimmed l)) /\
  Forall trimmed (DocumentChunker.chunk_by_sections text document_id src) /\
  (forall max_tokens : Z,
     Forall trimmed (DocumentChunker.chunk_by_tokens text max_tokens document_id src)).
Proof.
  split; [|split].
  - intros chunk_size chunk_overlap. split.
    + intros k. apply chunk_text_iter_Forall.
      intros x n s e. apply strip_idempotent.
    + intros fuel l Hl. unfold DocumentChunker.chunk_text in Hl.
      destruct (chunk_overlap >=? chunk_size); [discriminate|].
      eapply chunk_loop_Forall; [| |exact Hl]; [|constructor].
      intros x n s e. apply strip_idempotent.
  - apply sections_for_loop_Forall; [|constructor].
    intros x idx. apply strip_idempotent.
  - intros max_tokens.
    apply tokens_flush_Forall, tokens_for_loop_Forall; try constructor;
      intros ws n; apply strip_idempotent.
Qed.

(** ** Words: split and join *)

Section word_facts.

Lemma all_visible_app (a b : string) :
  all_visible a -> all_visible b -> all_visible (a +:+ b).
Proof.
  induction a as [|x a IH]; [tauto|]. rewrite append_cons. simpl.
  intros [Hx Ha] Hb. split; [exact Hx|]. now apply IH.
Qed.

Lemma append_nonempty_l (a b : string) : a <> "" -> a +:+ b <> "".
Proof. destruct a; [congruence|]. rewrite append_cons. discriminate. Qed.

Lemma nonempty_snoc (cur : string) (c : ascii) :
  Py.nonempty (cur +:+ String c "") = true.
Proof. destruct cur; reflexivity. Qed.

Lemma is_word_starts_visible (w : string) : is_word w -> starts_visible w.
Proof. intros [Hne Hv]. destruct w; [congruence|]. apply Hv. Qed.

Lemma split_go_words (s cur : string) :
  all_visible cur -> Forall is_word (Py.split_go s cur).
Proof.
  revert cur. induction s as [|c r IH]; intros cur Hcur; simpl.
  - destruct cur; simpl; [constructor|].
    constructor; [split; [discriminate|exact Hcur]|constructor].
  - destruct (Py.isspace c) eqn:Ec.
    + destruct cur; simpl; [now apply IH|].
      constructor; [split; [discriminate|exact Hcur]|now apply IH].
    + apply IH, all_visible_app; [exact Hcur|]. now split.
Qed.

(** The items of [s.split()] are words *)
Lemma split_words (s : string) : Forall is_word (Py.split s).
Proof. now apply split_go_words. Qed.

Lemma split_go_visible_prefix (w s cur : string) :
  all_visible w -> Py.split_go (w +:+ s) cur = Py.split_go s (cur +:+ w).
Proof.
  revert cur. induction w as [|c w IH]; intros cur Hw.
  - now rewrite append_empty_r.
  - destruct Hw as [Hc Hw]. rewrite append_cons. simpl. rewrite Hc.
    rewrite IH by exact Hw. now rewrite append_assoc.
Qed.

Lemma split_go_join (ws : list string) (cur : string) :
  Forall is_word ws ->
  Py.split_go (Py.join " " ws) cur
  = match ws with
    | [] => if Py.nonempty cur then [cur] else []
    | w :: ws' => (cur +:+ w) :: ws'
    end.
Proof.
  intros Hws. revert cur. induction Hws as [|w ws [Hne Hw] Hws IH]; intros cur.
  - reflexivity.
  - destruct ws as [|w2 ws].
    + simpl. rewrite <- (append_empty_r w) at 1.
      rewrite split_go_visible_prefix by exact Hw. simpl.
      destruct (cur +:+ w) eqn:E; [|reflexivity].
      exfalso. exact (append_nonempty_r cur w Hne E).
    + change (Py.join " " (w :: w2 :: ws))
        with (w +:+ " " +:+ Py.join " " (w2 :: ws)).
      rewrite split_go_visible_prefix by exact Hw.
      change (" " +:+ Py.join " " (w2 :: ws))
        with (String " " (Py.join " " (w2 :: ws))).
      simpl Py.split_go at 1.
      replace (Py.nonempty (cur +:+ w)) with true.
      * rewrite (IH ""). reflexivity.
      * symmetry. apply nonempty_true. now apply append_nonempty_r.
Qed.

(** Splitting the space-joined words gives the words back *)
Lemma split_join_words (ws : list string) :
  Forall is_word ws -> Py.split (Py.join " " ws) = ws.
Proof.
  intros Hws. unfold Py.split. rewrite split_go_join by exact Hws.
  now destruct ws.
Qed.

Lemma split_go_lstrip (s : string) :
  Py.split_go (Py.lstrip s) "" = Py.split_go s "".
Proof.
  induction s as [|c r IH]; simpl; [reflexivity|].
  destruct (Py.isspace c) eqn:Ec; [exact IH|]. simpl. now rewrite Ec.
Qed.

Lemma split_go_rstrip (s cur : string) :
  Py.split_go (Py.rstrip s) cur = Py.split_go s cur.
Proof.
  revert cur. induction s as [|c r IH]; intros cur; [reflexivity|]. simpl.
  destruct (Py.rstrip r) as [|x r'] eqn:E.
  - destruct (Py.isspace c) eqn:Ec; simpl.
    + rewrite <- !IH. simpl. now destruct (Py.nonempty cur).
    + rewrite Ec, <- IH. reflexivity.
  - simpl. destruct (Py.isspace c) eqn:Ec.
    + rewrite <- !IH. reflexivity.
    + rewrite <- IH. reflexivity.
Qed.

(** [strip] before [split] changes nothing *)
Lemma split_strip (s : string) : Py.split (Py.strip s) = Py.split s.
Proof.
  unfold Py.split, Py.strip. now rewrite split_go_rstrip, split_go_lstrip.
Qed.

End word_facts.

(** ** chunk_by_tokens: the words of the chunks *)

Section tokens_words.

Import DocumentChunker.

Variables (max_tokens : Z) (document_id src : string).

Lemma reached_mono (n : nat) :
  Tokens.reached n max_tokens = true -> Tokens.reached (S n) max_tokens = true.
Proof. unfold Tokens.reached. intros H. apply Z.leb_le in H. apply Z.leb_le. lia. Qed.

Lemma token_chunk_words (ws : list string) (c : TextChunk) :
  token_chunk_of max_tokens ws c -> Py.split (content c) = ws.
Proof.
  intros (Hc & _ & _ & Hws & _). rewrite Hc, split_strip.
  now apply split_join_words.
Qed.

Lemma token_chunks_words (groups : list (list string)) (l : list TextChunk) :
  Forall2 (token_chunk_of max_tokens) groups l ->
  Py.split <$> (content <$> l) = groups.
Proof.
  induction 1 as [|ws c groups l Hc _ IH]; simpl; [reflexivity|].
  f_equal; [now apply token_chunk_words|exact IH].
Qed.

Lemma tokens_for_loop_words (words done : list string) (st : Tokens.loop_state) :
  Forall is_word words ->
  tokens_words_invariant max_tokens done st ->
  tokens_words_invariant max_tokens (done ++ words)
    (Tokens.for_loop max_tokens document_id src words st).
Proof.
  revert done st. induction words as [|word rest IH]; intros done st Hwords Hst.
  - simpl. now rewrite app_nil_r.
  - inversion Hwords as [|? ? Hword Hrest]; subst.
    destruct Hst as ((groups & Hgroups & Hreached & Hdone) & Hcw & Hpending).
    replace (done ++ word :: rest) with ((done ++ [word]) ++ rest)
      by now rewrite <- app_assoc.
    simpl.
    assert (Forall is_word (Tokens.chunk_words st ++ [word])) as Hcw'.
    { apply Forall_app. split; [exact Hcw|]. now constructor. }
    destruct (Tokens.reached (length (Tokens.chunk_words st ++ [word])) max_tokens)
      eqn:Er.
    + assert (Py.strip (Py.join " " (Tokens.chunk_words st ++ [word])) <> "")
        as Hne.
      { apply tokens_content_nonempty.
        - eapply Forall_impl; [exact Hcw|]. apply is_word_starts_visible.
        - now apply is_word_starts_visible. }
      apply nonempty_true in Hne. rewrite Hne.
      apply IH; [exact Hrest|]. split; [|split; [constructor|now left]].
      exists (groups ++ [Tokens.chunk_words st ++ [word]]). simpl.
      split; [|split].
      * apply Forall2_app; [exact Hgroups|]. constructor; [|constructor].
        split; [reflexivity|]. split; [reflexivity|].
        split; [now destruct (Tokens.chunk_words st)|].
        split; [exact Hcw'|].
        rewrite length_app. simpl.
        destruct Hpending as [->|Hp]; [now left|]. right.
        now replace (length (Tokens.chunk_words st) + 1 - 1)%nat
          with (length (Tokens.chunk_words st)) by lia.
      * apply Forall_app. split; [exact Hreached|]. now constructor.
      * rewrite concat_app. simpl. rewrite !app_nil_r, <- Hdone.
        now rewrite app_assoc.
    + apply IH; [exact Hrest|]. split; [|split; [exact Hcw'|now right]].
      exists groups. simpl. split; [exact Hgroups|]. split; [exact Hreached|].
      now rewrite app_assoc, Hdone.
Qed.

(** The chunks of [chunk_by_tokens] hold consecutive groups of the words
    of the text; every group but the last reached the threshold *)
Lemma chunk_by_tokens_groups (text : string) :
  exists groups : list (list string),
    Forall2 (token_chunk_of max_tokens) groups
      (chunk_by_tokens text max_tokens document_id src) /\
    concat groups = Py.split text /\
    (forall gs g, groups = gs ++ [g] ->
       Forall (λ ws, Tokens.reached (length ws) max_tokens = true) gs).
Proof.
  unfold chunk_by_tokens.
  pose proof (tokens_for_loop_words (Py.split text) []
                {| Tokens.chunk_words := []; Tokens.chunk_counter := 0;
                   Tokens.chunks := [] |} (split_words text)) as H.
  destruct H as ((groups & Hgroups & Hreached & Hdone) & Hcw & Hpending).
  { split; [|split; [constructor|now left]].
    exists []. repeat split; constructor. }
  simpl in Hdone. unfold Tokens.flush.
  set (st := Tokens.for_loop max_tokens document_id src (Py.split text) _) in *.
  destruct (Tokens.chunk_words st) as [|w ws] eqn:E.
  - exists groups. rewrite app_nil_r in Hdone. split; [exact Hgroups|].
    split; [exact Hdone|].
    intros gs g ->. now apply Forall_app in Hreached as [H _].
  - exists (groups ++ [w :: ws]). split; [|split].
    + apply Forall2_app; [exact Hgroups|]. constructor; [|constructor].
      split; [reflexivity|]. split; [reflexivity|].
      split; [discriminate|]. split; [exact Hcw|].
      destruct Hpending as [Hp|Hp]; [discriminate|].
      destruct ws as [|w' ws]; [now left|]. right.
      destruct (Tokens.reached (length (w :: w' :: ws) - 1) max_tokens) eqn:Er;
        [|reflexivity].
      replace (length (w :: w' :: ws) - 1)%nat with (length (w' :: ws)) in Er
        by (simpl; lia).
      apply reached_mono in Er. simpl in Hp, Er. congruence.
    + rewrite concat_app. simpl. now rewrite app_nil_r.
    + intros gs g Hgs. apply app_inj_tail in Hgs as [<- _]. exact Hreached.
Qed.

End tokens_words.

(** X5. [chunk_by_tokens] loses, repeats and reorders no word: the words of
    the chunk contents, chunk after chunk, are the words of the text; and
    the [word_count] a chunk records is the number of words of its
    content. *)
Theorem chunk_by_tokens_preserves_words
  (text : string) (max_tokens : Z) (document_id src : string) :
  let l := DocumentChunker.chunk_by_tokens text max_tokens document_id src in
  concat (Py.split <$> (content <$> l)) = Py.split text /\
  Forall (λ c, word_count c
               = Some (VInt (Z.of_nat (length (Py.split (content c)))))) l.
Proof.
  intros l.
  destruct (chunk_by_tokens_groups max_tokens document_id src text)
    as (groups & Hgroups & Hconcat & _).
  fold l in Hgroups. split.
  - now rewrite (token_chunks_words _ _ _ Hgroups).
  - clear Hconcat. induction Hgroups as [|ws c groups l' Hc _ IH]; constructor;
      [|exact IH].
    rewrite (token_chunk_words _ _ _ Hc). apply Hc.
Qed.

(** X6. A chunk of [chunk_by_tokens] holds at least one word and no word
    more than it takes to reach [max_tokens / 1.3]: with [n] words, [n] is
    1 or [13 (n - 1) < 10 max_tokens]. Every chunk but the last did reach
    the threshold: [10 max_tokens <= 13 n]. *)
Theorem chunk_by_tokens_word_bounds
  (text : string) (max_tokens : Z) (document_id src : string) :
  let l := DocumentChunker.chunk_by_tokens text max_tokens document_id src in
  let words := λ c : TextChunk, Z.of_nat (length (Py.split (content c))) in
  Forall (λ c, 1 <= words c /\
               (words c = 1 \/ 13 * (words c - 1) < 10 * max_tokens)) l /\
  (forall l' c, l = l' ++ [c] ->
     Forall (λ c', 10 * max_tokens <= 13 * words c') l').
Proof.
  intros l words.
  destruct (chunk_by_tokens_groups max_tokens document_id src text)
    as (groups & Hgroups & _ & Hlast).
  fold l in Hgroups. split.
  - clear Hlast. induction Hgroups as [|ws c groups l' Hc _ IH]; constructor;
      [|exact IH].
    unfold words. rewrite (token_chunk_words _ _ _ Hc).
    destruct Hc as (_ & _ & Hne & _ & Hbound).
    destruct ws as [|w ws]; [congruence|]. simpl length in *.
    split; [lia|]. destruct Hbound as [H|H]; [left; lia|right].
    unfold DocumentChunker.Tokens.reached in H. apply Z.leb_gt in H. lia.
  - intros l' c Hl. rewrite Hl in Hgroups.
    apply Forall2_app_inv_r in Hgroups as (gs & g & Hgs & Hg & Heq).
    inversion Hg as [|g0 c0 g' l0 Hc0 Hnil]; subst. inversion Hnil; subst.
    specialize (Hlast gs g0 eq_refl).
    clear Hg Hnil Hl Hc0. revert Hlast.
    induction Hgs as [|ws c' gs l'' Hc _ IH]; intros Hlast; constructor.
    + unfold words. rewrite (token_chunk_words _ _ _ Hc).
      inversion Hlast as [|? ? Hr _]; subst.
      unfold DocumentChunker.Tokens.reached in Hr. now apply Z.leb_le in Hr.
    + apply IH. now inversion Hlast.
Qed.

(** ** RouterAgent: the decision table and the keyword matching *)

Section router_facts.

Import RouterAgent.

Lemma lower_app (a b : string) :
  PyStr.lower (a +:+ b) = PyStr.lower a +:+ PyStr.lower b.
Proof.
  induction a as [|x a IH]; [reflexivity|].
  rewrite append_cons. simpl. rewrite append_cons. now f_equal.
Qed.

Lemma lower_char_idempotent (c : ascii) :
  PyStr.lower_char (PyStr.lower_char c) = PyStr.lower_char c.
Proof. destruct c as [[] [] [] [] [] [] [] []]; reflexivity. Qed.

Lemma lower_idempotent (s : string) : PyStr.lower (PyStr.lower s) = PyStr.lower s.
Proof.
  induction s as [|c r IH]; simpl; [reflexivity|].
  now rewrite lower_char_idempotent, IH.
Qed.

(** A match survives text appended after it *)
Lemma matches_app (r : Re.regex) (s post : string) (k k' : string -> bool) :
  Re.matches r s k = true ->
  (forall s', k s' = true -> k' (s' +:+ post) = true) ->
  Re.matches r (s +:+ post) k' = true.
Proof.
  revert s k k'. induction r as [|c| |r1 IH1 r2 IH2|r1 IH1 r2 IH2];
    intros s k k' Hm Hk; simpl in *.
  - now apply Hk.
  - destruct s as [|x s]; [discriminate|]. rewrite append_cons.
    apply andb_true_iff in Hm as [Hx Hs]. rewrite Hx. simpl. now apply Hk.
  - destruct s as [|x s]; [discriminate|]. rewrite append_cons.
    apply andb_true_iff in Hm as [Hx Hs]. rewrite Hx. simpl. now apply Hk.
  - eapply IH1; [exact Hm|]. intros s' Hs'. simpl in Hs'.
    eapply IH2; [exact Hs'|exact Hk].
  - apply orb_true_iff in Hm as [Hm|Hm]; apply orb_true_iff; [left|right].
    + eapply IH1; [exact Hm|exact Hk].
    + eapply IH2; [exact Hm|exact Hk].
Qed.

Lemma search_app_r (r : Re.regex) (s post : string) :
  Re.search r s = true -> Re.search r (s +:+ post) = true.
Proof.
  induction s as [|x s IH]; intros H.
  - simpl in H. rewrite orb_false_r in H.
    destruct post as [|y post]; simpl; apply orb_true_iff; left;
      now apply (matches_app r "" _ (λ _, true) (λ _, true)).
  - rewrite append_cons. simpl in *.
    apply orb_true_iff in H as [H|H]; apply orb_true_iff; [left|right].
    + rewrite <- append_cons.
      now apply (matches_app r _ _ (λ _, true) (λ _, true)).
    + now apply IH.
Qed.

Lemma search_app_l (r : Re.regex) (pre s : string) :
  Re.search r s = true -> Re.search r (pre +:+ s) = true.
Proof.
  intros H. induction pre as [|x pre IH]; [exact H|].
  rewrite append_cons. simpl. apply orb_true_iff. now right.
Qed.

(** A keyword found in a query is found in every text around the query *)
Lemma keyword_search_context (kws : list Re.regex) (pre q post : string) :
  existsb (λ kw, Re.search kw (PyStr.lower q)) kws = true ->
  existsb (λ kw, Re.search kw (PyStr.lower (pre +:+ q +:+ post))) kws = true.
Proof.
  rewrite !existsb_exists. intros (kw & Hin & Hkw). exists kw.
  split; [exact Hin|]. rewrite !lower_app.
  now apply search_app_l, search_app_r.
Qed.

Lemma decide_table (query : string) (metadata : gmap string pyobj) :
  use_documents (decide query metadata) = has_uploaded_docs metadata /\
  use_web (decide query metadata)
  = negb (has_uploaded_docs metadata)
    || (_looks_like_web_query query && negb (_looks_like_internal_only query)).
Proof.
  unfold decide, has_uploaded_docs.
  destruct (truthy _), (_looks_like_internal_only query),
    (_looks_like_web_query query); simpl; split; reflexivity.
Qed.

End router_facts.

(** X7. The decision table of [decide]: the documents are used exactly
    when [has_uploaded_docs] is truthy (a missing key counts as false), and
    the web is used exactly when there are no documents, or the query is
    web-relevant and not internal-sounding. *)
Theorem decide_decision_table (query : string) (metadata : gmap string pyobj) :
  RouterAgent.use_documents (RouterAgent.decide query metadata)
  = has_uploaded_docs metadata /\
  RouterAgent.use_web (RouterAgent.decide query metadata)
  = negb (has_uploaded_docs metadata)
    || (RouterAgent._looks_like_web_query query
        && negb (RouterAgent._looks_like_internal_only query)) /\
  (metadata !! "has_uploaded_docs" = None -> has_uploaded_docs metadata = false).
Proof.
  destruct (decide_table query metadata) as [H1 H2].
  split; [exact H1|]. split; [exact H2|].
  unfold has_uploaded_docs. now intros ->.
Qed.

(** X8. The decision with the reason "Default to both when uncertain" is
    returned exactly when there are no documents and the query is not
    web-relevant, and it never uses both sources: it uses the web only. *)
Theorem decide_default_is_web_only (query : string) (metadata : gmap string pyobj) :
  (RouterAgent.reason (RouterAgent.decide query metadata)
   = "Default to both when uncertain"
   <-> has_uploaded_docs metadata = false /\
       RouterAgent._looks_like_web_query query = false) /\
  (RouterAgent.reason (RouterAgent.decide query metadata)
   = "Default to both when uncertain" ->
   RouterAgent.use_documents (RouterAgent.decide query metadata) = false /\
   RouterAgent.use_web (RouterAgent.decide query metadata) = true).
Proof.
  unfold RouterAgent.decide, has_uploaded_docs.
  destruct (truthy _), (RouterAgent._looks_like_internal_only query),
    (RouterAgent._looks_like_web_query query); simpl;
    repeat split; intros;
    repeat match goal with H : _ /\ _ |- _ => destruct H end;
    congruence.
Qed.

(** X9. Keywords are found anywhere in the query, inside other words too:
    a query that looks internal (or web-relevant) still does so with any
    text before and after it. So with documents, every query that contains
    "our" (as "hour" or "source" do) is answered from the documents only. *)
Theorem keyword_matching_ignores_context
  (pre query post : string) (metadata : gmap string pyobj) :
  (RouterAgent._looks_like_internal_only query = true ->
   RouterAgent._looks_like_internal_only (pre +:+ query +:+ post) = true) /\
  (RouterAgent._looks_like_web_query query = true ->
   RouterAgent._looks_like_web_query (pre +:+ query +:+ post) = true) /\
  (has_uploaded_docs metadata = true ->
   RouterAgent.decide (pre +:+ "our" +:+ post) metadata
   = RouterAgent.mkDecision true false "Internal scope detected").
Proof.
  assert (forall q, RouterAgent._looks_like_internal_only q = true ->
            RouterAgent._looks_like_internal_only (pre +:+ q +:+ post) = true)
    as Hint by (intros q; apply keyword_search_context).
  split; [apply Hint|]. split; [apply keyword_search_context|].
  intros Hdocs. unfold RouterAgent.decide. fold (has_uploaded_docs metadata).
  rewrite Hdocs, (Hint "our"); reflexivity.
Qed.

Lemma keyword_matching_ignores_context_witness :
  RouterAgent._looks_like_internal_only "What happens in 1 hour?" = true /\
  RouterAgent.decide "What happens in 1 hour?" {["has_uploaded_docs" := OBool true]}
  = RouterAgent.mkDecision true false "Internal scope detected".
Proof.
  destruct (keyword_matching_ignores_context "What happens in 1 h" "our" "?"
              {["has_uploaded_docs" := OBool true]}) as (H1 & _ & H3).
  split; [apply H1; reflexivity|apply H3; reflexivity].
Defined.

(** X10. Routing ignores the case of the query: two queries with the same
    lower-case form get the same decision, and so do a query and its
    lower-case form. *)
Theorem decide_ignores_case (q1 q2 : string) (metadata : gmap string pyobj) :
  (PyStr.lower q1 = PyStr.lower q2 ->
   RouterAgent.decide q1 metadata = RouterAgent.decide q2 metadata) /\
  RouterAgent.decide (PyStr.lower q1) metadata = RouterAgent.decide q1 metadata.
Proof.
  assert (forall a b, PyStr.lower a = PyStr.lower b ->
            RouterAgent.decide a metadata = RouterAgent.decide b metadata) as H.
  { intros a b Hab.
    unfold RouterAgent.decide, RouterAgent._looks_like_internal_only,
      RouterAgent._looks_like_web_query. now rewrite Hab. }
  split; [apply H|]. apply H, lower_idempotent.
Qed.

Lemma decide_ignores_case_witness :
  RouterAgent.decide "LATEST News" ∅ = RouterAgent.decide "latest news" ∅.
Proof.
  exact (proj1 (decide_ignores_case "LATEST News" "latest news" ∅) eq_refl).
Defined.

(** ** fuse: the ranking *)

Section ranking_facts.

Import FusionAgent.

Lemma ltb_asym (a b : pyfloat) : F.ltb a b = true -> F.ltb b a = false.
Proof.
  destruct a as [p| | |], b as [q| | |]; simpl; try congruence.
  destruct (p ?= q)%Q eqn:E; try discriminate. intros _.
  apply Qlt_alt in E. destruct (q ?= p)%Q eqn:E'; try reflexivity.
  apply Qlt_alt in E'. lra.
Qed.

(** Among numbers, "not below" is transitive *)
Lemma ltb_false_trans (a b c : pyfloat) :
  b <> NaN -> F.ltb a b = false -> F.ltb b c = false -> F.ltb a c = false.
Proof.
  destruct a as [p| | |], b as [q| | |], c as [r| | |]; simpl;
    try congruence; intros _.
  destruct (p ?= q)%Q eqn:E1; try discriminate;
    destruct (q ?= r)%Q eqn:E2; try discriminate;
    destruct (p ?= r)%Q eqn:E3; try reflexivity; intros _ _;
    apply Qlt_alt in E3;
    try apply Qeq_alt in E1; try apply Qgt_alt in E1;
    try apply Qeq_alt in E2; try apply Qgt_alt in E2; lra.
Qed.

Lemma at_most_one_not_nan (x : pyfloat) : F.at_most_one x -> x <> NaN.
Proof. destruct x; simpl; [discriminate..|tauto]. Qed.

Lemma insert_ranked_ranked (c : Citation.t) (l : list Citation.t) :
  Forall (λ x, Citation.confidence x <> NaN) l ->
  ranked l -> ranked (insert_ranked c l).
Proof.
  unfold ranked. intros Hnan Hl. induction Hl as [|y l Hl IH Hy]; simpl.
  - repeat constructor.
  - inversion Hnan as [|? ? Hyn Hln]; subst.
    destruct (F.ltb (Citation.confidence c) (Citation.confidence y)) eqn:E.
    + constructor; [now apply IH|].
      rewrite insert_ranked_Permutation. constructor; [|exact Hy].
      now apply ltb_asym.
    + constructor; [now constructor|]. constructor; [exact E|].
      eapply Forall_impl; [exact Hy|]. simpl. intros z Hz.
      now apply (ltb_false_trans _ (Citation.confidence y)).
Qed.

Lemma sorted_by_confidence_ranked (l : list Citation.t) :
  Forall (λ x, Citation.confidence x <> NaN) l ->
  ranked (sorted_by_confidence l).
Proof.
  induction 1 as [|c l Hc Hl IH]; simpl; [constructor|].
  apply insert_ranked_ranked; [|exact IH].
  now rewrite sorted_by_confidence_Permutation.
Qed.

Lemma same_rank_not_below (a b v : pyfloat) :
  v <> NaN -> same_rank a v = true -> same_rank b v = true -> F.ltb a b = false.
Proof.
  unfold same_rank. intros Hv Ha Hb.
  apply andb_true_iff in Ha as [Ha1 Ha2]. apply andb_true_iff in Hb as [Hb1 Hb2].
  apply negb_true_iff in Ha1, Ha2, Hb1, Hb2.
  now apply (ltb_false_trans a v b).
Qed.

(** Inserting keeps the order among the citations of one rank *)
Lemma insert_ranked_stable (v : pyfloat) (c : Citation.t) (l : list Citation.t) :
  v <> NaN ->
  List.filter (λ x, same_rank (Citation.confidence x) v) (insert_ranked c l)
  = List.filter (λ x, same_rank (Citation.confidence x) v) (c :: l).
Proof.
  intros Hv. induction l as [|y l IH]; [reflexivity|]. simpl insert_ranked.
  destruct (F.ltb (Citation.confidence c) (Citation.confidence y)) eqn:E;
    [|reflexivity].
  simpl. simpl in IH. rewrite IH.
  destruct (same_rank (Citation.confidence c) v) eqn:Ec;
    destruct (same_rank (Citation.confidence y) v) eqn:Ey; try reflexivity.
  rewrite (same_rank_not_below _ _ v Hv Ec Ey) in E. discriminate.
Qed.

Lemma sorted_by_confidence_stable (v : pyfloat) (l : list Citation.t) :
  v <> NaN ->
  List.filter (λ x, same_rank (Citation.confidence x) v) (sorted_by_confidence l)
  = List.filter (λ x, same_rank (Citation.confidence x) v) l.
Proof.
  intros Hv. induction l as [|c l IH]; [reflexivity|]. simpl sorted_by_confidence.
  rewrite insert_ranked_stable by exact Hv. simpl. now rewrite IH.
Qed.

Lemma merge_confidence_not_nan (doc_results : option (list DocHit.t))
  (web_results : option (list WebHit.t)) :
  Forall (λ x, Citation.confidence x <> NaN) (merge doc_results web_results).
Proof.
  apply Forall_forall. intros c Hc. apply at_most_one_not_nan.
  rewrite merge_keeps_first_seen in Hc.
  eapply elem_of_sublist in Hc; [|apply keep_first_seen_sublist].
  unfold candidates in Hc. apply elem_of_app in Hc as [H|H];
    apply list_elem_of_fmap in H as (x & -> & _); apply min_one_at_most_one.
Qed.

End ranking_facts.

(** X11. The evidence of [fuse] is ranked by descending confidence: no
    citation has a confidence below that of a citation after it. *)
Theorem fuse_evidence_ranked
  (doc_results : option (list DocHit.t)) (web_results : option (list WebHit.t)) :
  ranked (FusionAgent.evidence (FusionAgent.fuse doc_results web_results)).
Proof.
  unfold FusionAgent.fuse. simpl.
  apply sorted_by_confidence_ranked, merge_confidence_not_nan.
Qed.

(** X12. The ranking is stable: the citations of one confidence stand in
    the evidence in the order the two loops kept them, document citations
    before web citations. *)
Theorem fuse_ranking_stable
  (doc_results : option (list DocHit.t)) (web_results : option (list WebHit.t))
  (v : pyfloat) :
  v <> NaN ->
  List.filter (λ c, same_rank (Citation.confidence c) v)
    (FusionAgent.evidence (FusionAgent.fuse doc_results web_results))
  = List.filter (λ c, same_rank (Citation.confidence c) v)
      (keep_first_seen (candidates doc_results web_results) ∅).
Proof.
  intros Hv. unfold FusionAgent.fuse. simpl.
  now rewrite sorted_by_confidence_stable, merge_keeps_first_seen.
Qed.

Lemma fuse_ranking_stable_witness :
  Fin 0.6%Q <> NaN /\
  List.filter (λ c, same_rank (Citation.confidence c) (Fin 0.6%Q))
    (FusionAgent.evidence
       (FusionAgent.fuse (Some [doc_hit "a" (Some (ScoreNum (Fin 0.5%Q)))])
          (Some [web_hit "b" (Some (Fin 0.6%Q))])))
  = List.filter (λ c, same_rank (Citation.confidence c) (Fin 0.6%Q))
      (keep_first_seen
         (candidates (Some [doc_hit "a" (Some (ScoreNum (Fin 0.5%Q)))])
            (Some [web_hit "b" (Some (Fin 0.6%Q))])) ∅).
Proof.
  assert (Fin 0.6%Q <> NaN) as Hv by discriminate.
  split; [exact Hv|].
  exact (fuse_ranking_stable
           (Some [doc_hit "a" (Some (ScoreNum (Fin 0.5%Q)))])
           (Some [web_hit "b" (Some (Fin 0.6%Q))]) (Fin 0.6%Q) Hv).
Defined.

(** ** fuse: how much evidence, and the shape of a claim *)

Section evidence_size_facts.

Import FusionAgent.

Lemma keep_first_seen_nonempty (c : Citation.t) (cs : list Citation.t) :
  keep_first_seen (c :: cs) ∅ <> [].
Proof. simpl. case_bool_decide as H; [set_solver|discriminate]. Qed.

Lemma NoDup_constant_length {A : Type} (a : A) (l : list A) :
  NoDup l -> (forall x, x ∈ l -> x = a) -> (length l <= 1)%nat.
Proof.
  intros Hnd Hall. destruct l as [|x [|y l]]; simpl; try lia.
  exfalso. apply NoDup_cons in Hnd as [Hx _]. apply Hx.
  rewrite (Hall x), (Hall y); [apply elem_of_cons; now left| |];
    apply elem_of_cons; [right; apply elem_of_cons|]; now left.
Qed.

Lemma prefix_full (n : nat) (s : string) :
  (String.length s <= n)%nat -> Py.prefix n s = s.
Proof.
  revert s. induction n as [|n IH]; intros [|c r] H; simpl in *;
    try reflexivity; try lia.
  unfold Py.prefix. fold Py.prefix. f_equal. apply IH. lia.
Qed.

Lemma plain_spaces_app (a b : string) :
  plain_spaces a -> plain_spaces b -> plain_spaces (a +:+ b).
Proof.
  induction a as [|x a IH]; [tauto|]. rewrite append_cons. simpl.
  intros [Hx Ha] Hb. split; [exact Hx|]. now apply IH.
Qed.

Lemma all_visible_plain_spaces (s : string) : all_visible s -> plain_spaces s.
Proof.
  induction s as [|c r IH]; simpl; [tauto|]. intros [Hc Hr].
  split; [congruence|now apply IH].
Qed.

Lemma join_plain_spaces (ws : list string) :
  Forall is_word ws -> plain_spaces (Py.join " " ws).
Proof.
  induction 1 as [|w ws [_ Hw] Hws IH]; [exact I|].
  destruct ws as [|w2 ws]; [now apply all_visible_plain_spaces|].
  change (Py.join " " (w :: w2 :: ws)) with (w +:+ " " +:+ Py.join " " (w2 :: ws)).
  apply plain_spaces_app; [now apply all_visible_plain_spaces|].
  split; [reflexivity|exact IH].
Qed.

Lemma prefix_plain_spaces (n : nat) (s : string) :
  plain_spaces s -> plain_spaces (Py.prefix n s).
Proof.
  revert s. induction n as [|n IH]; intros [|c r]; try (intros; exact I).
  intros [Hc Hr]. unfold Py.prefix. fold Py.prefix. split; [exact Hc|now apply IH].
Qed.

Lemma prefix_no_leading_space (n : nat) (s : string) :
  no_leading_space s -> no_leading_space (Py.prefix n s).
Proof. destruct n, s; simpl; tauto. Qed.

Lemma join_no_leading_space (ws : list string) :
  Forall is_word ws -> no_leading_space (Py.join " " ws).
Proof.
  destruct 1 as [|w ws Hw Hws]; [exact I|].
  apply is_word_starts_visible in Hw.
  pose proof (join_starts_visible " " w ws Hw) as H.
  destruct (Py.join " " (w :: ws)); [exact I|exact H].
Qed.

(** The normalization splits the text into words and joins them *)
Lemma normalize_snippet_words (text : string) :
  _normalize_snippet text = Py.prefix 500 (Py.join " " (Py.split text)).
Proof. unfold _normalize_snippet. now rewrite split_strip. Qed.

Lemma summary_prompt_nonempty (citations : list Citation.t) :
  _build_summary_prompt citations <> "".
Proof.
  unfold _build_summary_prompt.
  match goal with |- Py.join ?sep ([?h] ++ ?r) <> _ =>
    change (Py.join sep ([h] ++ r)) with (Py.join sep (h :: r));
    destruct r as [|x r'] eqn:E
  end.
  - now destruct (summary_line <$> Py.enumerate 1 (take 10 citations)).
  - match goal with |- Py.join ?sep (?h :: x :: r') <> _ =>
      change (Py.join sep (h :: x :: r')) with (h +:+ sep +:+ Py.join sep (x :: r'))
    end.
    apply append_nonempty_l. discriminate.
Qed.

End evidence_size_facts.

(** X13. [fuse] returns no evidence exactly when it is given no hit (absent
    or empty lists); otherwise it returns at least one citation and never
    more citations than hits. *)
Theorem fuse_evidence_size
  (doc_results : option (list DocHit.t)) (web_results : option (list WebHit.t)) :
  let ev := FusionAgent.evidence (FusionAgent.fuse doc_results web_results) in
  (ev = [] <-> default [] doc_results = [] /\ default [] web_results = []) /\
  (length ev <= length (default [] doc_results)
               + length (default [] web_results))%nat.
Proof.
  intros ev.
  pose proof (evidence_Permutation doc_results web_results) as Hperm.
  fold ev in Hperm. split.
  - split.
    + intros Hev. rewrite Hev in Hperm.
      apply Permutation_nil in Hperm. unfold candidates in Hperm.
      destruct (default [] doc_results) as [|d ds]; simpl in Hperm.
      * destruct (default [] web_results) as [|w ws]; [now split|].
        simpl in Hperm. now apply keep_first_seen_nonempty in Hperm.
      * now apply keep_first_seen_nonempty in Hperm.
    + intros [Hd Hw]. apply Permutation_nil. symmetry. rewrite Hperm.
      unfold candidates. now rewrite Hd, Hw.
  - rewrite Hperm.
    pose proof (sublist_length _ _
      (keep_first_seen_sublist (candidates doc_results web_results) ∅)) as H.
    unfold candidates in H at 2. rewrite length_app, !length_fmap in H. exact H.
Qed.

(** No two citations of the evidence share a dedup key *)
Lemma evidence_keys_NoDup (doc_results : option (list DocHit.t))
  (web_results : option (list WebHit.t)) :
  NoDup (citation_key <$>
           FusionAgent.evidence (FusionAgent.fuse doc_results web_results)).
Proof.
  rewrite (evidence_Permutation doc_results web_results).
  apply keep_first_seen_NoDup.
Qed.

(** Among items with distinct keys at most one carries a given key *)
Lemma NoDup_key_filter_length {A : Type} (f : A -> string) (k : string)
  (l : list A) :
  NoDup (f <$> l) -> (length (filter (λ x, f x = k) l) <= 1)%nat.
Proof.
  intros Hnd. rewrite <- (length_fmap f).
  apply (NoDup_constant_length k).
  - eapply sublist_NoDup; [exact Hnd|apply fmap_sublist, sublist_filter].
  - intros x (c & -> & Hc)%list_elem_of_fmap.
    now apply list_elem_of_filter in Hc as [Hc _].
Qed.

(** X14. A web hit whose [snippet] key holds the empty string, as every
    hit of the DuckDuckGo fallback of the web agent does, gets the empty
    claim and the empty dedup key, whatever its title. For any document
    hits and any web hits, of all the hits with the empty key [fuse] keeps
    at most one citation: two evidence entries with the empty key are the
    same entry; exactly one is kept as soon as one web hit has an empty
    snippet; and it is a document citation when some document hit has the
    empty key too, so that then every web hit with an empty snippet is
    dropped. *)
Theorem fuse_collapses_empty_snippets
  (doc_results : option (list DocHit.t)) (web_results : option (list WebHit.t)) :
  let ev := FusionAgent.evidence (FusionAgent.fuse doc_results web_results) in
  (forall w, WebHit.snippet w = Some "" ->
     Citation.claim (FusionAgent.web_citation w) = "" /\
     citation_key (FusionAgent.web_citation w) = "") /\
  (length (filter (λ c, citation_key c = "") ev) <= 1)%nat /\
  (forall (i j : nat) c1 c2,
     ev !! i = Some c1 -> ev !! j = Some c2 ->
     citation_key c1 = "" -> citation_key c2 = "" -> i = j) /\
  ((exists w, w ∈ default [] web_results /\ WebHit.snippet w = Some "") ->
   length (filter (λ c, citation_key c = "") ev) = 1%nat) /\
  ((exists d, d ∈ default [] doc_results /\
              citation_key (FusionAgent.doc_citation d) = "") ->
   forall c, c ∈ ev -> citation_key c = "" ->
             Citation.source_type c = "document").
Proof.
  intros ev.
  pose proof (evidence_keys_NoDup doc_results web_results) as Hnd. fold ev in Hnd.
  pose proof (evidence_Permutation doc_results web_results) as Hperm.
  fold ev in Hperm.
  assert (forall w, WebHit.snippet w = Some "" ->
            Citation.claim (FusionAgent.web_citation w) = "" /\
            citation_key (FusionAgent.web_citation w) = "") as Hkey.
  { intros w Hw.
    unfold citation_key, FusionAgent.web_citation, FusionAgent.web_text. simpl.
    rewrite Hw. split; reflexivity. }
  pose proof (NoDup_key_filter_length citation_key "" ev Hnd) as Hle.
  split; [exact Hkey|]. split; [exact Hle|]. split; [|split].
  - intros i j c1 c2 Hi Hj H1 H2.
    apply (NoDup_lookup (citation_key <$> ev) i j ""); [exact Hnd| |].
    + now rewrite list_lookup_fmap, Hi, <- H1.
    + now rewrite list_lookup_fmap, Hj, <- H2.
  - intros (w & Hin & Hw).
    assert (FusionAgent.web_citation w ∈ candidates doc_results web_results)
      as Hc.
    { unfold candidates. apply elem_of_app. right.
      now apply list_elem_of_fmap_2. }
    destruct (keep_first_seen_covers _ ∅ _ Hc) as [H|H]; [set_solver|].
    apply list_elem_of_fmap in H as (c & Hk & Hc').
    rewrite <- Hperm in Hc'.
    assert (c ∈ filter (λ c, citation_key c = "") ev) as Hf.
    { apply list_elem_of_filter. split; [|exact Hc'].
      rewrite <- Hk. now apply Hkey. }
    destruct (filter (λ c, citation_key c = "") ev) as [|x [|y r]];
      [now apply not_elem_of_nil in Hf|reflexivity|simpl in Hle; lia].
  - intros (d & Hin & Hd) c Hc Hk.
    rewrite Hperm in Hc. unfold candidates in Hc.
    rewrite keep_first_seen_app in Hc. apply elem_of_app in Hc as [Hc|Hc].
    + eapply elem_of_sublist in Hc; [|apply keep_first_seen_sublist].
      now apply list_elem_of_fmap in Hc as (d' & -> & _).
    + apply keep_first_seen_fresh in Hc. exfalso. apply Hc.
      apply elem_of_union. left. apply elem_of_list_to_set.
      rewrite Hk, <- Hd. apply list_elem_of_fmap_2, list_elem_of_fmap_2, Hin.
Qed.

Lemma fuse_collapses_empty_snippets_witness :
  length
    (filter (λ c, citation_key c = "")
       (FusionAgent.evidence
          (FusionAgent.fuse
             (Some [doc_hit "A document text" None])
             (Some [WebHit.mk (Some "First page") (Some "https://a.example")
                      (Some "") (Some (Fin 0.5%Q));
                    WebHit.mk (Some "Other page") (Some "https://c.example")
                      (Some "a real snippet") (Some (Fin 0.5%Q));
                    WebHit.mk (Some "Second page") (Some "https://b.example")
                      (Some "") (Some (Fin 0.5%Q))]))))
  = 1%nat.
Proof.
  apply (proj1 (proj2 (proj2 (proj2
    (fuse_collapses_empty_snippets
       (Some [doc_hit "A document text" None])
       (Some [WebHit.mk (Some "First page") (Some "https://a.example")
                (Some "") (Some (Fin 0.5%Q));
              WebHit.mk (Some "Other page") (Some "https://c.example")
                (Some "a real snippet") (Some (Fin 0.5%Q));
              WebHit.mk (Some "Second page") (Some "https://b.example")
                (Some "") (Some (Fin 0.5%Q))])))))).
  exists (WebHit.mk (Some "First page") (Some "https://a.example")
            (Some "") (Some (Fin 0.5%Q))).
  split; [|reflexivity]. apply elem_of_cons. now left.
Defined.

(** X15. A normalized snippet is a single line of words: at most 500
    characters, no whitespace at its start, and no whitespace character
    but the plain space; it is the capped space-join of the words of the
    text. *)
Theorem normalize_snippet_shape (text : string) :
  let s := FusionAgent._normalize_snippet text in
  s = Py.prefix 500 (Py.join " " (Py.split text)) /\
  (String.length s <= 500)%nat /\
  no_leading_space s /\
  plain_spaces s.
Proof.
  intros s. unfold s. rewrite normalize_snippet_words.
  split; [reflexivity|]. split; [apply prefix_length|]. split.
  - apply prefix_no_leading_space, join_no_leading_space, split_words.
  - apply prefix_plain_spaces, join_plain_spaces, split_words.
Qed.

(** X16. Normalizing is idempotent on every text whose joined words fit
    into the 500-character cap. *)
Theorem normalize_snippet_idempotent (text : string) :
  (String.length (Py.join " " (Py.split text)) <= 500)%nat ->
  FusionAgent._normalize_snippet (FusionAgent._normalize_snippet text)
  = FusionAgent._normalize_snippet text.
Proof.
  intros Hlen. rewrite !normalize_snippet_words.
  rewrite (prefix_full 500 (Py.join " " (Py.split text))) by exact Hlen.
  rewrite split_join_words by apply split_words.
  now apply prefix_full.
Qed.

Lemma normalize_snippet_idempotent_witness :
  FusionAgent._normalize_snippet
    (FusionAgent._normalize_snippet "  Alpha   beta  ")
  = FusionAgent._normalize_snippet "  Alpha   beta  ".
Proof.
  apply (normalize_snippet_idempotent "  Alpha   beta  ").
  vm_compute. lia.
Defined.

(** ** synthesize_answer and generate_answer *)

(** X17. On the output of [fuse] the summary prompt is never empty, so
    [synthesize_answer] always consults the LLM: its answer is the reply
    when the chat call returns and the space-joined first three claims when
    it raises, with the evidence as citations either way. When [get_llm()]
    itself raises, the method raises. *)
Theorem synthesize_answer_on_fused
  (chat : AnswerAgent.llm)
  (doc_results : option (list DocHit.t)) (web_results : option (list WebHit.t)) :
  let fused := FusionAgent.fuse doc_results web_results in
  let messages :=
    [ AnswerAgent.mkMessage "system"
        "You are an expert assistant that must not hallucinate. Use only the provided evidence.";
      AnswerAgent.mkMessage "user" (FusionAgent.summary_prompt fused) ] in
  FusionAgent.summary_prompt fused <> "" /\
  (forall resp, chat messages = Return resp ->
     synthesize_answer (Return chat) fused
     = Return (Synthesis.mk resp (FusionAgent.evidence fused))) /\
  (forall e, chat messages = Raise e ->
     synthesize_answer (Return chat) fused
     = Return (Synthesis.mk
                 (Py.join " " (Citation.claim <$> take 3 (FusionAgent.evidence fused)))
                 (FusionAgent.evidence fused))) /\
  (forall e, synthesize_answer (Raise e) fused = Raise e).
Proof.
  intros fused messages.
  assert (FusionAgent.summary_prompt fused <> "") as Hne
    by apply summary_prompt_nonempty.
  split; [exact Hne|].
  unfold synthesize_answer. fold messages.
  apply nonempty_true in Hne. rewrite Hne. simpl negb. cbv iota.
  split; [|split].
  - intros resp Hr. now rewrite Hr.
  - intros e Hr. now rewrite Hr.
  - reflexivity.
Qed.

(** X18. [generate_answer] raises nothing: whenever the chat call comes
    back, by returning or by raising, a result is returned; its citations
    and its sources text are the same in both cases, and the answer is the
    reply when there is one. *)
Theorem generate_answer_always_returns
  (chat : AnswerAgent.llm) (fused : FusionAgent.fused) (user_query : string) :
  chat (AnswerAgent.build_messages (FusionAgent.evidence fused) user_query)
  <> OutOfFuel ->
  exists r,
    AnswerAgent.generate_answer chat fused user_query = Return r /\
    AnswerAgent.citations r = FusionAgent.evidence fused /\
    AnswerAgent.sources_text r
    = AnswerAgent._format_citations (FusionAgent.evidence fused) /\
    (forall resp,
       chat (AnswerAgent.build_messages (FusionAgent.evidence fused) user_query)
       = Return resp ->
       AnswerAgent.answer r = resp).
Proof.
  intros Hback. unfold AnswerAgent.generate_answer.
  destruct (chat _) as [resp|e|] eqn:E; [| |congruence];
    eexists; (split; [reflexivity|]); simpl; repeat split.
  - now intros ? [= <-].
  - discriminate.
Qed.

Lemma generate_answer_always_returns_witness :
  exists r,
    AnswerAgent.generate_answer MockLLM.llm
      (FusionAgent.fuse (Some [doc_hit "Alpha beta" None]) None) "q?" = Return r /\
    AnswerAgent.citations r
    = FusionAgent.evidence (FusionAgent.fuse (Some [doc_hit "Alpha beta" None]) None).
Proof.
  assert (MockLLM.llm
            (AnswerAgent.build_messages
               (FusionAgent.evidence
                  (FusionAgent.fuse (Some [doc_hit "Alpha beta" None]) None)) "q?")
          <> OutOfFuel) as H by discriminate.
  destruct (generate_answer_always_returns MockLLM.llm
              (FusionAgent.fuse (Some [doc_hit "Alpha beta" None]) None) "q?" H)
    as (r & Hr & Hc & _).
  exists r. now split.
Defined.

(** ** The mock LLM *)

Section mock_facts.

Lemma chat_loop_prefix (reversed : list AnswerAgent.message) :
  exists body, MockLLM.chat_loop reversed = "MOCK_CHAT_REPLY: " +:+ body.
Proof.
  induction reversed as [|m rest IH]; simpl.
  - now exists "(no user message)".
  - destruct (String.eqb _ _); [eauto|exact IH].
Qed.

Lemma embed_char_tenth (c : ascii) :
  exists k : Z, 0 <= k < 10 /\ MockLLM.embed_char c = Fin (k # 10).
Proof.
  exists (Z.of_N (N_of_ascii c) mod 10). split; [|reflexivity].
  apply Z.mod_pos_bound. lia.
Qed.

Lemma prompt_loop_lines (items : list (nat * Citation.t)) (lines : list string) :
  AnswerAgent.prompt_loop items lines = lines ++ (AnswerAgent.prompt_line <$> items).
Proof.
  revert lines. induction items as [|item rest IH]; intros lines; simpl.
  - now rewrite app_nil_r.
  - rewrite IH, <- app_assoc. reflexivity.
Qed.

Lemma prefix_app_ge (n : nat) (a b : string) :
  (String.length a <= n)%nat ->
  Py.prefix n (a +:+ b) = a +:+ Py.prefix (n - String.length a) b.
Proof.
  revert n. induction a as [|x a IH]; intros n Hn.
  - simpl. now rewrite Nat.sub_0_r.
  - destruct n as [|n]; [simpl in Hn; lia|].
    rewrite !append_cons. simpl String.length. simpl Nat.sub.
    unfold Py.prefix at 1. fold Py.prefix. f_equal. apply IH. simpl in Hn. lia.
Qed.

End mock_facts.

(** X19. The reply of [MockLLM.chat] always starts with
    ["MOCK_CHAT_REPLY: "]. It echoes the first 400 characters of the last
    message whose role is ['user'], whatever follows it with another role,
    and is a fixed text when no message has that role. *)
Theorem mock_chat_echoes_last_user_message
  (before after : list AnswerAgent.message) (m : AnswerAgent.message) :
  (forall messages, exists body,
     MockLLM.chat messages = "MOCK_CHAT_REPLY: " +:+ body) /\
  (AnswerAgent.role m = "user" ->
   Forall (λ x, AnswerAgent.role x <> "user") after ->
   MockLLM.chat (before ++ m :: after)
   = "MOCK_CHAT_REPLY: " +:+ Py.prefix 400 (AnswerAgent.content m)) /\
  (Forall (λ x, AnswerAgent.role x <> "user") after ->
   MockLLM.chat after = "MOCK_CHAT_REPLY: (no user message)").
Proof.
  assert (forall (l rest : list AnswerAgent.message),
            Forall (λ x, AnswerAgent.role x <> "user") l ->
            MockLLM.chat_loop (rev l ++ rest) = MockLLM.chat_loop rest) as Hskip.
  { intros l rest Hl. revert rest.
    induction Hl as [|x l Hx Hl IH]; intros rest; [reflexivity|].
    simpl. rewrite <- app_assoc, IH. simpl.
    apply String.eqb_neq in Hx. now rewrite Hx. }
  split; [intros messages; apply chat_loop_prefix|]. split.
  - intros Hm Hafter. unfold MockLLM.chat.
    rewrite rev_app_distr. simpl. rewrite <- !app_assoc, Hskip by exact Hafter.
    simpl. apply String.eqb_eq in Hm. now rewrite Hm.
  - intros Hafter. unfold MockLLM.chat.
    rewrite <- (app_nil_r (rev after)). now rewrite Hskip.
Qed.

Lemma mock_chat_echoes_last_user_message_witness :
  MockLLM.chat
    [AnswerAgent.mkMessage "user" "first"; AnswerAgent.mkMessage "user" "hello mock";
     AnswerAgent.mkMessage "assistant" "noted"]
  = "MOCK_CHAT_REPLY: hello mock".
Proof.
  destruct (mock_chat_echoes_last_user_message
              [AnswerAgent.mkMessage "user" "first"]
              [AnswerAgent.mkMessage "assistant" "noted"]
              (AnswerAgent.mkMessage "user" "hello mock")) as (_ & H & _).
  apply H; [reflexivity|]. constructor; [discriminate|constructor].
Defined.

(** X20. With the mock LLM, [generate_answer] never falls back. The
    messages it sends are the system message and one user message whose
    content is the prompt: the instruction line, the question, the
    evidence lines of the first 15 citations and the closing request,
    joined by newlines. The answer is ["MOCK_CHAT_REPLY: "] followed by the
    first 400 characters of that prompt; the citations are the evidence
    and the sources text is their formatted list. So the answer always
    opens with the prompt's fixed instruction line and has at most 417
    characters. *)
Theorem generate_answer_with_mock_llm
  (fused : FusionAgent.fused) (user_query : string) :
  exists r system_message prompt rest,
    AnswerAgent.build_messages (FusionAgent.evidence fused) user_query
    = [system_message; AnswerAgent.mkMessage "user" prompt] /\
    AnswerAgent.role system_message = "system" /\
    prompt
    = Py.join (String Py.newline "")
        (["You are an assistant that must not hallucinate. Answer concisely using only the provided evidence.";
          "User question: " +:+ user_query;
          "Evidence:"]
         ++ (AnswerAgent.prompt_line
               <$> Py.enumerate 1 (take 15 (FusionAgent.evidence fused)))
         ++ [String Py.newline
               "Produce a short answer (3-6 sentences) and attach inline numeric citations like [1], [2]. Then list the referenced sources and their metadata."]) /\
    AnswerAgent.generate_answer MockLLM.llm fused user_query = Return r /\
    AnswerAgent.answer r = "MOCK_CHAT_REPLY: " +:+ Py.prefix 400 prompt /\
    AnswerAgent.citations r = FusionAgent.evidence fused /\
    AnswerAgent.sources_text r
    = AnswerAgent._format_citations (FusionAgent.evidence fused) /\
    AnswerAgent.answer r
    = "MOCK_CHAT_REPLY: "
      +:+ "You are an assistant that must not hallucinate. Answer concisely using only the provided evidence."
      +:+ rest /\
    (String.length (AnswerAgent.answer r) <= 417)%nat.
Proof.
  unfold AnswerAgent.generate_answer, MockLLM.llm, AnswerAgent.build_messages.
  rewrite prompt_loop_lines, <- app_assoc.
  match goal with |- context [MockLLM.chat [?m1; AnswerAgent.mkMessage "user" ?P]] =>
    change (MockLLM.chat [m1; AnswerAgent.mkMessage "user" P])
      with ("MOCK_CHAT_REPLY: " +:+ Py.prefix 400 P);
    set (prompt := P)
  end.
  assert (exists rest,
            Py.prefix 400 prompt
            = "You are an assistant that must not hallucinate. Answer concisely using only the provided evidence."
              +:+ rest) as [rest Hrest].
  { unfold prompt.
    match goal with |- context [Py.join ?sep ([?h1; ?h2; ?h3] ++ ?m)] =>
      change (Py.join sep ([h1; h2; h3] ++ m))
        with (h1 +:+ sep +:+ Py.join sep (h2 :: h3 :: m))
    end.
    match goal with |- context [Py.prefix 400 (?h +:+ ?b)] =>
      rewrite (prefix_app_ge 400 h b) by (apply Nat.leb_le; reflexivity)
    end.
    eauto. }
  eexists _, _, prompt, rest.
  split; [reflexivity|]. split; [reflexivity|]. split; [reflexivity|].
  split; [reflexivity|]. simpl AnswerAgent.answer.
  split; [reflexivity|]. split; [reflexivity|]. split; [reflexivity|].
  split; [now rewrite Hrest|].
  rewrite length_append. pose proof (prefix_length 400 prompt) as Hcap.
  change (String.length "MOCK_CHAT_REPLY: ") with 17%nat. lia.
Qed.

(** X21. [MockLLM.embed] returns exactly 32 numbers for every text, each
    one of 0.0, 0.1, ..., 0.9. *)
Theorem mock_embed_has_32_dimensions (text : string) :
  length (MockLLM.embed text) = 32%nat /\
  Forall (λ x, exists k : Z, 0 <= k < 10 /\ x = Fin (k # 10)) (MockLLM.embed text).
Proof.
  unfold MockLLM.embed.
  set (vec := MockLLM.embed_char <$> list_ascii_of_string (Py.prefix 128 text)).
  assert (Forall (λ x, exists k : Z, 0 <= k < 10 /\ x = Fin (k # 10)) vec) as Hvec.
  { unfold vec. apply Forall_fmap, Forall_forall. intros c _.
    apply embed_char_tenth. }
  destruct (length vec <? 32)%nat eqn:E.
  - apply Nat.ltb_lt in E. split.
    + rewrite length_take, length_app, length_replicate. lia.
    + apply Forall_take, Forall_app. split; [exact Hvec|].
      apply Forall_replicate. exists 0. split; [lia|reflexivity].
  - apply Nat.ltb_ge in E. split.
    + rewrite length_take. lia.
    + now apply Forall_take.
Qed.

(** ** IndexBuilder: from chunks to nodes, and add_document *)

Section index_builder_facts.

Import IndexBuilder.

Lemma nodes_loop_map (chunks : list TextChunk) (base : gmap string pyval)
  (nodes : list TextNode) :
  nodes_loop chunks base nodes
  = nodes ++ ((λ chunk, mkNode (content chunk) (chunk_metadata chunk ∪ base)
                          (chunk_id chunk)) <$> chunks).
Proof.
  revert nodes. induction chunks as [|c rest IH]; intros nodes; simpl.
  - now rewrite app_nil_r.
  - rewrite IH, <- app_assoc. reflexivity.
Qed.

Lemma merged_metadata_lookup (chunk : TextChunk) (base : gmap string pyval)
  (k : string) :
  (chunk_metadata chunk ∪ base) !! k
  = match chunk_metadata chunk !! k with
    | Some v => Some v
    | None => base !! k
    end.
Proof.
  rewrite lookup_union.
  destruct (chunk_metadata chunk !! k), (base !! k); reflexivity.
Qed.

Lemma add_document_out_of_fuel
  (CHUNK_SIZE CHUNK_OVERLAP : Z) (Index : Type)
  (new_index : list TextNode -> outcome Index)
  (insert_nodes : Index -> list TextNode -> outcome Index)
  (fuel : nat) (index : option Index)
  (document_content document_id src : string)
  (metadata : option (gmap string pyval)) :
  0 < CHUNK_OVERLAP < CHUNK_SIZE -> document_content <> "" ->
  add_document CHUNK_SIZE CHUNK_OVERLAP Index new_index insert_nodes
    fuel index document_content document_id src metadata
  = OutOfFuel.
Proof.
  intros Hcfg Hne. unfold add_document.
  rewrite chunk_text_out_of_fuel; [reflexivity|now apply len_positive|exact Hcfg].
Qed.

End index_builder_facts.

(** X22. [_chunks_to_nodes] builds one node per chunk, in order, with the
    chunk's content as text and the chunk's id as node id; in the node's
    metadata every entry of the chunk wins over the base metadata, and a
    base entry survives under every key the chunk does not set. For the
    chunks of [chunk_text] this keeps the chunk's [source] and
    [chunk_index] and passes a base [original_path] through. *)
Theorem chunks_to_nodes_preserves_chunks
  (chunks : list TextChunk) (base : gmap string pyval) :
  let nodes := IndexBuilder._chunks_to_nodes chunks base in
  IndexBuilder.text <$> nodes = content <$> chunks /\
  IndexBuilder.id_ <$> nodes = chunk_id <$> chunks /\
  Forall2
    (λ node chunk,
       forall k,
         IndexBuilder.metadata node !! k
         = match chunk_metadata chunk !! k with
           | Some v => Some v
           | None => base !! k
           end)
    nodes chunks /\
  (forall text chunk_size chunk_overlap document_id src fuel,
     DocumentChunker.chunk_text text chunk_size chunk_overlap document_id src fuel
     = Return chunks ->
     Forall2
       (λ node chunk,
          IndexBuilder.metadata node !! "source" = Some (VStr src) /\
          IndexBuilder.metadata node !! "chunk_index" = chunk_index chunk /\
          IndexBuilder.metadata node !! "original_path" = base !! "original_path")
       nodes chunks).
Proof.
  intros nodes. unfold nodes, IndexBuilder._chunks_to_nodes.
  rewrite nodes_loop_map. simpl.
  split; [|split; [|split]].
  - induction chunks as [|c rest IH]; simpl; [reflexivity|]. now f_equal.
  - induction chunks as [|c rest IH]; simpl; [reflexivity|]. now f_equal.
  - induction chunks as [|c rest IH]; simpl; constructor; [|exact IH].
    intros k. apply merged_metadata_lookup.
  - intros text chunk_size chunk_overlap document_id src fuel Hl.
    assert (Forall (λ c, chunk_metadata c !! "source" = Some (VStr src) /\
                         (exists v, chunk_index c = Some v) /\
                         chunk_metadata c !! "original_path" = None) chunks)
      as Hall.
    { unfold DocumentChunker.chunk_text in Hl.
      destruct (chunk_overlap >=? chunk_size); [discriminate|].
      eapply chunk_loop_Forall; [| |exact Hl]; [|constructor].
      intros x n s e. split; [reflexivity|]. split; [|reflexivity].
      eexists. reflexivity. }
    clear Hl. induction Hall as [|c rest (Hs & (v & Hv) & Hp) _ IH]; simpl;
      constructor; [|exact IH].
    simpl. rewrite !merged_metadata_lookup, Hs, Hp.
    unfold chunk_index in *. unfold chunk_metadata. now rewrite Hv.
Qed.

(** X23. With a positive chunk overlap below the chunk size, as in the
    default configuration (1024, 200), [add_document] does not return for
    any non-empty document content, whatever the index does: the chunking
    that opens the method never ends, and no node is built. *)
Theorem add_document_never_returns
  (CHUNK_SIZE CHUNK_OVERLAP : Z) (Index : Type)
  (new_index : list IndexBuilder.TextNode -> outcome Index)
  (insert_nodes : Index -> list IndexBuilder.TextNode -> outcome Index)
  (fuel : nat) (index : option Index)
  (document_content document_id src : string)
  (metadata : option (gmap string pyval)) :
  0 < CHUNK_OVERLAP < CHUNK_SIZE -> document_content <> "" ->
  IndexBuilder.add_document CHUNK_SIZE CHUNK_OVERLAP Index new_index insert_nodes
    fuel index document_content document_id src metadata
  = OutOfFuel.
Proof.
  apply add_document_out_of_fuel.
Qed.

Lemma add_document_never_returns_witness :
  IndexBuilder.add_document 1024 200 (list IndexBuilder.TextNode)
    (λ nodes, Return nodes) (λ index nodes, Return (index ++ nodes))
    1000 None "A short document." "doc1" "doc1.txt" None
  = OutOfFuel.
Proof.
  apply add_document_never_returns; [lia|discriminate].
Defined.

(** ** Orchestrator.run_query *)

Section orchestrator_facts.

Import Orchestrator.

Lemma or_empty_returns {A B : Type} (call : outcome (list A))
  (k : list A -> outcome B) :
  call <> OutOfFuel -> exists results, or_empty call k = k results.
Proof. destruct call as [r|e|]; simpl; [eauto|eauto|congruence]. Qed.

End orchestrator_facts.

(** X25. [run_query] raises nothing: when every collaborator call comes
    back, by returning or by raising, a response is returned. Its decision
    is the router's, its citations are its evidence, and the evidence holds
    no more citations than the two retrievals returned hits. *)
Theorem run_query_always_returns
  (env : Orchestrator.collaborators) (query : string)
  (metadata : option (gmap string pyobj)) :
  (forall q k, Orchestrator.retrieve env q k <> OutOfFuel) ->
  (forall q k, Orchestrator.search env q k <> OutOfFuel) ->
  (forall messages, Orchestrator.chat env messages <> OutOfFuel) ->
  exists r,
    Orchestrator.run_query env query metadata = Return r /\
    Orchestrator.decision r = RouterAgent.decide query (default ∅ metadata) /\
    Orchestrator.citations r = Orchestrator.evidence r /\
    (length (Orchestrator.evidence r)
     <= Orchestrator.doc_count r + Orchestrator.web_count r)%nat.
Proof.
  intros Hretrieve Hsearch Hchat. unfold Orchestrator.run_query.
  set (md := default ∅ metadata). set (d := RouterAgent.decide query md).
  match goal with |- context [Orchestrator.or_empty ?c ?k] =>
    destruct (or_empty_returns c k) as [docs ->]
  end.
  { destruct (RouterAgent.use_documents d); [apply Hretrieve|discriminate]. }
  match goal with |- context [Orchestrator.or_empty ?c ?k] =>
    destruct (or_empty_returns c k) as [webs ->]
  end.
  { destruct (RouterAgent.use_web d); [apply Hsearch|discriminate]. }
  unfold AnswerAgent.generate_answer.
  pose proof (Hchat (AnswerAgent.build_messages
    (FusionAgent.evidence (FusionAgent.fuse (Some docs) (Some webs))) query)) as Hc.
  assert (length (FusionAgent.evidence (FusionAgent.fuse (Some docs) (Some webs)))
          <= length docs + length webs)%nat as Hlen.
  { rewrite (evidence_Permutation (Some docs) (Some webs)).
    pose proof (sublist_length _ _
      (keep_first_seen_sublist (candidates (Some docs) (Some webs)) ∅)) as H.
    unfold candidates in H at 2. rewrite length_app, !length_fmap in H. exact H. }
  destruct (Orchestrator.chat env _) as [resp|e|]; [| |congruence];
    eexists; (split; [reflexivity|]); simpl; repeat split; exact Hlen.
Qed.

Lemma run_query_always_returns_witness :
  exists r,
    Orchestrator.run_query
      (Orchestrator.mkCollaborators
         (λ _ _, Raise (RuntimeError "index unavailable"))
         (λ _ _, Return [web_hit "Alpha beta" None])
         failing_llm)
      "latest news" None = Return r /\
    Orchestrator.citations r = Orchestrator.evidence r.
Proof.
  destruct (run_query_always_returns
              (Orchestrator.mkCollaborators
                 (λ _ _, Raise (RuntimeError "index unavailable"))
                 (λ _ _, Return [web_hit "Alpha beta" None])
                 failing_llm)
              "latest news" None) as (r & Hr & _ & Hc & _);
    try (intros; discriminate).
  exists r. now split.
Defined.

(** X26. [run_query] consults a retrieval collaborator only when the
    router asks for it. Without uploaded documents the document retriever
    has no influence on the response; with documents and an
    internal-sounding query the web search has none. *)
Theorem run_query_skips_unused_sources
  (env env' : Orchestrator.collaborators) (query : string)
  (metadata : option (gmap string pyobj)) :
  Orchestrator.chat env = Orchestrator.chat env' ->
  (has_uploaded_docs (default ∅ metadata) = false ->
   Orchestrator.search env = Orchestrator.search env' ->
   Orchestrator.run_query env query metadata
   = Orchestrator.run_query env' query metadata) /\
  (has_uploaded_docs (default ∅ metadata) = true ->
   RouterAgent._looks_like_internal_only query = true ->
   Orchestrator.retrieve env = Orchestrator.retrieve env' ->
   Orchestrator.run_query env query metadata
   = Orchestrator.run_query env' query metadata).
Proof.
  intros Hchat. unfold Orchestrator.run_query.
  destruct (decide_table query (default ∅ metadata)) as [Hd Hw].
  split.
  - intros Hdocs Hsearch. rewrite Hd, Hdocs, Hsearch, Hchat. reflexivity.
  - intros Hdocs Hint Hretrieve.
    rewrite Hw, Hdocs, Hint, andb_false_r. simpl.
    rewrite Hretrieve, Hchat. reflexivity.
Qed.

Lemma run_query_skips_unused_sources_witness :
  Orchestrator.run_query
    (Orchestrator.mkCollaborators
       (λ _ _, Return [doc_hit "Alpha" None]) (λ _ _, Return []) failing_llm)
    "latest news" None
  = Orchestrator.run_query
      (Orchestrator.mkCollaborators
         (λ _ _, OutOfFuel) (λ _ _, Return []) failing_llm)
      "latest news" None.
Proof.
  apply (proj1 (run_query_skips_unused_sources
           (Orchestrator.mkCollaborators
              (λ _ _, Return [doc_hit "Alpha" None]) (λ _ _, Return []) failing_llm)
           (Orchestrator.mkCollaborators
              (λ _ _, OutOfFuel) (λ _ _, Return []) failing_llm)
           "latest news" None eq_refl)); reflexivity.
Defined.

(** X27. When both retrievals and the chat call raise, [run_query] still
    returns: a response with the router's decision, no hits, no evidence,
    and the empty string as answer and as sources text. *)
Theorem run_query_when_everything_fails
  (env : Orchestrator.collaborators) (query : string)
  (metadata : option (gmap string pyobj)) :
  (forall q k, exists e, Orchestrator.retrieve env q k = Raise e) ->
  (forall q k, exists e, Orchestrator.search env q k = Raise e) ->
  (forall messages, exists e, Orchestrator.chat env messages = Raise e) ->
  Orchestrator.run_query env query metadata
  = Return
      (Orchestrator.mkResponse
         (RouterAgent.decide query (default ∅ metadata)) 0 0 [] "" "" []).
Proof.
  intros Hretrieve Hsearch Hchat. unfold Orchestrator.run_query.
  set (md := default ∅ metadata). set (d := RouterAgent.decide query md).
  assert (forall B (k : list DocHit.t -> outcome B),
            Orchestrator.or_empty
              (if RouterAgent.use_documents d
               then Orchestrator.retrieve env query (default ONone (md !! "top_k"))
               else Return []) k = k []) as Hdocs.
  { intros B k. destruct (RouterAgent.use_documents d); [|reflexivity].
    destruct (Hretrieve query (default ONone (md !! "top_k"))) as [e ->].
    reflexivity. }
  assert (forall B (k : list WebHit.t -> outcome B),
            Orchestrator.or_empty
              (if RouterAgent.use_web d
               then Orchestrator.search env query (default (OInt 5) (md !! "top_k"))
               else Return []) k = k []) as Hwebs.
  { intros B k. destruct (RouterAgent.use_web d); [|reflexivity].
    destruct (Hsearch query (default (OInt 5) (md !! "top_k"))) as [e ->].
    reflexivity. }
  rewrite Hdocs, Hwebs. unfold AnswerAgent.generate_answer.
  match goal with |- context [Orchestrator.chat env ?m] =>
    destruct (Hchat m) as [e ->]
  end.
  reflexivity.
Qed.

Lemma run_query_when_everything_fails_witness :
  Orchestrator.run_query
    (Orchestrator.mkCollaborators
       (λ _ _, Raise (RuntimeError "index unavailable"))
       (λ _ _, Raise (RuntimeError "network down"))
       failing_llm)
    "latest news" None
  = Return
      (Orchestrator.mkResponse (RouterAgent.decide "latest news" ∅) 0 0 [] "" "" []).
Proof.
  apply (run_query_when_everything_fails
           (Orchestrator.mkCollaborators
              (λ _ _, Raise (RuntimeError "index unavailable"))
              (λ _ _, Raise (RuntimeError "network down"))
              failing_llm)
           "latest news" None); intros; eexists; reflexivity.
Defined.

(** ** chunk_by_sections: the paragraphs *)

Section paragraphs_facts.

Import DocumentChunker.

Lemma split_nlnl_go_cons (s cur : string) :
  exists x l, Py.split_nlnl_go s cur = x :: l.
Proof.
  revert cur.
  assert ((forall cur, exists x l, Py.split_nlnl_go s cur = x :: l) /\
          (forall c cur, exists x l, Py.split_nlnl_go (String c s) cur = x :: l))
    as [H _]; [|exact H].
  induction s as [|c2 r2 [IH1 IH2]]; split; intros; simpl; eauto.
  destruct (Ascii.eqb c Py.newline && Ascii.eqb c2 Py.newline); eauto.
Qed.

Lemma split_nlnl_go_step (c c2 : ascii) (r2 cur : string) :
  Py.split_nlnl_go (String c (String c2 r2)) cur
  = if Ascii.eqb c Py.newline && Ascii.eqb c2 Py.newline
    then cur :: Py.split_nlnl_go r2 ""
    else Py.split_nlnl_go (String c2 r2) (cur +:+ String c "").
Proof. reflexivity. Qed.

Lemma join_cons_cons (sep x y : string) (l : list string) :
  Py.join sep (x :: y :: l) = x +:+ sep +:+ Py.join sep (y :: l).
Proof. reflexivity. Qed.

Lemma split_nlnl_go_join (s cur : string) :
  Py.join (String Py.newline (String Py.newline "")) (Py.split_nlnl_go s cur)
  = cur +:+ s.
Proof.
  revert cur.
  set (sep := String Py.newline (String Py.newline "")).
  assert ((forall cur, Py.join sep (Py.split_nlnl_go s cur) = cur +:+ s) /\
          (forall c cur,
             Py.join sep (Py.split_nlnl_go (String c s) cur) = cur +:+ String c s))
    as [H _]; [|exact H].
  induction s as [|c2 r2 [IH1 IH2]]; split; intros.
  - simpl. now rewrite append_empty_r.
  - reflexivity.
  - apply IH2.
  - rewrite split_nlnl_go_step.
    destruct (Ascii.eqb c Py.newline && Ascii.eqb c2 Py.newline) eqn:E.
    + apply andb_true_iff in E as [Ec Ec2].
      apply Ascii.eqb_eq in Ec, Ec2. subst c c2.
      destruct (split_nlnl_go_cons r2 "") as (x & l & Hx).
      pose proof (IH1 "") as Hj. rewrite Hx in *.
      rewrite join_cons_cons, Hj. reflexivity.
    + rewrite IH2, append_assoc. reflexivity.
Qed.

Lemma enumerate_snd {A : Type} (k : nat) (l : list A) :
  snd <$> Py.enumerate k l = l.
Proof. revert k. induction l; intros k; simpl; f_equal; auto. Qed.

Lemma sections_for_loop_contents (document_id src : string)
  (items : list (nat * string)) (chunks : list TextChunk) :
  content <$> Sections.for_loop document_id src items chunks
  = (content <$> chunks)
    ++ List.filter Py.nonempty (Py.strip <$> (snd <$> items)).
Proof.
  revert chunks. induction items as [|[idx para] rest IH]; intros chunks; simpl.
  - now rewrite app_nil_r.
  - destruct (Py.nonempty (Py.strip para)) eqn:E; rewrite IH.
    + rewrite fmap_app, <- app_assoc. reflexivity.
    + reflexivity.
Qed.

End paragraphs_facts.

(** X28. [chunk_by_sections] cuts the text at its blank-line separators
    without losing a character: the paragraphs joined by the separator are
    the text again. The chunk contents are the stripped paragraphs that are
    not empty, in order, so there are never more chunks than paragraphs. *)
Theorem chunk_by_sections_paragraphs (text document_id src : string) :
  let paragraphs := Py.split_nlnl text in
  let chunks := DocumentChunker.chunk_by_sections text document_id src in
  Py.join (String Py.newline (String Py.newline "")) paragraphs = text /\
  content <$> chunks = List.filter Py.nonempty (Py.strip <$> paragraphs) /\
  (length chunks <= length paragraphs)%nat.
Proof.
  intros paragraphs chunks.
  assert (content <$> chunks = List.filter Py.nonempty (Py.strip <$> paragraphs))
    as Hc.
  { unfold chunks, DocumentChunker.chunk_by_sections.
    rewrite sections_for_loop_contents, enumerate_snd. reflexivity. }
  split; [apply (split_nlnl_go_join text "")|]. split; [exact Hc|].
  rewrite <- (length_fmap content), Hc.
  etransitivity; [apply List.filter_length_le|]. now rewrite length_fmap.
Qed.
